(** * The timer and cooldown state machine of the WhatsApp assistant

    A shallow embedding of [TimerService] (services/TimerService.ts) and of
    the part of [StorageService] (services/StorageService.ts) it writes
    through to, followed by the properties of the scheduling core.

    Conventions of the embedding.
    - Instants and durations are JavaScript numbers holding integers; they
      are [Z] here.  [Date.now()] is an argument [now] of every operation
      that reads the clock.
    - A [NodeJS.Timeout] is a handle (a [nat]) into the table of pending
      [setTimeout] tasks; [clearTimeout] removes the entry, firing removes
      it and runs the closure that was scheduled.
    - [TimerState] values are JavaScript objects: the map [timers] holds
      references into a store of objects, so that a closure that captured
      an object keeps mutating that very object after the map entry has
      been replaced.
    - [emit] appends to the list of emitted events; listeners are outside
      the service.  [console.error] appends to a list of error entries;
      [console.log] is not recorded.
    - Promises returned by the storage layer are settled at the point of
      the call; a rejected write becomes the error entry its [.catch]
      handler prints.  SQLite errors themselves are not modelled.
    - A caller's callback runs to completion within the step that fires
      its timer, and the recovery routine runs in one step.
    - A task is due at [now + clampDelay delay]: Node runs a timeout whose
      delay is outside [1, 2^31 - 1] after one millisecond (the warning it
      prints for a delay that is too large is not recorded). *)

From stdpp Require Import gmap strings list.
From Stdlib Require Import ZArith Lia.

(** ** types/index.ts *)

(** Timer handles, object references and callback identities are
    natural numbers. *)
Abbreviation handle := nat (only parsing).
Abbreviation ref := nat (only parsing).
Abbreviation cbid := nat (only parsing).

Module TimerState.
Record t := mk {
  chatId : string;
  responseTimer : option handle;
  cooldownTimer : option handle;
  lastResponseTime : option Z;
  isInCooldown : bool }.

(** The object literal [{ chatId, isInCooldown: false }]. *)
Definition fresh (c : string) : t :=
  mk c None None None false.

Definition set_responseTimer (v : option handle) (st : t) : t :=
  mk (chatId st) v (cooldownTimer st) (lastResponseTime st) (isInCooldown st).
Definition set_cooldownTimer (v : option handle) (st : t) : t :=
  mk (chatId st) (responseTimer st) v (lastResponseTime st) (isInCooldown st).
Definition set_lastResponseTime (v : option Z) (st : t) : t :=
  mk (chatId st) (responseTimer st) (cooldownTimer st) v (isInCooldown st).
Definition set_isInCooldown (v : bool) (st : t) : t :=
  mk (chatId st) (responseTimer st) (cooldownTimer st) (lastResponseTime st) v.

#[global] Instance inhabited : Inhabited t := populate (fresh "").
End TimerState.

(** The two settings of [AppSettings] the timer service reads through
    [config.app]; the configuration module itself is a parameter. *)
Record AppSettings := {
  responseDelayMs : Z;
  cooldownPeriodMs : Z }.

(** Truthiness of an optional number: [undefined], [null] and [0] are falsy. *)
Definition truthy (v : option Z) : bool :=
  match v with
  | Some z => negb (z =? 0)%Z
  | None => false
  end.

(** ** services/StorageService.ts: the cooldown and timer tables *)

Module StorageService.
Local Open Scope Z_scope.

Inductive Status := active | inactive | archived.
Inductive TimerType := response | cooldown.

#[global] Instance Status_eq_dec : EqDecision Status.
Proof. solve_decision. Defined.
#[global] Instance TimerType_eq_dec : EqDecision TimerType.
Proof. solve_decision. Defined.

Module Conversation.
Record row := mk {
  id : Z;
  chat_id : string;
  last_activity : Z;
  status : Status }.
End Conversation.

Module Cooldown.
Record row := mk {
  id : Z;
  conversation_id : Z;
  start_time : Z;
  end_time : Z;
  is_active : bool }.
Definition deactivate (r : row) : row :=
  mk (id r) (conversation_id r) (start_time r) (end_time r) false.
End Cooldown.

Module Timer.
Record row := mk {
  id : Z;
  conversation_id : Z;
  start_time : Z;
  end_time : option Z;
  timer_type : TimerType;
  is_active : bool }.
End Timer.

Record Database := mkDatabase {
  conversations : list Conversation.row;
  cooldowns : list Cooldown.row;
  timers : list Timer.row }.

(** [Math.floor(Date.now() / 1000)] *)
Definition seconds (now : Z) : Z := now / 1000.

(** [lastID] of an AUTOINCREMENT insert: one more than every id in use. *)
Definition lastID (ids : list Z) : Z := 1 + foldr Z.max 0 ids.

Definition getConversation (db : Database) (chatId : string)
  : option Conversation.row :=
  List.find (fun r => bool_decide (Conversation.chat_id r = chatId))
            (conversations db).

(** [ORDER BY key DESC].  SQL leaves the order among rows with equal keys
    open; they are kept in the order of the table here.  No property
    below depends on the order among equal keys. *)
Fixpoint insertDesc {A} (key : A -> Z) (x : A) (l : list A) : list A :=
  match l with
  | [] => [x]
  | y :: l' => if key y <=? key x then x :: l else y :: insertDesc key x l'
  end.

Definition orderByDesc {A} (key : A -> Z) (l : list A) : list A :=
  foldr (insertDesc key) [] l.

(** [SELECT * FROM conversations WHERE status = 'active'
     ORDER BY last_activity DESC] *)
Definition getActiveConversations (db : Database) : list Conversation.row :=
  orderByDesc Conversation.last_activity
    (List.filter (fun r => bool_decide (Conversation.status r = active))
                 (conversations db)).

(** The [WHERE] clause shared by [isInCooldown] and
    [getRemainingCooldownTime]. *)
Definition running (cid now_s : Z) (r : Cooldown.row) : bool :=
  (Cooldown.conversation_id r =? cid) && Cooldown.is_active r
  && (now_s <? Cooldown.end_time r).

Definition deactivateActiveCooldowns (db : Database) (chatId : string)
  : Database :=
  match getConversation db chatId with
  | None => db
  | Some conv =>
      mkDatabase (conversations db)
        (map (fun r => if (Cooldown.conversation_id r =? Conversation.id conv)
                            && Cooldown.is_active r
                       then Cooldown.deactivate r else r)
             (cooldowns db))
        (timers db)
  end.

(** [None] is the rejection 'Conversation not found'. *)
Definition startCooldown (db : Database) (chatId : string) (durationMs now : Z)
  : option Database :=
  match getConversation db chatId with
  | None => None
  | Some conv =>
      let now_s := seconds now in
      let endTime := now_s + durationMs / 1000 in
      let db1 := deactivateActiveCooldowns db chatId in
      Some (mkDatabase (conversations db1)
              (cooldowns db1 ++
                 [Cooldown.mk (lastID (map Cooldown.id (cooldowns db1)))
                              (Conversation.id conv) now_s endTime true])
              (timers db1))
  end.

Definition isInCooldown (db : Database) (chatId : string) (now : Z) : bool :=
  match getConversation db chatId with
  | None => false
  | Some conv =>
      0 <? Z.of_nat (length (List.filter (running (Conversation.id conv) (seconds now))
                                         (cooldowns db)))
  end.

(** [ORDER BY end_time DESC LIMIT 1]: the largest [end_time] selected. *)
Definition latest_end (rows : list Cooldown.row) : option Z :=
  match rows with
  | [] => None
  | r :: rest => Some (foldr Z.max (Cooldown.end_time r) (map Cooldown.end_time rest))
  end.

Definition getRemainingCooldownTime (db : Database) (chatId : string) (now : Z) : Z :=
  match getConversation db chatId with
  | None => 0
  | Some conv =>
      let now_s := seconds now in
      match latest_end (List.filter (running (Conversation.id conv) now_s)
                                    (cooldowns db)) with
      | Some e => Z.max 0 ((e - now_s) * 1000)
      | None => 0
      end
  end.

(** [durationMs ? now + Math.floor(durationMs / 1000) : null] *)
Definition startTimer (db : Database) (chatId : string) (timerType : TimerType)
    (durationMs : option Z) (now : Z) : option Database :=
  match getConversation db chatId with
  | None => None
  | Some conv =>
      let now_s := seconds now in
      let endTime := if truthy durationMs
                     then Some (now_s + default 0 durationMs / 1000)
                     else None in
      Some (mkDatabase (conversations db) (cooldowns db)
              (timers db ++
                 [Timer.mk (lastID (map Timer.id (timers db)))
                           (Conversation.id conv) now_s endTime timerType true]))
  end.

(** [UPDATE timers SET is_active = 0, end_time = ? WHERE id = ?] *)
Definition endTimer (db : Database) (timerId now : Z) : Database :=
  mkDatabase (conversations db) (cooldowns db)
    (map (fun r => if Timer.id r =? timerId
                   then Timer.mk (Timer.id r) (Timer.conversation_id r)
                          (Timer.start_time r) (Some (seconds now))
                          (Timer.timer_type r) false
                   else r)
         (timers db)).

(** [SELECT * FROM timers WHERE conversation_id = ? AND is_active = 1
     [AND timer_type = ?] ORDER BY start_time DESC] *)
Definition getActiveTimers (db : Database) (chatId : string)
    (timerType : option TimerType) : list Timer.row :=
  match getConversation db chatId with
  | None => []
  | Some conv =>
      orderByDesc Timer.start_time
        (List.filter
           (fun r => (Timer.conversation_id r =? Conversation.id conv)
                     && Timer.is_active r
                     && match timerType with
                        | Some ty => bool_decide (Timer.timer_type r = ty)
                        | None => true
                        end)
           (timers db))
  end.

(** The first statement of [cleanup]:
    [UPDATE cooldowns SET is_active = 0 WHERE is_active = 1 AND end_time <= ?],
    with [Math.floor(Date.now() / 1000)] for the parameter.  The other
    statements of [cleanup] work on [created_at] and on the messages
    table, which are not among the columns kept here. *)
Definition cleanupExpiredCooldowns (db : Database) (now : Z) : Database :=
  mkDatabase (conversations db)
    (map (fun r => if Cooldown.is_active r && (Cooldown.end_time r <=? seconds now)
                   then Cooldown.deactivate r else r)
         (cooldowns db))
    (timers db).
End StorageService.

(** ** services/TimerService.ts *)

Module TimerService.

(** [TimerService.EVENTS], with the payload each [emit] passes. *)
Inductive Event :=
| RESPONSE_TIMER_EXPIRED (chatId : string)
| COOLDOWN_STARTED (chatId : string) (duration : Z)
| COOLDOWN_ENDED (chatId : string)
| TIMER_CANCELLED (chatId : string)
| GILAD_RESPONDED (chatId : string).

(** The [console.error] sites the model can reach. *)
Inductive ErrorEntry :=
| FailedToPersistResponseTimer (chatId : string)
| FailedToPersistCooldown (chatId : string)
| ErrorInResponseTimerCallback (chatId : string).

(** What a caller-supplied [callback: () => Promise<void>] does, as far
    as the service can see: the calls it makes on the service before it
    settles, and whether its promise resolves or rejects. *)
Inductive Call :=
| CallStartResponseTimer (chatId : string) (callback : cbid)
| CallStartCooldown (chatId : string) (duration : option Z)
| CallHandleGiladResponse (chatId : string)
| CallCancelTimer (chatId : string)
| CallClearCooldown (chatId : string).

Record Callback := {
  calls : list Call;
  resolves : bool }.

(** The four closures the service hands to [setTimeout]. *)
Inductive Task :=
| ResponseExpiry (chatId : string) (callback : cbid)
| CooldownEnd (timerState : ref) (chatId : string)
| RestoredCooldownEnd (chatId : string)
| RestoredResponseExpiry (chatId : string).

(** The [.then] reaction [isInCooldown] leaves behind; it captured the
    [timerState] it had looked up. *)
Inductive Job :=
| CheckCooldown (chatId : string) (timerState : option ref).

Record t := mk {
  timers : gmap string ref;
  heap : gmap ref TimerState.t;
  nextRef : ref;
  pending : gmap handle (Task * Z);
  nextHandle : handle;
  jobs : list Job;
  emitted : list Event;
  errors : list ErrorEntry;
  storage : StorageService.Database;
  isInitialized : bool }.

(** The service is a state machine over [t]; a method is a state
    transformer with a result ([unit] for [void]). *)
Definition M (A : Type) : Type := t -> A * t.

#[global] Instance M_ret : MRet M := fun A a s => (a, s).
#[global] Instance M_bind : MBind M :=
  fun A B f m s => let (a, s') := m s in f a s'.

Definition eval {A} (m : M A) (s : t) : A := fst (m s).
Definition exec {A} (m : M A) (s : t) : t := snd (m s).

Definition gets {A} (f : t -> A) : M A := fun s => (f s, s).

Fixpoint forEach {A} (l : list A) (f : A -> M unit) : M unit :=
  match l with
  | [] => mret tt
  | x :: l' => f x ;; forEach l' f
  end.

(** *** Runtime primitives *)

(** [TIMEOUT_MAX] of Node's timers: [2 ** 31 - 1]. *)
Definition TIMEOUT_MAX : Z := 2147483647.

(** Node's [if (!(after >= 1 && after <= TIMEOUT_MAX)) after = 1]: a
    delay below one millisecond or above [TIMEOUT_MAX] is replaced by one
    millisecond. *)
Definition clampDelay (delay : Z) : Z :=
  if (1 <=? delay)%Z && (delay <=? TIMEOUT_MAX)%Z then delay else 1%Z.

(** [setTimeout(task, delay)]: the task becomes due [clampDelay delay]
    after [now]. *)
Definition setTimeout (task : Task) (delay now : Z) : M handle := fun s =>
  (nextHandle s,
   mk (timers s) (heap s) (nextRef s)
      (<[nextHandle s := (task, (now + clampDelay delay)%Z)]> (pending s))
      (S (nextHandle s)) (jobs s) (emitted s) (errors s) (storage s)
      (isInitialized s)).

Definition clearTimeout (h : handle) : M unit := fun s =>
  (tt,
   mk (timers s) (heap s) (nextRef s) (delete h (pending s)) (nextHandle s)
      (jobs s) (emitted s) (errors s) (storage s) (isInitialized s)).

(** A new object. *)
Definition alloc (st : TimerState.t) : M ref := fun s =>
  (nextRef s,
   mk (timers s) (<[nextRef s := st]> (heap s)) (S (nextRef s)) (pending s)
      (nextHandle s) (jobs s) (emitted s) (errors s) (storage s)
      (isInitialized s)).

Definition read (o : ref) : M TimerState.t := gets (fun s => heap s !!! o).

Definition write (o : ref) (st : TimerState.t) : M unit := fun s =>
  (tt,
   mk (timers s) (<[o := st]> (heap s)) (nextRef s) (pending s) (nextHandle s)
      (jobs s) (emitted s) (errors s) (storage s) (isInitialized s)).

(** [this.timers.get(chatId)] and [this.timers.set(chatId, timerState)] *)
Definition timers_get (chatId : string) : M (option ref) :=
  gets (fun s => timers s !! chatId).

Definition timers_set (chatId : string) (o : ref) : M unit := fun s =>
  (tt,
   mk (<[chatId := o]> (timers s)) (heap s) (nextRef s) (pending s)
      (nextHandle s) (jobs s) (emitted s) (errors s) (storage s)
      (isInitialized s)).

Definition emit (e : Event) : M unit := fun s =>
  (tt,
   mk (timers s) (heap s) (nextRef s) (pending s) (nextHandle s) (jobs s)
      (emitted s ++ [e]) (errors s) (storage s) (isInitialized s)).

Definition console_error (e : ErrorEntry) : M unit := fun s =>
  (tt,
   mk (timers s) (heap s) (nextRef s) (pending s) (nextHandle s) (jobs s)
      (emitted s) (errors s ++ [e]) (storage s) (isInitialized s)).

Definition enqueue (j : Job) : M unit := fun s =>
  (tt,
   mk (timers s) (heap s) (nextRef s) (pending s) (nextHandle s)
      (jobs s ++ [j]) (emitted s) (errors s) (storage s) (isInitialized s)).

Definition set_storage (db : StorageService.Database) : M unit := fun s =>
  (tt,
   mk (timers s) (heap s) (nextRef s) (pending s) (nextHandle s) (jobs s)
      (emitted s) (errors s) db (isInitialized s)).

Definition set_isInitialized (b : bool) : M unit := fun s =>
  (tt,
   mk (timers s) (heap s) (nextRef s) (pending s) (nextHandle s) (jobs s)
      (emitted s) (errors s) (storage s) b).

(** [this.timers.delete(chatId)] and [this.timers.clear()] *)
Definition timers_delete (chatId : string) : M unit := fun s =>
  (tt,
   mk (delete chatId (timers s)) (heap s) (nextRef s) (pending s)
      (nextHandle s) (jobs s) (emitted s) (errors s) (storage s)
      (isInitialized s)).

Definition timers_clear : M unit := fun s =>
  (tt,
   mk ∅ (heap s) (nextRef s) (pending s) (nextHandle s) (jobs s) (emitted s)
      (errors s) (storage s) (isInitialized s)).

(** [this.timers.entries()] and [this.timers.values()].  A JavaScript map
    iterates in insertion order, which the finite map does not record:
    the lists below hold the same entries in the order of the keys. *)
Definition entries (s : t) : list (string * ref) := map_to_list (timers s).
Definition values (s : t) : list TimerState.t :=
  (fun e => heap s !!! e.2) <$> entries s.

(** A write-through whose rejection is printed by [.catch]. *)
Definition persist (w : StorageService.Database -> option StorageService.Database)
    (onReject : ErrorEntry) : M unit :=
  db ← gets storage;
  match w db with
  | Some db' => set_storage db'
  | None => console_error onReject
  end.

(** The state in which the constructor returns: [initializeService] has
    been entered and is suspended at its first [await]. *)
Definition new (storage : StorageService.Database) : t :=
  mk ∅ ∅ 0 ∅ 0 [] [] [] storage false.

Section Methods.
Context (config : AppSettings).

(** *** Public methods *)

Definition cancelTimer (chatId : string) : M unit :=
  timerState ← timers_get chatId;
  match timerState with
  | None => mret tt
  | Some o =>
      st ← read o;
      match TimerState.responseTimer st with
      | Some h =>
          clearTimeout h ;;
          write o (TimerState.set_responseTimer None st) ;;
          emit (TIMER_CANCELLED chatId)
      | None => mret tt
      end
  end.

Definition startResponseTimer (chatId : string) (callback : cbid) (now : Z)
  : M unit :=
  cancelTimer chatId ;;
  h ← setTimeout (ResponseExpiry chatId callback) (responseDelayMs config) now;
  o ← alloc (TimerState.mk chatId (Some h) None None false);
  timers_set chatId o ;;
  persist (fun db => StorageService.startTimer db chatId StorageService.response
                       (Some (responseDelayMs config)) now)
          (FailedToPersistResponseTimer chatId).

Definition startCooldown (chatId : string) (duration : Z) (now : Z) : M unit :=
  cur ← timers_get chatId;
  o ← match cur with
       | Some o => mret o
       | None => alloc (TimerState.fresh chatId)
       end;
  st ← read o;
  match TimerState.cooldownTimer st with
  | Some h => clearTimeout h
  | None => mret tt
  end ;;
  match TimerState.responseTimer st with
  | Some h => clearTimeout h ;; write o (TimerState.set_responseTimer None st)
  | None => mret tt
  end ;;
  st ← read o;
  h ← setTimeout (CooldownEnd o chatId) duration now;
  write o (TimerState.set_cooldownTimer (Some h)
             (TimerState.set_lastResponseTime (Some now)
                (TimerState.set_isInCooldown true st))) ;;
  timers_set chatId o ;;
  persist (fun db => StorageService.startCooldown db chatId duration now)
          (FailedToPersistCooldown chatId) ;;
  emit (COOLDOWN_STARTED chatId duration).

Definition handleGiladResponse (chatId : string) (now : Z) : M unit :=
  cancelTimer chatId ;;
  startCooldown chatId (cooldownPeriodMs config) now ;;
  emit (GILAD_RESPONDED chatId).

Definition isInCooldown (chatId : string) : M bool :=
  timerState ← timers_get chatId;
  flag ← match timerState with
          | Some o => st ← read o; mret (TimerState.isInCooldown st)
          | None => mret false
          end;
  if flag : bool then mret true
  else
    enqueue (CheckCooldown chatId timerState) ;;
    match timerState with
    | Some o => st ← read o; mret (TimerState.isInCooldown st)
    | None => mret false
    end.

Definition getRemainingTime (chatId : string) (now : Z) : M Z :=
  timerState ← timers_get chatId;
  match timerState with
  | None => mret 0%Z
  | Some o =>
      st ← read o;
      if TimerState.isInCooldown st && truthy (TimerState.lastResponseTime st)
      then
        let elapsed := (now - default 0 (TimerState.lastResponseTime st))%Z in
        let remaining := (cooldownPeriodMs config - elapsed)%Z in
        mret (Z.max 0 remaining)
      else if bool_decide (is_Some (TimerState.responseTimer st))
      then mret (responseDelayMs config)
      else mret 0%Z
  end.

Definition clearCooldown (chatId : string) (now : Z) : M unit :=
  timerState ← timers_get chatId;
  match timerState with
  | Some o =>
      st ← read o;
      match TimerState.cooldownTimer st with
      | Some h =>
          clearTimeout h ;;
          write o (TimerState.set_isInCooldown false
                     (TimerState.set_cooldownTimer None st))
      | None => mret tt
      end
  | None => mret tt
  end ;;
  db ← gets storage;
  forEach (StorageService.getActiveTimers db chatId (Some StorageService.cooldown))
    (fun timer =>
       db ← gets storage;
       set_storage (StorageService.endTimer db (StorageService.Timer.id timer) now)).

Definition isReady : M bool := gets isInitialized.

(** [timer.responseTimer || timer.cooldownTimer || timer.isInCooldown] *)
Definition isActive (st : TimerState.t) : bool :=
  bool_decide (is_Some (TimerState.responseTimer st))
  || bool_decide (is_Some (TimerState.cooldownTimer st))
  || TimerState.isInCooldown st.

Definition getActiveTimers : M (list TimerState.t) :=
  gets (fun s => List.filter isActive (values s)).

Record TimerStats := {
  totalTimers : nat;
  activeResponseTimers : nat;
  chatsInCooldown : nat;
  activeTimers : nat }.

Definition getTimerStats : M TimerStats :=
  gets (fun s =>
    let timers := values s in
    {| totalTimers := length timers;
       activeResponseTimers :=
         length (List.filter
                   (fun st => bool_decide (is_Some (TimerState.responseTimer st)))
                   timers);
       chatsInCooldown := length (List.filter TimerState.isInCooldown timers);
       activeTimers := length (List.filter isActive timers) |}).

(** The body of the loop of [cleanup] for one entry; the result tells
    whether the key is pushed on [toRemove]. *)
Definition cleanupEntry (now : Z) (e : string * ref) : M bool :=
  st ← read e.2;
  let hasTimer :=
    bool_decide (is_Some (TimerState.responseTimer st))
    || bool_decide (is_Some (TimerState.cooldownTimer st)) in
  stillCooling ←
    (if TimerState.isInCooldown st && truthy (TimerState.lastResponseTime st)
     then
       let elapsed := (now - default 0 (TimerState.lastResponseTime st))%Z in
       if (elapsed <? cooldownPeriodMs config)%Z then mret true
       else
         write e.2 (TimerState.set_cooldownTimer None
                      (TimerState.set_isInCooldown false st)) ;;
         mret false
     else mret false);
  let shouldRemove := negb hasTimer && negb stillCooling in
  let lastActivity :=
    if truthy (TimerState.lastResponseTime st)
    then default 0%Z (TimerState.lastResponseTime st) else 0%Z in
  mret (shouldRemove && (24 * 60 * 60 * 1000 <? now - lastActivity)%Z).

Fixpoint cleanupEntries (now : Z) (es : list (string * ref)) : M (list string) :=
  match es with
  | [] => mret []
  | e :: es' =>
      remove ← cleanupEntry now e;
      rest ← cleanupEntries now es';
      mret (if remove : bool then e.1 :: rest else rest)
  end.

(** The in-memory part of [cleanup]: the sweep over the entries and the
    removal of the keys collected. *)
Definition cleanupTimers (now : Z) : M unit :=
  es ← gets entries;
  toRemove ← cleanupEntries now es;
  forEach toRemove timers_delete.

(** The body of the loop of [destroy]: both handles of an entry are
    cleared. *)
Definition destroyEntry (e : string * ref) : M unit :=
  st ← read e.2;
  match TimerState.responseTimer st with
  | Some h => clearTimeout h
  | None => mret tt
  end ;;
  match TimerState.cooldownTimer st with
  | Some h => clearTimeout h
  | None => mret tt
  end.

(** [destroy], for the timers the service holds: every handle a map
    entry holds is cleared, the map is emptied and the service is no
    longer ready (the cron job and the listeners are not part of the
    state kept here). *)
Definition destroy : M unit :=
  es ← gets entries;
  forEach es destroyEntry ;;
  timers_clear ;;
  set_isInitialized false.

(** *** Recovery *)

Definition restoreCooldown (chatId : string) (now : Z) : M unit :=
  db ← gets storage;
  if StorageService.isInCooldown db chatId now then
    let remainingTime := StorageService.getRemainingCooldownTime db chatId now in
    if (0 <? remainingTime)%Z then
      h ← setTimeout (RestoredCooldownEnd chatId) remainingTime now;
      o ← alloc (TimerState.mk chatId None (Some h)
                    (Some (now - (cooldownPeriodMs config - remainingTime))%Z)
                    true);
      timers_set chatId o
    else mret tt
  else mret tt.

Definition restoreResponseTimer (chatId : string) (now : Z)
    (timer : StorageService.Timer.row) : M unit :=
  if truthy (StorageService.Timer.end_time timer) then
    let endTime := (default 0 (StorageService.Timer.end_time timer) * 1000)%Z in
    let remainingTime := (endTime - now)%Z in
    if (0 <? remainingTime)%Z then
      cur ← timers_get chatId;
      o ← match cur with
           | Some o => mret o
           | None => alloc (TimerState.fresh chatId)
           end;
      h ← setTimeout (RestoredResponseExpiry chatId) remainingTime now;
      st ← read o;
      write o (TimerState.set_responseTimer (Some h) st) ;;
      timers_set chatId o
    else
      db ← gets storage;
      set_storage (StorageService.endTimer db (StorageService.Timer.id timer) now)
  else mret tt.

(** The loop body of [restoreTimersFromDatabase] for one conversation. *)
Definition restoreConversation (now : Z) (conv : StorageService.Conversation.row)
  : M unit :=
  let chatId := StorageService.Conversation.chat_id conv in
  restoreCooldown chatId now ;;
  db ← gets storage;
  forEach (StorageService.getActiveTimers db chatId (Some StorageService.response))
          (restoreResponseTimer chatId now).

(** The [await]s of the routine are run through in one piece, at one
    reading [now] of the clock. *)
Definition restoreTimersFromDatabase (now : Z) : M unit :=
  db ← gets storage;
  forEach (StorageService.getActiveConversations db) (restoreConversation now).

(** The remainder of [initializeService] after the constructor has
    returned (the cron registration is left out). *)
Definition initializeService (now : Z) : M unit :=
  restoreTimersFromDatabase now ;;
  set_isInitialized true.

(** *** Timer expiry and promise reactions *)

Context (callbacks : cbid -> Callback).

Definition applyCall (now : Z) (c : Call) : M unit :=
  match c with
  | CallStartResponseTimer chatId cb => startResponseTimer chatId cb now
  | CallStartCooldown chatId d =>
      startCooldown chatId (default (cooldownPeriodMs config) d) now
  | CallHandleGiladResponse chatId => handleGiladResponse chatId now
  | CallCancelTimer chatId => cancelTimer chatId
  | CallClearCooldown chatId => clearCooldown chatId now
  end.

(** [await callback()]: [true] when the promise resolves. *)
Definition invoke (cb : cbid) (now : Z) : M bool :=
  forEach (calls (callbacks cb)) (applyCall now) ;;
  mret (resolves (callbacks cb)).

(** "Remove the timer reference": [const state = this.timers.get(chatId);
    if (state) state.responseTimer = undefined]. *)
Definition removeTimerReference (chatId : string) : M unit :=
  state ← timers_get chatId;
  match state with
  | Some o => st ← read o; write o (TimerState.set_responseTimer None st)
  | None => mret tt
  end.

Definition runTask (task : Task) (now : Z) : M unit :=
  match task with
  | ResponseExpiry chatId cb =>
      removeTimerReference chatId ;;
      ok ← invoke cb now;
      if ok : bool then emit (RESPONSE_TIMER_EXPIRED chatId)
      else console_error (ErrorInResponseTimerCallback chatId)
  | CooldownEnd o chatId =>
      st ← read o;
      write o (TimerState.set_cooldownTimer None
                 (TimerState.set_isInCooldown false st)) ;;
      emit (COOLDOWN_ENDED chatId)
  | RestoredCooldownEnd chatId =>
      state ← timers_get chatId;
      match state with
      | Some o =>
          st ← read o;
          write o (TimerState.set_cooldownTimer None
                     (TimerState.set_isInCooldown false st))
      | None => mret tt
      end ;;
      emit (COOLDOWN_ENDED chatId)
  | RestoredResponseExpiry chatId =>
      removeTimerReference chatId ;;
      emit (RESPONSE_TIMER_EXPIRED chatId)
  end.

(** The event loop runs the task behind handle [h]: only a task that
    is still pending and due runs, and it leaves the table first.
    The result tells whether a task ran. *)
Definition fire (h : handle) (now : Z) : M bool :=
  p ← gets pending;
  match p !! h with
  | Some (task, due) =>
      if (due <=? now)%Z
      then clearTimeout h ;; runTask task now ;; mret true
      else mret false
  | None => mret false
  end.

(** The body of the reaction [isInCooldown] left in [jobs], run once the
    storage lookup has settled. *)
Definition runJob (j : Job) (now : Z) : M unit :=
  match j with
  | CheckCooldown chatId timerState =>
      db ← gets storage;
      if StorageService.isInCooldown db chatId now then
        match timerState with
        | Some o => st ← read o; write o (TimerState.set_isInCooldown true st)
        | None => mret tt
        end
      else mret tt
  end.
End Methods.
End TimerService.

Import TimerService.

(** ** Observations *)

(** [this.timers.get(chatId)], dereferenced. *)
Definition lookupState (chatId : string) (s : t) : option TimerState.t :=
  o ← timers s !! chatId; Some (heap s !!! o).

Definition hasResponseTimer (chatId : string) (s : t) : bool :=
  match lookupState chatId s with
  | Some st => bool_decide (is_Some (TimerState.responseTimer st))
  | None => false
  end.

(** [e1] is emitted before [e2] in the log [l]. *)
Definition precedes (e1 e2 : Event) (l : list Event) : Prop :=
  exists l1 l2 l3, l = l1 ++ e1 :: l2 ++ e2 :: l3.

(** A callback table that differs only in that every promise resolves. *)
Definition succeeding (callbacks : cbid -> Callback) : cbid -> Callback :=
  fun i => {| calls := calls (callbacks i); resolves := true |}.

(** ** Well-formed states: every map entry points to an allocated object
    that carries its key, and every pending handle has been issued. *)

Definition wf (s : t) : Prop :=
  (forall c o, timers s !! c = Some o ->
     o < nextRef s /\ TimerState.chatId (heap s !!! o) = c)
  /\ (forall h, is_Some (pending s !! h) -> h < nextHandle s).

(** The conversations and cooldown rows are those of [db]. *)
Definition sameLedger (db : StorageService.Database) (s : t) : Prop :=
  StorageService.conversations (storage s) = StorageService.conversations db
  /\ StorageService.cooldowns (storage s) = StorageService.cooldowns db.

(** Facts about one conversation [c] that recovery maintains. *)
Definition cooldownRestored (c : string) (lrt due : Z) (s : t) : Prop :=
  exists o h,
    timers s !! c = Some o
    /\ TimerState.isInCooldown (heap s !!! o) = true
    /\ TimerState.lastResponseTime (heap s !!! o) = Some lrt
    /\ pending s !! h = Some (RestoredCooldownEnd c, due).

Definition noCooldown (c : string) (s : t) : Prop :=
  (forall o, timers s !! c = Some o -> TimerState.isInCooldown (heap s !!! o) = false)
  /\ (forall h due, pending s !! h <> Some (RestoredCooldownEnd c, due)).

(** ** Consistent states *)

(** The invariant of [TimerState]: a conversation in cooldown holds no
    response timer. *)
Definition cooldownExcludesResponseTimer (s : t) : Prop :=
  forall c st, lookupState c s = Some st ->
    TimerState.isInCooldown st = true -> TimerState.responseTimer st = None.

(** The tasks that are response-timer callbacks of [c]. *)
Definition isResponseTask (c : string) (task : Task) : bool :=
  match task with
  | ResponseExpiry c' _ | RestoredResponseExpiry c' => bool_decide (c' = c)
  | CooldownEnd _ _ | RestoredCooldownEnd _ => false
  end.

(** Every pending response task is the one its conversation tracks. *)
Definition tracked (s : t) : Prop :=
  forall h task due c,
    pending s !! h = Some (task, due) -> isResponseTask c task = true ->
    exists st, lookupState c s = Some st /\ TimerState.responseTimer st = Some h.

Definition consistent (s : t) : Prop :=
  wf s /\ cooldownExcludesResponseTimer s /\ tracked s.

(** ** Fixtures: the settings of tests/fixtures/mockData.js and a ledger
    with one active conversation *)

Definition mockConfig : AppSettings :=
  {| responseDelayMs := 120000; cooldownPeriodMs := 18000000 |}.

Definition chatA_only : StorageService.Database :=
  StorageService.mkDatabase
    [StorageService.Conversation.mk 1 "chatA" 1700000000 StorageService.active]
    [] [].

Definition quiet : cbid -> Callback := fun _ => {| calls := []; resolves := true |}.
Definition throwing : cbid -> Callback := fun _ => {| calls := []; resolves := false |}.

(** An instant of the clock, in milliseconds. *)
Definition t0 : Z := 1700000000000.

(** ** Scenarios *)

(** A new process started at [now] on the ledger the process [s] left
    behind. *)
Definition restart (now : Z) (s : t) : t :=
  exec (initializeService mockConfig now) (new (storage s)).

(** Two messages of a new thread arrive one second apart; each starts the
    response timer. *)
Definition twoResponseTimers : t :=
  exec (startResponseTimer mockConfig "chatA" 1 (t0 + 1000)%Z)
    (exec (startResponseTimer mockConfig "chatA" 0 t0) (new chatA_only)).

(** A message starts the response timer and the owner answers a second
    later. *)
Definition ownerAnswered : t :=
  exec (handleGiladResponse mockConfig "chatA" (t0 + 1000)%Z)
    (exec (startResponseTimer mockConfig "chatA" 0 t0) (new chatA_only)).

(** The owner answers at [t0]: the conversation is in cooldown. *)
Definition inCooldown : t :=
  exec (handleGiladResponse mockConfig "chatA" t0) (new chatA_only).

(** Ledgers with one cooldown row for chatA: ending one second after
    [t0], ended before [t0], and ending after [t0] in an archived
    conversation. *)
Definition runningCooldown : StorageService.Database :=
  StorageService.mkDatabase
    [StorageService.Conversation.mk 1 "chatA" 1700000000 StorageService.active]
    [StorageService.Cooldown.mk 1 1 1699982001 1700000001 true] [].

Definition lapsedCooldown : StorageService.Database :=
  StorageService.mkDatabase
    [StorageService.Conversation.mk 1 "chatA" 1700000000 StorageService.active]
    [StorageService.Cooldown.mk 1 1 1699981000 1699999000 true] [].

(** A ledger whose cooldown row of chatA ends thirty days after [t0]. *)
Definition farCooldown : StorageService.Database :=
  StorageService.mkDatabase
    [StorageService.Conversation.mk 1 "chatA" 1700000000 StorageService.active]
    [StorageService.Cooldown.mk 1 1 1700000000 1702592000 true] [].

Definition archivedCooldown : StorageService.Database :=
  StorageService.mkDatabase
    [StorageService.Conversation.mk 1 "chatA" 1700000000 StorageService.archived]
    [StorageService.Cooldown.mk 1 1 1699982001 1700000001 true] [].

(** A step of a running service: a method is called, the event loop fires
    a timer, or [isInCooldown] is queried. *)
Inductive Step :=
| Method (call : Call) (now : Z)
| Expire (h : handle) (now : Z)
| Query (chatId : string).

Definition step (config : AppSettings) (callbacks : cbid -> Callback) (st : Step)
  : M unit :=
  match st with
  | Method call now => applyCall config now call
  | Expire h now => fire config callbacks h now ;; mret tt
  | Query c => isInCooldown c ;; mret tt
  end.

(** ** Notions used to state what the remaining methods do *)

(** The row [startCooldown] inserts for the conversation [conv]. *)
Definition newCooldownRow (db : StorageService.Database)
    (conv : StorageService.Conversation.row) (d now : Z) : StorageService.Cooldown.row :=
  StorageService.Cooldown.mk
    (StorageService.lastID
       (map StorageService.Cooldown.id
          (StorageService.cooldowns
             (StorageService.deactivateActiveCooldowns db
                (StorageService.Conversation.chat_id conv)))))
    (StorageService.Conversation.id conv) (StorageService.seconds now)
    (StorageService.seconds now + d / 1000)%Z true.

(** The row [startTimer] inserts for the conversation [conv]. *)
Definition newTimerRow (db : StorageService.Database)
    (conv : StorageService.Conversation.row) (ty : StorageService.TimerType)
    (d : option Z) (now : Z) : StorageService.Timer.row :=
  StorageService.Timer.mk
    (StorageService.lastID (map StorageService.Timer.id (StorageService.timers db)))
    (StorageService.Conversation.id conv) (StorageService.seconds now)
    (if truthy d then Some (StorageService.seconds now + default 0 d / 1000)%Z else None)
    ty true.

(** The optional [timerType] filter of [getActiveTimers]. *)
Definition typeMatches (ty : option StorageService.TimerType)
    (r : StorageService.Timer.row) : Prop :=
  match ty with
  | Some k => StorageService.Timer.timer_type r = k
  | None => True
  end.

(** Every map entry belongs to an active conversation of [db] and holds a
    handle. *)
Definition restoredFrom (db : StorageService.Database) (s : t) : Prop :=
  forall c o, timers s !! c = Some o ->
    (exists conv, conv ∈ StorageService.conversations db
                  /\ StorageService.Conversation.chat_id conv = c
                  /\ StorageService.Conversation.status conv = StorageService.active)
    /\ (is_Some (TimerState.responseTimer (heap s !!! o))
        \/ is_Some (TimerState.cooldownTimer (heap s !!! o))).

(** The conversation a call is about. *)
Definition chatOf (call : Call) : string :=
  match call with
  | CallStartResponseTimer c _ | CallStartCooldown c _ | CallHandleGiladResponse c
  | CallCancelTimer c | CallClearCooldown c => c
  end.

(** Some map entry holds the handle [h]. *)
Definition held (s : t) (h : handle) : Prop :=
  exists c o, timers s !! c = Some o
    /\ (TimerState.responseTimer (heap s !!! o) = Some h
        \/ TimerState.cooldownTimer (heap s !!! o) = Some h).

(** The cooldown of [st] has run its configured period at [now]. *)
Definition lapsed (config : AppSettings) (now : Z) (st : TimerState.t) : bool :=
  TimerState.isInCooldown st && truthy (TimerState.lastResponseTime st)
  && negb (now - default 0 (TimerState.lastResponseTime st) <? cooldownPeriodMs config)%Z.

(** What the sweep of [cleanup] leaves of [st]. *)
Definition swept (config : AppSettings) (now : Z) (st : TimerState.t) : TimerState.t :=
  if lapsed config now st
  then TimerState.set_cooldownTimer None (TimerState.set_isInCooldown false st)
  else st.

(** [st] holds no handle, is in no running cooldown and has been without
    activity for more than a day. *)
Definition idle (config : AppSettings) (now : Z) (st : TimerState.t) : bool :=
  bool_decide (TimerState.responseTimer st = None)
  && bool_decide (TimerState.cooldownTimer st = None)
  && negb (TimerState.isInCooldown st && truthy (TimerState.lastResponseTime st)
           && (now - default 0 (TimerState.lastResponseTime st) <? cooldownPeriodMs config)%Z)
  && (24 * 60 * 60 * 1000 <? now - default 0 (TimerState.lastResponseTime st))%Z.



(** A ledger with a response timer of chatA still running. *)
Definition runningResponseTimer : StorageService.Database :=
  StorageService.mkDatabase
    [StorageService.Conversation.mk 1 "chatA" 1700000000 StorageService.active]
    []
    [StorageService.Timer.mk 1 1 1700000000 (Some 1700000120%Z) StorageService.response true].

(** ** Running the state monad *)

Lemma exec_bind {A B} (m : M A) (f : A -> M B) (s : t) :
  exec (m ≫= f) s = exec (f (eval m s)) (exec m s).
Proof. unfold exec, eval, mbind, M_bind. by destruct (m s). Qed.

Lemma eval_bind {A B} (m : M A) (f : A -> M B) (s : t) :
  eval (m ≫= f) s = eval (f (eval m s)) (exec m s).
Proof. unfold exec, eval, mbind, M_bind. by destruct (m s). Qed.

Lemma exec_ret {A} (a : A) (s : t) : exec (mret a) s = s.
Proof. reflexivity. Qed.

Lemma eval_gets {A} (f : t -> A) (s : t) : eval (gets f) s = f s.
Proof. reflexivity. Qed.
Lemma exec_gets {A} (f : t -> A) (s : t) : exec (gets f) s = s.
Proof. reflexivity. Qed.

Lemma exec_forEach_cons {A} (x : A) (l : list A) (f : A -> M unit) (s : t) :
  exec (forEach (x :: l) f) s = exec (forEach l f) (exec (f x) s).
Proof. simpl. by rewrite exec_bind. Qed.

(** An invariant of every iteration is an invariant of the loop. *)
Lemma forEach_invariant {A} (P : t -> Prop) (l : list A) (f : A -> M unit) :
  (forall x s, x ∈ l -> P s -> P (exec (f x) s)) ->
  forall s, P s -> P (exec (forEach l f) s).
Proof.
  induction l as [|x l IH]; intros Hf s Hs; [done|].
  rewrite exec_forEach_cons. apply IH.
  - intros y s' Hy. apply Hf. by right.
  - apply Hf; [by left|done].
Qed.

Lemma exec_forEach_app {A} (l1 l2 : list A) (f : A -> M unit) (s : t) :
  exec (forEach (l1 ++ l2) f) s = exec (forEach l2 f) (exec (forEach l1 f) s).
Proof.
  revert s. induction l1 as [|x l1 IH]; intros s; [done|].
  rewrite <- app_comm_cons, !exec_forEach_cons. apply IH.
Qed.

(** If one iteration establishes [Q] and all later ones keep it, the loop
    ends in [Q]; [P] is the invariant the iterations may rely on. *)
Lemma forEach_establishes {A} (P Q : t -> Prop) (l : list A) (f : A -> M unit) (x0 : A) :
  x0 ∈ l ->
  (forall x s, x ∈ l -> P s -> P (exec (f x) s)) ->
  (forall s, P s -> Q (exec (f x0) s)) ->
  (forall x s, x ∈ l -> P s -> Q s -> Q (exec (f x) s)) ->
  forall s, P s -> Q (exec (forEach l f) s).
Proof.
  intros Hin HP Hest Hkeep s Hs.
  apply list_elem_of_split in Hin as (l1 & l2 & ->).
  rewrite exec_forEach_app, exec_forEach_cons.
  assert (H1 : P (exec (forEach l1 f) s)).
  { apply forEach_invariant; [|done].
    intros x s' Hx. apply HP. apply elem_of_app. by left. }
  assert (Hx0 : x0 ∈ l1 ++ x0 :: l2).
  { apply elem_of_app. right. by left. }
  apply (forEach_invariant (fun s => P s /\ Q s)).
  - intros x s' Hx [HPs HQs].
    assert (x ∈ l1 ++ x0 :: l2).
    { apply elem_of_app. right. by right. }
    split; [by apply HP | by apply Hkeep].
  - split; [by apply HP | by apply Hest].
Qed.

Ltac mprims :=
  unfold persist, timers_get, read in *;
  unfold setTimeout, clearTimeout, alloc, write, timers_set, emit, console_error,
    enqueue, set_storage, set_isInitialized, gets in *;
  unfold exec, eval, mbind, M_bind, mret, M_ret in *.

Ltac mcases :=
  repeat (simpl in *; rewrite ?lookup_total_insert_eq in *; case_match; simplify_eq);
  simpl in *; rewrite ?lookup_total_insert_eq in *.

(** ** The delay of a timeout *)

Lemma clampDelay_in_range (d : Z) :
  (1 <= d <= TIMEOUT_MAX)%Z -> clampDelay d = d.
Proof.
  intros [H1 H2]. unfold clampDelay.
  apply Z.leb_le in H1, H2. by rewrite H1, H2.
Qed.

Lemma clampDelay_above (d : Z) : (TIMEOUT_MAX < d)%Z -> clampDelay d = 1%Z.
Proof.
  intros H. unfold clampDelay. apply Z.leb_gt in H. rewrite H.
  by rewrite andb_false_r.
Qed.

Lemma clampDelay_below (d : Z) : (d < 1)%Z -> clampDelay d = 1%Z.
Proof. intros H. unfold clampDelay. apply Z.leb_gt in H. by rewrite H. Qed.

Lemma clampDelay_bounds (d : Z) : (1 <= clampDelay d <= TIMEOUT_MAX)%Z.
Proof.
  unfold clampDelay, TIMEOUT_MAX.
  destruct (Z.leb_spec 1 d); destruct (Z.leb_spec d 2147483647); simpl; lia.
Qed.

(** ** Properties of the scheduling core *)

Section Properties.
  Context (config : AppSettings).

Lemma cancelTimer_exec (c : string) (s : t) :
  exec (cancelTimer c) s =
  match timers s !! c with
  | Some o =>
      match TimerState.responseTimer (heap s !!! o) with
      | Some h =>
          mk (timers s)
             (<[o := TimerState.set_responseTimer None (heap s !!! o)]> (heap s))
             (nextRef s) (delete h (pending s)) (nextHandle s) (jobs s)
             (emitted s ++ [TIMER_CANCELLED c]) (errors s) (storage s)
             (isInitialized s)
      | None => s
      end
  | None => s
  end.
Proof. unfold cancelTimer. mprims. by mcases. Qed.

Lemma cancelTimer_emitted (c : string) (s : t) :
  emitted (exec (cancelTimer c) s)
  = emitted s ++ (if hasResponseTimer c s then [TIMER_CANCELLED c] else []).
Proof.
  rewrite cancelTimer_exec. unfold hasResponseTimer, lookupState.
  destruct (timers s !! c) as [o|]; simpl; [|by rewrite app_nil_r].
  destruct (TimerState.responseTimer (heap s !!! o)); simpl; [done|].
  by rewrite app_nil_r.
Qed.

Lemma startCooldown_emitted (c : string) (d now : Z) (s : t) :
  emitted (exec (startCooldown c d now) s) = emitted s ++ [COOLDOWN_STARTED c d].
Proof. destruct s. unfold startCooldown. mprims. by mcases. Qed.

(** C10. The query surface is total.  Both in-memory queries are total
    functions of the state; for a conversation id without timer state
    [isInCooldown] answers [false] and [getRemainingTime] answers [0]. *)
Theorem query_surface_total (c : string) (now : Z) (s : t) :
  timers s !! c = None ->
  eval (isInCooldown c) s = false /\ eval (getRemainingTime config c now) s = 0%Z.
Proof.
  intros H. unfold isInCooldown, getRemainingTime. mprims. by rewrite H.
Qed.

(** C8.  [cancelTimer] cancels the response timer and nothing else, and
    its result tells nothing.  When the conversation holds a response
    timer, the timeout of that handle is taken from the timer table (so
    it cannot fire), the handle is reset in the state and
    [TIMER_CANCELLED] is emitted; the event is emitted in that case only.
    The method logs no error, afterwards no response timer is held for
    the conversation, a call without a response timer changes nothing (so
    neither does a second call in a row), the cooldown fields of every
    object are untouched, and the only task it takes from the timer table
    is that response timer.  The result is the same in every case: the
    method is [void]. *)
Theorem cancelTimer_signals_by_event (c : string) (s : t) :
  let s' := exec (cancelTimer c) s in
  eval (cancelTimer c) s = tt
  /\ emitted s' = emitted s ++ (if hasResponseTimer c s then [TIMER_CANCELLED c] else [])
  /\ errors s' = errors s
  /\ hasResponseTimer c s' = false
  /\ (forall st h, lookupState c s = Some st -> TimerState.responseTimer st = Some h ->
        pending s' = delete h (pending s)
        /\ lookupState c s' = Some (TimerState.set_responseTimer None st))
  /\ (hasResponseTimer c s = false -> s' = s)
  /\ exec (cancelTimer c) s' = s'
  /\ (forall o, TimerState.cooldownTimer (heap s' !!! o) = TimerState.cooldownTimer (heap s !!! o)
             /\ TimerState.isInCooldown (heap s' !!! o) = TimerState.isInCooldown (heap s !!! o)
             /\ TimerState.lastResponseTime (heap s' !!! o) = TimerState.lastResponseTime (heap s !!! o))
  /\ (forall h, is_Some (pending s !! h) -> pending s' !! h = None ->
        exists st, lookupState c s = Some st /\ TimerState.responseTimer st = Some h).
Proof.
  cbv zeta.
  assert (Hcancel : forall st h,
            lookupState c s = Some st -> TimerState.responseTimer st = Some h ->
            pending (exec (cancelTimer c) s) = delete h (pending s)
            /\ lookupState c (exec (cancelTimer c) s)
               = Some (TimerState.set_responseTimer None st)).
  { intros st h. rewrite cancelTimer_exec. unfold lookupState.
    destruct (timers s !! c) as [o|] eqn:Ho; simpl; [|done].
    intros [= <-] Hh. rewrite Hh. simpl. rewrite Ho. simpl.
    by rewrite lookup_total_insert_eq. }
  split; [by destruct (eval (cancelTimer c) s)|].
  split; [apply cancelTimer_emitted|].
  revert Hcancel. rewrite !cancelTimer_exec. unfold hasResponseTimer, lookupState.
  destruct (timers s !! c) as [o|] eqn:Ho; simpl.
  2:{ rewrite Ho. simpl. intros Hcancel. split_and!; try done.
      intros h [x Hx] Hn. congruence. }
  destruct (TimerState.responseTimer (heap s !!! o)) as [h|] eqn:Hh; simpl.
  2:{ rewrite Ho. simpl. rewrite Hh. simpl. intros Hcancel. split_and!; try done.
      intros h [x Hx] Hn. congruence. }
  rewrite Ho. simpl. rewrite lookup_total_insert_eq. simpl.
  intros Hcancel. split_and!; try done.
  - intros o0. destruct (decide (o = o0)) as [<-|Hne].
    + by rewrite lookup_total_insert_eq.
    + by rewrite lookup_total_insert_ne.
  - intros h' [x Hx] Hn. exists (heap s !!! o). split; [done|].
    destruct (decide (h = h')) as [->|Hne]; [done|].
    rewrite lookup_delete_ne in Hn by done. congruence.
Qed.

(** C5, amended.  [handleGiladResponse] emits [TIMER_CANCELLED] exactly
    when the conversation held a response timer, then the cooldown-start
    event and then the owner-responded event: [COOLDOWN_STARTED] comes
    before [GILAD_RESPONDED], and nothing else is emitted. *)
Theorem handleGiladResponse_event_order (c : string) (now : Z) (s : t) :
  emitted (exec (handleGiladResponse config c now) s) =
    emitted s
    ++ (if hasResponseTimer c s then [TIMER_CANCELLED c] else [])
    ++ [COOLDOWN_STARTED c (cooldownPeriodMs config); GILAD_RESPONDED c].
Proof.
  unfold handleGiladResponse. rewrite !exec_bind.
  change (emitted (exec (emit (GILAD_RESPONDED c)) ?x))
    with (emitted x ++ [GILAD_RESPONDED c]).
  rewrite startCooldown_emitted, cancelTimer_emitted, <- !app_assoc.
  reflexivity.
Qed.

Lemma startCooldown_state (c : string) (d now : Z) (s : t) :
  exists o h,
    let s' := exec (startCooldown c d now) s in
    timers s' !! c = Some o
    /\ TimerState.isInCooldown (heap s' !!! o) = true
    /\ TimerState.responseTimer (heap s' !!! o) = None
    /\ TimerState.cooldownTimer (heap s' !!! o) = Some h
    /\ TimerState.lastResponseTime (heap s' !!! o) = Some now
    /\ pending s' !! h = Some (CooldownEnd o c, (now + clampDelay d)%Z).
Proof.
  destruct s. unfold startCooldown. mprims.
  mcases; eexists _, _; simpl;
    rewrite ?lookup_insert_eq, ?lookup_total_insert_eq; simpl; repeat split; done.
Qed.

Lemma startCooldown_exec (c : string) (d now : Z) (s : t) :
  exec (startCooldown c d now) s =
  let o := default (nextRef s) (timers s !! c) in
  let heap1 := match timers s !! c with
               | Some _ => heap s
               | None => <[nextRef s := TimerState.fresh c]> (heap s)
               end in
  let st := heap1 !!! o in
  let pending1 := match TimerState.cooldownTimer st with
                  | Some h => delete h (pending s)
                  | None => pending s
                  end in
  let pending2 := match TimerState.responseTimer st with
                  | Some h => delete h pending1
                  | None => pending1
                  end in
  let db := StorageService.startCooldown (storage s) c d now in
  mk (<[c := o]> (timers s))
     (<[o := TimerState.mk (TimerState.chatId st) None (Some (nextHandle s))
                (Some now) true]> heap1)
     (match timers s !! c with Some _ => nextRef s | None => S (nextRef s) end)
     (<[nextHandle s := (CooldownEnd o c, (now + clampDelay d)%Z)]> pending2)
     (S (nextHandle s)) (jobs s)
     (emitted s ++ [COOLDOWN_STARTED c d])
     (match db with
      | Some _ => errors s
      | None => errors s ++ [FailedToPersistCooldown c]
      end)
     (default (storage s) db)
     (isInitialized s).
Proof.
  destruct s. unfold startCooldown. mprims.
  mcases; rewrite ?insert_insert_eq; try done.
  all: unfold TimerState.set_cooldownTimer, TimerState.set_lastResponseTime,
         TimerState.set_isInCooldown; simpl.
  all: match goal with H : TimerState.responseTimer _ = None |- _ => by rewrite H end.
Qed.

Lemma pending_after_clears (st : TimerState.t) (p : gmap handle (Task * Z)) (h : handle) x :
  match TimerState.responseTimer st with
  | Some h => delete h match TimerState.cooldownTimer st with
                       | Some h => delete h p
                       | None => p
                       end
  | None => match TimerState.cooldownTimer st with
            | Some h => delete h p
            | None => p
            end
  end !! h = Some x ->
  p !! h = Some x /\ TimerState.responseTimer st <> Some h.
Proof.
  destruct (TimerState.responseTimer st) as [hr|], (TimerState.cooldownTimer st) as [hc|];
    rewrite ?lookup_delete_Some; intros H; split; try tauto; try done.
  all: intros [= ->]; tauto.
Qed.

(** C7, amended.  For a cooldown started by [startCooldown c d] at a
    non-zero instant [start], [getRemainingTime] is
    [max 0 (cooldownPeriodMs - (now - start))] with the configured period,
    whatever [d] was; it is the claim's [max 0 (d - (now - start))] when
    [d] is the configured period.  For a conversation that is not in
    cooldown and holds a response timer it is the configured response
    delay. *)
Theorem getRemainingTime_uses_configured_period (c : string) (d start now : Z) (s : t) :
  (start <> 0%Z ->
   eval (getRemainingTime config c now) (exec (startCooldown c d start) s)
   = Z.max 0 (cooldownPeriodMs config - (now - start)))
  /\ (start <> 0%Z -> d = cooldownPeriodMs config ->
      eval (getRemainingTime config c now) (exec (startCooldown c d start) s)
      = Z.max 0 (d - (now - start)))
  /\ (forall st, lookupState c s = Some st ->
        TimerState.isInCooldown st = false ->
        is_Some (TimerState.responseTimer st) ->
        eval (getRemainingTime config c now) s = responseDelayMs config).
Proof.
  assert (H : start <> 0%Z ->
   eval (getRemainingTime config c now) (exec (startCooldown c d start) s)
   = Z.max 0 (cooldownPeriodMs config - (now - start))).
  { intros Ht. destruct (startCooldown_state c d start s) as (o & h & Ho & Hc & _ & _ & Hl & _).
    revert Ho Hc Hl. cbv zeta. generalize (exec (startCooldown c d start) s). intros s' Ho Hc Hl.
    unfold getRemainingTime. mprims. rewrite Ho. simpl. rewrite Hc, Hl. simpl.
    destruct (Z.eqb_spec start 0); [done|]. done. }
  split; [done|]. split; [intros Ht ->; by apply H|].
  intros st Hst Hc Hr. unfold lookupState in Hst.
  unfold getRemainingTime. mprims.
  destruct (timers s !! c) as [o|]; [|done]. simpl in *. simplify_eq.
  rewrite Hc. simpl. by rewrite bool_decide_eq_true_2.
Qed.

Lemma fire_due (callbacks : cbid -> Callback) (h : handle) (task : Task) (due now : Z) (s : t) :
  pending s !! h = Some (task, due) ->
  (due <= now)%Z ->
  eval (fire config callbacks h now) s = true
  /\ exec (fire config callbacks h now) s
     = exec (runTask config callbacks task now) (exec (clearTimeout h) s).
Proof.
  intros Hp Hdue. unfold fire.
  rewrite eval_bind, exec_bind, eval_gets, exec_gets, Hp. destruct (Z.leb_spec due now); [|lia].
  rewrite eval_bind, !exec_bind, eval_bind. done.
Qed.

Lemma runTask_ResponseExpiry (callbacks : cbid -> Callback) (c : string) (cb : cbid) (now : Z) (s : t) :
  exec (runTask config callbacks (ResponseExpiry c cb) now) s
  = exec (if resolves (callbacks cb) then emit (RESPONSE_TIMER_EXPIRED c)
          else console_error (ErrorInResponseTimerCallback c))
      (exec (forEach (calls (callbacks cb)) (applyCall config now))
         (exec (removeTimerReference c) s)).
Proof.
  simpl. rewrite exec_bind. unfold invoke. rewrite !exec_bind, !eval_bind. done.
Qed.

Lemma removeTimerReference_spec (c : string) (s : t) :
  hasResponseTimer c (exec (removeTimerReference c) s) = false
  /\ pending (exec (removeTimerReference c) s) = pending s.
Proof.
  unfold hasResponseTimer, lookupState, removeTimerReference. mprims.
  destruct (timers s !! c) as [o|] eqn:Ho; simpl; rewrite Ho; simpl; [|done].
  by rewrite lookup_total_insert_eq.
Qed.

(** C9.  When the response timer of [c] fires and the caller's callback
    rejects, [fire] completes normally, the failure is logged, and the
    state of the machine is the one a resolving callback would have left:
    same map, objects, timer table, counters and ledger.  Only the error
    entry is added and the [RESPONSE_TIMER_EXPIRED] event of the
    successful path is missing.  The timer reference had been removed
    before the callback ran. *)
Theorem callback_failure_is_absorbed (callbacks : cbid -> Callback) (h : handle) (c : string) (cb : cbid) (due now : Z) (s : t) :
  pending s !! h = Some (ResponseExpiry c cb, due) ->
  (due <= now)%Z ->
  resolves (callbacks cb) = false ->
  let s' := exec (fire config callbacks h now) s in
  let ok := exec (fire config (succeeding callbacks) h now) s in
  eval (fire config callbacks h now) s = true
  /\ errors s' = errors ok ++ [ErrorInResponseTimerCallback c]
  /\ emitted ok = emitted s' ++ [RESPONSE_TIMER_EXPIRED c]
  /\ timers s' = timers ok /\ heap s' = heap ok /\ pending s' = pending ok
  /\ nextHandle s' = nextHandle ok /\ nextRef s' = nextRef ok
  /\ jobs s' = jobs ok /\ storage s' = storage ok
  /\ isInitialized s' = isInitialized ok
  /\ (calls (callbacks cb) = [] ->
      hasResponseTimer c s' = false /\ pending s' = delete h (pending s)).
Proof.
  intros Hp Hdue Hrej. cbv zeta.
  destruct (fire_due callbacks h _ due now s Hp Hdue) as [Hev ->].
  destruct (fire_due (succeeding callbacks) h _ due now s Hp Hdue) as [_ ->].
  split; [done|].
  rewrite !runTask_ResponseExpiry. simpl. rewrite Hrej.
  set (s1 := exec (removeTimerReference c) (exec (clearTimeout h) s)).
  set (s2 := exec (forEach (calls (callbacks cb)) (applyCall config now)) s1).
  split_and!; try done.
  intros Hnil. subst s2. rewrite Hnil.
  destruct (removeTimerReference_spec c (exec (clearTimeout h) s)) as [Hr Hq].
  split; [exact Hr | exact Hq].
Qed.

(** *** Recovery *)

Lemma restoreCooldown_exec (c : string) (now : Z) (s : t) :
  exec (restoreCooldown config c now) s =
  let remainingTime := StorageService.getRemainingCooldownTime (storage s) c now in
  if StorageService.isInCooldown (storage s) c now && (0 <? remainingTime)%Z then
    mk (<[c := nextRef s]> (timers s))
       (<[nextRef s := TimerState.mk c None (Some (nextHandle s))
                         (Some (now - (cooldownPeriodMs config - remainingTime))%Z) true]>
          (heap s))
       (S (nextRef s))
       (<[nextHandle s := (RestoredCooldownEnd c, (now + clampDelay remainingTime)%Z)]>
          (pending s))
       (S (nextHandle s)) (jobs s) (emitted s) (errors s) (storage s) (isInitialized s)
  else s.
Proof. unfold restoreCooldown. mprims. by mcases. Qed.


(** The object [this.timers.get(chatId) || { chatId, isInCooldown: false }]
    and the store once it exists. *)
Lemma getOrCreate_facts (c : string) (s : t) :
  wf s ->
  let o := default (nextRef s) (timers s !! c) in
  let heap1 := match timers s !! c with
               | Some _ => heap s
               | None => <[nextRef s := TimerState.fresh c]> (heap s)
               end in
  let nextRef1 := match timers s !! c with
                  | Some _ => nextRef s
                  | None => S (nextRef s)
                  end in
  TimerState.chatId (heap1 !!! o) = c
  /\ o < nextRef1
  /\ nextRef s <= nextRef1
  /\ (forall c' o', c' <> c -> timers s !! c' = Some o' ->
        o' <> o /\ heap1 !!! o' = heap s !!! o')
  /\ (forall o', timers s !! c = Some o' -> o' = o /\ heap1 = heap s)
  /\ (timers s !! c = None -> heap1 !!! o = TimerState.fresh c).
Proof.
  intros [Hr Hh]. cbv zeta.
  destruct (timers s !! c) as [o|] eqn:Ho; simpl.
  - destruct (Hr _ _ Ho) as [Hlt Hc]. split_and!; try done.
    + intros c' o' Hne Ho'. split; [|done]. intros ->.
      destruct (Hr _ _ Ho') as [_ ?]. congruence.
    + by intros o' [= <-].
  - rewrite lookup_total_insert_eq. split_and!; try done; try lia.
    intros c' o' Hne Ho'. destruct (Hr _ _ Ho') as [Hlt _].
    split; [lia|]. by rewrite lookup_total_insert_ne by lia.
Qed.

Lemma restoreResponseTimer_exec (c : string) (now : Z)
    (timer : StorageService.Timer.row) (s : t) :
  exec (restoreResponseTimer c now timer) s =
  let remainingTime :=
    (default 0 (StorageService.Timer.end_time timer) * 1000 - now)%Z in
  if truthy (StorageService.Timer.end_time timer) then
    if (0 <? remainingTime)%Z then
      let o := default (nextRef s) (timers s !! c) in
      let heap1 := match timers s !! c with
                   | Some _ => heap s
                   | None => <[nextRef s := TimerState.fresh c]> (heap s)
                   end in
      mk (<[c := o]> (timers s))
         (<[o := TimerState.set_responseTimer (Some (nextHandle s)) (heap1 !!! o)]> heap1)
         (match timers s !! c with Some _ => nextRef s | None => S (nextRef s) end)
         (<[nextHandle s := (RestoredResponseExpiry c, (now + clampDelay remainingTime)%Z)]>
            (pending s))
         (S (nextHandle s)) (jobs s) (emitted s) (errors s) (storage s)
         (isInitialized s)
    else
      mk (timers s) (heap s) (nextRef s) (pending s) (nextHandle s) (jobs s)
         (emitted s) (errors s)
         (StorageService.endTimer (storage s) (StorageService.Timer.id timer) now)
         (isInitialized s)
  else s.
Proof. unfold restoreResponseTimer. mprims. destruct s. by mcases. Qed.

Lemma restoreResponseTimer_wf (c : string) (now : Z) (timer : StorageService.Timer.row) (s : t) :
  wf s -> wf (exec (restoreResponseTimer c now timer) s).
Proof.
  intros Hwf. rewrite restoreResponseTimer_exec. cbv zeta.
  destruct (truthy _); [|done]. destruct (_ <? _)%Z; [|done].
  destruct (getOrCreate_facts c s Hwf) as (Hchat & Hlt & Hle & Hother & _).
  destruct Hwf as [Hr Hh]. split; simpl.
  - intros c' o'. destruct (decide (c = c')) as [<-|Hd].
    + rewrite lookup_insert_eq. intros [= <-]. by rewrite lookup_total_insert_eq.
    + rewrite lookup_insert_ne by done. intros Ho'.
      destruct (Hother c' o' ltac:(done) Ho') as [Hne Hheap].
      rewrite lookup_total_insert_ne by done. rewrite Hheap.
      destruct (Hr _ _ Ho') as [? ?]. split; [lia|done].
  - intros h [x Hx]. destruct (decide (nextHandle s = h)) as [<-|Hd]; [lia|].
    rewrite lookup_insert_ne in Hx by done.
    assert (h < nextHandle s) by (apply Hh; eauto). lia.
Qed.

Lemma restoreResponseTimer_sameLedger db (c : string) (now : Z) (timer : StorageService.Timer.row) (s : t) :
  sameLedger db s -> sameLedger db (exec (restoreResponseTimer c now timer) s).
Proof.
  intros H. rewrite restoreResponseTimer_exec. cbv zeta.
  destruct (truthy _); [|done]. by destruct (_ <? _)%Z.
Qed.

Lemma restoreResponseTimer_cooldownRestored (c c' : string) (lrt due now : Z)
    (timer : StorageService.Timer.row) (s : t) :
  wf s -> cooldownRestored c lrt due s ->
  cooldownRestored c lrt due (exec (restoreResponseTimer c' now timer) s).
Proof.
  intros Hwf (o & h & Ho & Hc & Hl & Hp). rewrite restoreResponseTimer_exec. cbv zeta.
  destruct (truthy _); [|by exists o, h]. destruct (_ <? _)%Z; [|by exists o, h].
  destruct (getOrCreate_facts c' s Hwf) as (_ & _ & _ & Hother & Hsame & _).
  destruct Hwf as [Hr Hh].
  assert (Hh' : nextHandle s <> h).
  { intros <-. assert (nextHandle s < nextHandle s) by (apply Hh; eauto). lia. }
  exists o, h. simpl. rewrite (lookup_insert_ne _ _ _ _ Hh').
  destruct (decide (c' = c)) as [->|Hd].
  - destruct (Hsame o Ho) as [<- ->].
    rewrite lookup_insert_eq, lookup_total_insert_eq. done.
  - destruct (Hother c o ltac:(done) Ho) as [Hne Hheap].
    rewrite lookup_insert_ne by done.
    rewrite lookup_total_insert_ne by done. by rewrite Hheap.
Qed.

Lemma restoreResponseTimer_noCooldown (c c' : string) (now : Z)
    (timer : StorageService.Timer.row) (s : t) :
  wf s -> noCooldown c s ->
  noCooldown c (exec (restoreResponseTimer c' now timer) s).
Proof.
  intros Hwf [Hc Hp]. rewrite restoreResponseTimer_exec. cbv zeta.
  destruct (truthy _); [|done]. destruct (_ <? _)%Z; [|done].
  destruct (getOrCreate_facts c' s Hwf) as (_ & _ & _ & Hother & Hsame & Hnew).
  split; simpl.
  - intros o. destruct (decide (c' = c)) as [->|Hd].
    + rewrite lookup_insert_eq. intros [= <-]. rewrite lookup_total_insert_eq. simpl.
      destruct (timers s !! c) as [o|] eqn:Ho; simpl.
      * by apply Hc.
      * by rewrite lookup_total_insert_eq.
    + rewrite lookup_insert_ne by done. intros Ho.
      destruct (Hother c o ltac:(done) Ho) as [Hne Hheap].
      rewrite lookup_total_insert_ne by done. rewrite Hheap. by apply Hc.
  - intros h due. destruct (decide (nextHandle s = h)) as [<-|Hd].
    + by rewrite lookup_insert_eq.
    + rewrite lookup_insert_ne by done. apply Hp.
Qed.

Lemma restoreCooldown_wf (c : string) (now : Z) (s : t) :
  wf s -> wf (exec (restoreCooldown config c now) s).
Proof.
  intros [Hr Hh]. rewrite restoreCooldown_exec. cbv zeta.
  case_match; [|done]. split; simpl.
  - intros c' o'. rewrite lookup_insert. case_decide; simplify_eq.
    + intros [= <-]. rewrite lookup_total_insert_eq. split; [lia|done].
    + intros Ho'. destruct (Hr _ _ Ho') as [? ?]. split; [lia|].
      by rewrite lookup_total_insert_ne by lia.
  - intros h'. rewrite lookup_insert. case_decide; simplify_eq; [lia|].
    intros Hs. apply Hh in Hs. lia.
Qed.

Lemma restoreCooldown_sameLedger db (c : string) (now : Z) (s : t) :
  sameLedger db s -> sameLedger db (exec (restoreCooldown config c now) s).
Proof.
  intros H. rewrite restoreCooldown_exec. cbv zeta. by case_match.
Qed.

Lemma restoreCooldown_other_cooldownRestored (c c' : string) (lrt due now : Z) (s : t) :
  c' <> c -> wf s -> cooldownRestored c lrt due s ->
  cooldownRestored c lrt due (exec (restoreCooldown config c' now) s).
Proof.
  intros Hne [Hr Hh] (o & h & Ho & Hc & Hl & Hp).
  rewrite restoreCooldown_exec. cbv zeta. case_match; [|by exists o, h].
  exists o, h. simpl. destruct (Hr _ _ Ho) as [Hlt _].
  rewrite lookup_insert_ne by done. rewrite lookup_total_insert_ne by lia.
  split_and!; try done.
  rewrite lookup_insert_ne; [done|]. intros <-.
  assert (is_Some (pending s !! nextHandle s)) as Hs by eauto. apply Hh in Hs. lia.
Qed.

Lemma restoreCooldown_other_noCooldown (c c' : string) (now : Z) (s : t) :
  c' <> c -> wf s -> noCooldown c s ->
  noCooldown c (exec (restoreCooldown config c' now) s).
Proof.
  intros Hne [Hr Hh] [Hc Hp].
  rewrite restoreCooldown_exec. cbv zeta. case_match; [|done].
  split; simpl.
  - intros o. rewrite lookup_insert_ne by done. intros Ho.
    destruct (Hr _ _ Ho) as [Hlt _]. rewrite lookup_total_insert_ne by lia. by apply Hc.
  - intros h due. rewrite lookup_insert. case_decide; simplify_eq; [|apply Hp].
    intros [= ? ?]. done.
Qed.

Lemma restoreCooldown_establishes (c : string) (now : Z) (s : t) :
  StorageService.isInCooldown (storage s) c now = true ->
  (0 < StorageService.getRemainingCooldownTime (storage s) c now)%Z ->
  cooldownRestored c
    (now - (cooldownPeriodMs config - StorageService.getRemainingCooldownTime (storage s) c now))
    (now + clampDelay (StorageService.getRemainingCooldownTime (storage s) c now))
    (exec (restoreCooldown config c now) s).
Proof.
  intros Hin Hrem. rewrite restoreCooldown_exec. cbv zeta. rewrite Hin.
  destruct (Z.ltb_spec 0 (StorageService.getRemainingCooldownTime (storage s) c now)); [|lia].
  simpl. exists (nextRef s), (nextHandle s). simpl.
  by rewrite !lookup_insert_eq, lookup_total_insert_eq.
Qed.

Lemma restoreCooldown_lapsed (c : string) (now : Z) (s : t) :
  StorageService.isInCooldown (storage s) c now = false ->
  exec (restoreCooldown config c now) s = s.
Proof. intros Hin. rewrite restoreCooldown_exec. cbv zeta. by rewrite Hin. Qed.

(** The storage queries of recovery read the conversations and the
    cooldown rows only. *)
Lemma isInCooldown_sameLedger db (c : string) (now : Z) (s : t) :
  sameLedger db s ->
  StorageService.isInCooldown (storage s) c now = StorageService.isInCooldown db c now
  /\ StorageService.getRemainingCooldownTime (storage s) c now
     = StorageService.getRemainingCooldownTime db c now.
Proof.
  intros [H1 H2].
  unfold StorageService.isInCooldown, StorageService.getRemainingCooldownTime,
    StorageService.getConversation.
  by rewrite H1, H2.
Qed.

Lemma restoreConversation_exec (now : Z) (conv : StorageService.Conversation.row) (s : t) :
  exec (restoreConversation config now conv) s =
  let c := StorageService.Conversation.chat_id conv in
  let s1 := exec (restoreCooldown config c now) s in
  exec (forEach (StorageService.getActiveTimers (storage s1) c (Some StorageService.response))
          (restoreResponseTimer c now)) s1.
Proof.
  unfold restoreConversation. cbv zeta. by rewrite !exec_bind, eval_gets, exec_gets.
Qed.

Lemma restoreConversation_inv db (now : Z) (conv : StorageService.Conversation.row) (s : t) :
  wf s /\ sameLedger db s ->
  wf (exec (restoreConversation config now conv) s)
  /\ sameLedger db (exec (restoreConversation config now conv) s).
Proof.
  intros [Hwf Hdb]. rewrite restoreConversation_exec. cbv zeta.
  apply (forEach_invariant (fun s => wf s /\ sameLedger db s)).
  - intros timer s' _ [? ?]. split.
    + by apply restoreResponseTimer_wf.
    + by apply restoreResponseTimer_sameLedger.
  - split; [by apply restoreCooldown_wf | by apply restoreCooldown_sameLedger].
Qed.

Lemma restoreConversation_keeps_cooldownRestored db (c : string) (lrt due now : Z)
    (conv : StorageService.Conversation.row) (s : t) :
  StorageService.Conversation.chat_id conv <> c ->
  wf s /\ sameLedger db s -> cooldownRestored c lrt due s ->
  cooldownRestored c lrt due (exec (restoreConversation config now conv) s).
Proof.
  intros Hne [Hwf Hdb] HQ. rewrite restoreConversation_exec. cbv zeta.
  apply (forEach_invariant (fun s => wf s /\ cooldownRestored c lrt due s)).
  - intros timer s' _ [? ?]. split.
    + by apply restoreResponseTimer_wf.
    + by apply restoreResponseTimer_cooldownRestored.
  - split; [by apply restoreCooldown_wf|].
    by apply restoreCooldown_other_cooldownRestored.
Qed.

Lemma restoreConversation_establishes db (c : string) (now : Z)
    (conv : StorageService.Conversation.row) (s : t) :
  StorageService.Conversation.chat_id conv = c ->
  StorageService.isInCooldown db c now = true ->
  (0 < StorageService.getRemainingCooldownTime db c now)%Z ->
  wf s /\ sameLedger db s ->
  cooldownRestored c
    (now - (cooldownPeriodMs config - StorageService.getRemainingCooldownTime db c now))
    (now + clampDelay (StorageService.getRemainingCooldownTime db c now))
    (exec (restoreConversation config now conv) s).
Proof.
  intros <- Hin Hrem [Hwf Hdb]. rewrite restoreConversation_exec. cbv zeta.
  destruct (isInCooldown_sameLedger db (StorageService.Conversation.chat_id conv) now s Hdb)
    as [E1 E2].
  apply (forEach_invariant (fun s => wf s /\ cooldownRestored _ _ _ s)).
  - intros timer s' _ [? ?]. split.
    + by apply restoreResponseTimer_wf.
    + by apply restoreResponseTimer_cooldownRestored.
  - split; [by apply restoreCooldown_wf|].
    rewrite <- E2. apply restoreCooldown_establishes; by rewrite ?E1, ?E2.
Qed.

Lemma restoreConversation_noCooldown db (c : string) (now : Z)
    (conv : StorageService.Conversation.row) (s : t) :
  StorageService.isInCooldown db c now = false ->
  wf s /\ sameLedger db s -> noCooldown c s ->
  noCooldown c (exec (restoreConversation config now conv) s).
Proof.
  intros Hin [Hwf Hdb] HQ. rewrite restoreConversation_exec. cbv zeta.
  apply (forEach_invariant (fun s => wf s /\ noCooldown c s)).
  - intros timer s' _ [? ?]. split.
    + by apply restoreResponseTimer_wf.
    + by apply restoreResponseTimer_noCooldown.
  - split; [by apply restoreCooldown_wf|].
    destruct (decide (StorageService.Conversation.chat_id conv = c)) as [->|Hne].
    + rewrite restoreCooldown_lapsed; [done|].
      by destruct (isInCooldown_sameLedger db c now s Hdb) as [-> _].
    + by apply restoreCooldown_other_noCooldown.
Qed.

Lemma restoreTimersFromDatabase_exec (now : Z) (s : t) :
  exec (restoreTimersFromDatabase config now) s
  = exec (forEach (StorageService.getActiveConversations (storage s))
            (restoreConversation config now)) s.
Proof. unfold restoreTimersFromDatabase. by rewrite exec_bind, eval_gets, exec_gets. Qed.

Lemma new_wf db : wf (new db) /\ sameLedger db (new db).
Proof.
  split; [split|done].
  - intros c o H. simpl in H. by rewrite lookup_empty in H.
  - intros h [x H]. simpl in H. by rewrite lookup_empty in H.
Qed.


(** *** The ledger queries *)

Lemma insertDesc_Permutation {A} (key : A -> Z) (x : A) (l : list A) :
  StorageService.insertDesc key x l ≡ₚ x :: l.
Proof.
  induction l as [|y l IH]; [done|]. simpl. case_match; [done|].
  rewrite IH. apply Permutation_swap.
Qed.

Lemma orderByDesc_Permutation {A} (key : A -> Z) (l : list A) :
  StorageService.orderByDesc key l ≡ₚ l.
Proof.
  induction l as [|x l IH]; [done|].
  unfold StorageService.orderByDesc in *. simpl.
  by rewrite insertDesc_Permutation, IH.
Qed.

Lemma getConversation_Some db (c : string) conv :
  StorageService.getConversation db c = Some conv ->
  StorageService.Conversation.chat_id conv = c
  /\ conv ∈ StorageService.conversations db.
Proof.
  unfold StorageService.getConversation. intros H.
  apply List.find_some in H as [Hin Hc].
  apply bool_decide_eq_true in Hc. split; [done|]. by apply list_elem_of_In.
Qed.

Lemma getActiveConversations_elem db conv :
  conv ∈ StorageService.conversations db ->
  StorageService.Conversation.status conv = StorageService.active ->
  conv ∈ StorageService.getActiveConversations db.
Proof.
  intros Hin Hst. unfold StorageService.getActiveConversations.
  rewrite orderByDesc_Permutation. apply list_elem_of_In, List.filter_In.
  split; [by apply list_elem_of_In|]. by apply bool_decide_eq_true.
Qed.

Lemma foldr_max_ge (z : Z) (l : list Z) :
  (z <= foldr Z.max z l)%Z /\ (forall x, x ∈ l -> x <= foldr Z.max z l)%Z
  /\ (foldr Z.max z l = z \/ foldr Z.max z l ∈ l).
Proof.
  induction l as [|y l (IH1 & IH2 & IH3)]; simpl.
  - split; [lia|]. split; [|by left]. intros x Hx. by apply elem_of_nil in Hx.
  - split; [lia|]. split.
    + intros x Hx. apply elem_of_cons in Hx as [->|Hx]; [lia|].
      specialize (IH2 x Hx). lia.
    + destruct (Z.max_spec y (foldr Z.max z l)) as [[_ ->]|[_ ->]].
      * destruct IH3 as [->|?]; [by left|]. right. by right.
      * right. by left.
Qed.

Lemma latest_end_spec (rows : list StorageService.Cooldown.row) (r : StorageService.Cooldown.row) :
  r ∈ rows ->
  (forall r', r' ∈ rows ->
     (StorageService.Cooldown.end_time r' <= StorageService.Cooldown.end_time r)%Z) ->
  StorageService.latest_end rows = Some (StorageService.Cooldown.end_time r).
Proof.
  intros Hin Hmax. destruct rows as [|r0 rest]; [by apply elem_of_nil in Hin|].
  simpl. f_equal.
  destruct (foldr_max_ge (StorageService.Cooldown.end_time r0)
              (map StorageService.Cooldown.end_time rest)) as (H1 & H2 & H3).
  assert (Hle : (foldr Z.max (StorageService.Cooldown.end_time r0)
                   (map StorageService.Cooldown.end_time rest)
                 <= StorageService.Cooldown.end_time r)%Z).
  { destruct H3 as [->|H3].
    - apply Hmax. by left.
    - apply list_elem_of_fmap in H3 as (r' & -> & Hr'). apply Hmax. by right. }
  assert (Hge : (StorageService.Cooldown.end_time r
                 <= foldr Z.max (StorageService.Cooldown.end_time r0)
                      (map StorageService.Cooldown.end_time rest))%Z).
  { apply elem_of_cons in Hin as [->|Hin]; [done|].
    apply H2. apply list_elem_of_fmap. by exists r. }
  lia.
Qed.

Lemma running_elem (cid now_s : Z) (rows : list StorageService.Cooldown.row) r :
  r ∈ List.filter (StorageService.running cid now_s) rows <->
  r ∈ rows /\ StorageService.Cooldown.conversation_id r = cid
  /\ StorageService.Cooldown.is_active r = true
  /\ (now_s < StorageService.Cooldown.end_time r)%Z.
Proof.
  rewrite list_elem_of_In, List.filter_In, <- list_elem_of_In.
  unfold StorageService.running. rewrite !andb_true_iff, Z.eqb_eq, Z.ltb_lt. tauto.
Qed.

(** An instant in milliseconds lies before the end of a row exactly when
    its second does. *)
Lemma future_seconds (now e : Z) :
  (now < e * 1000 <-> StorageService.seconds now < e)%Z.
Proof.
  unfold StorageService.seconds.
  pose proof (Z.div_mod now 1000 ltac:(lia)).
  pose proof (Z.mod_pos_bound now 1000 ltac:(lia)). lia.
Qed.

Lemma storage_running db (c : string) conv (now : Z) r :
  StorageService.getConversation db c = Some conv ->
  r ∈ StorageService.cooldowns db ->
  StorageService.Cooldown.conversation_id r = StorageService.Conversation.id conv ->
  StorageService.Cooldown.is_active r = true ->
  (now < StorageService.Cooldown.end_time r * 1000)%Z ->
  (forall r', r' ∈ StorageService.cooldowns db ->
     StorageService.Cooldown.conversation_id r' = StorageService.Conversation.id conv ->
     StorageService.Cooldown.is_active r' = true ->
     (StorageService.Cooldown.end_time r' <= StorageService.Cooldown.end_time r)%Z) ->
  StorageService.isInCooldown db c now = true
  /\ StorageService.getRemainingCooldownTime db c now
     = ((StorageService.Cooldown.end_time r - StorageService.seconds now) * 1000)%Z.
Proof.
  intros Hconv Hin Hcid Hact Hfut Hmax.
  unfold StorageService.isInCooldown, StorageService.getRemainingCooldownTime.
  rewrite Hconv. cbv zeta.
  assert (Hr : r ∈ List.filter (StorageService.running (StorageService.Conversation.id conv)
                                  (StorageService.seconds now))
                               (StorageService.cooldowns db)).
  { apply running_elem. split_and!; try done. by apply future_seconds. }
  split.
  - destruct (List.filter _ _); [by apply elem_of_nil in Hr|]. done.
  - rewrite (latest_end_spec _ r Hr).
    + apply future_seconds in Hfut. lia.
    + intros r' Hr'. apply running_elem in Hr' as (? & ? & ? & ?). by apply Hmax.
Qed.

Lemma storage_lapsed db (c : string) conv (now : Z) :
  StorageService.getConversation db c = Some conv ->
  (forall r, r ∈ StorageService.cooldowns db ->
     StorageService.Cooldown.conversation_id r = StorageService.Conversation.id conv ->
     StorageService.Cooldown.is_active r = true ->
     (StorageService.Cooldown.end_time r * 1000 <= now)%Z) ->
  StorageService.isInCooldown db c now = false.
Proof.
  intros Hconv Hpast. unfold StorageService.isInCooldown. rewrite Hconv.
  destruct (List.filter _ _) as [|r rest] eqn:Hf; [done|].
  assert (Hr : r ∈ List.filter (StorageService.running (StorageService.Conversation.id conv)
                                  (StorageService.seconds now))
                               (StorageService.cooldowns db)).
  { rewrite Hf. by left. }
  apply running_elem in Hr as (Hin & Hcid & Hact & Hfut).
  apply future_seconds in Hfut. specialize (Hpast r Hin Hcid Hact). lia.
Qed.


Lemma isInCooldown_eval (c : string) (s : t) :
  eval (isInCooldown c) s
  = match lookupState c s with
    | Some st => TimerState.isInCooldown st
    | None => false
    end.
Proof.
  unfold isInCooldown, lookupState. mprims.
  destruct (timers s !! c) as [o|]; simpl; [|done].
  by destruct (TimerState.isInCooldown (heap s !!! o)) eqn:E; simpl.
Qed.

Lemma getRemainingTime_eval (c : string) (now : Z) (s : t) :
  eval (getRemainingTime config c now) s
  = match lookupState c s with
    | None => 0%Z
    | Some st =>
        if TimerState.isInCooldown st && truthy (TimerState.lastResponseTime st)
        then Z.max 0 (cooldownPeriodMs config
                      - (now - default 0%Z (TimerState.lastResponseTime st)))
        else if bool_decide (is_Some (TimerState.responseTimer st))
             then responseDelayMs config else 0%Z
    end.
Proof.
  unfold getRemainingTime, lookupState. mprims.
  destruct (timers s !! c) as [o|]; simpl; [|done]. by repeat case_match.
Qed.

Lemma restoreResponseTimer_isInitialized (c : string) (now : Z)
    (timer : StorageService.Timer.row) (s : t) :
  isInitialized (exec (restoreResponseTimer c now timer) s) = isInitialized s.
Proof.
  rewrite restoreResponseTimer_exec. cbv zeta.
  destruct (truthy _); [|done]. by destruct (_ <? _)%Z.
Qed.

Lemma restoreTimersFromDatabase_isInitialized (now : Z) (s : t) :
  isInitialized (exec (restoreTimersFromDatabase config now) s) = isInitialized s.
Proof.
  rewrite restoreTimersFromDatabase_exec.
  apply (forEach_invariant (fun s' => isInitialized s' = isInitialized s)); [|done].
  intros conv s1 _ <-. rewrite restoreConversation_exec. cbv zeta.
  apply (forEach_invariant (fun s' => isInitialized s' = isInitialized s1)).
  - intros timer s2 _ <-. apply restoreResponseTimer_isInitialized.
  - rewrite restoreCooldown_exec. cbv zeta. by case_match.
Qed.

Lemma initializeService_exec (now : Z) (s : t) :
  exec (initializeService config now) s
  = exec (set_isInitialized true) (exec (restoreTimersFromDatabase config now) s).
Proof. unfold initializeService. by rewrite exec_bind. Qed.

(** C6, amended.  The scheduling core does not gate on recovery:
    [startResponseTimer] and [startCooldown] do the same whatever
    [isInitialized] holds, and both take effect (the conversation gets its
    map entry).  The flag is only reported: [isReady] is false on
    construction, the recovery routine leaves it as it is, and it is true
    once [initializeService], which runs the recovery first, has
    finished. *)
Theorem isReady_is_advisory (c : string) (cb : cbid) (d now : Z) (b : bool)
    (db : StorageService.Database) (s : t) :
  exec (startResponseTimer config c cb now) (exec (set_isInitialized b) s)
    = exec (set_isInitialized b) (exec (startResponseTimer config c cb now) s)
  /\ exec (startCooldown c d now) (exec (set_isInitialized b) s)
    = exec (set_isInitialized b) (exec (startCooldown c d now) s)
  /\ timers (exec (startResponseTimer config c cb now) s) !! c = Some (nextRef s)
  /\ is_Some (timers (exec (startCooldown c d now) s) !! c)
  /\ eval isReady (new db) = false
  /\ eval isReady (exec (restoreTimersFromDatabase config now) s) = eval isReady s
  /\ eval isReady (exec (initializeService config now) s) = true.
Proof.
  split_and!.
  - destruct s. unfold startResponseTimer, cancelTimer. mprims. by mcases.
  - destruct s. unfold startCooldown. mprims. by mcases.
  - destruct s. unfold startResponseTimer, cancelTimer. mprims.
    mcases; rewrite ?lookup_insert_eq; done.
  - destruct s. unfold startCooldown. mprims.
    mcases; rewrite ?lookup_insert_eq; done.
  - done.
  - unfold isReady. rewrite !eval_gets. apply restoreTimersFromDatabase_isInitialized.
  - by rewrite initializeService_exec.
Qed.

(** C2, amended.  Let [c] be a conversation of the ledger with status
    active, and let recovery run on the fresh service at an instant [now]
    later than the configured cooldown period.
    - If [r] is an active cooldown row of [c] ending after [now], and no
      active cooldown row of [c] ends later, then afterwards
      [isInCooldown c] is true, [getRemainingTime c] exceeds the persisted
      remaining time [end_time r * 1000 - now] by less than a second, and
      the cooldown-end task is pending, due [clampDelay] of that remaining
      time after [now]: due after the remaining time when that is at most
      [TIMEOUT_MAX] milliseconds, and after one millisecond when it is
      more.
    - If every active cooldown row of [c] has ended, then afterwards
      [isInCooldown c] is false, no cooldown-end task is scheduled for
      [c], and recovery leaves the cooldown rows as they were (it does not
      mark them inactive). *)
Theorem recovery_roundtrip (db : StorageService.Database) (c : string)
    (conv : StorageService.Conversation.row) (now : Z) :
  StorageService.getConversation db c = Some conv ->
  StorageService.Conversation.status conv = StorageService.active ->
  (cooldownPeriodMs config < now)%Z ->
  let s' := exec (initializeService config now) (new db) in
  (forall r,
     r ∈ StorageService.cooldowns db ->
     StorageService.Cooldown.conversation_id r = StorageService.Conversation.id conv ->
     StorageService.Cooldown.is_active r = true ->
     (now < StorageService.Cooldown.end_time r * 1000)%Z ->
     (forall r', r' ∈ StorageService.cooldowns db ->
        StorageService.Cooldown.conversation_id r' = StorageService.Conversation.id conv ->
        StorageService.Cooldown.is_active r' = true ->
        (StorageService.Cooldown.end_time r' <= StorageService.Cooldown.end_time r)%Z) ->
     eval (isInCooldown c) s' = true
     /\ (0 <= eval (getRemainingTime config c now) s'
              - (StorageService.Cooldown.end_time r * 1000 - now) < 1000)%Z
     /\ (exists h due,
           pending s' !! h = Some (RestoredCooldownEnd c, due)
           /\ due = (now + clampDelay (eval (getRemainingTime config c now) s'))%Z
           /\ ((eval (getRemainingTime config c now) s' <= TIMEOUT_MAX)%Z ->
               due = (now + eval (getRemainingTime config c now) s')%Z)
           /\ ((TIMEOUT_MAX < eval (getRemainingTime config c now) s')%Z ->
               due = (now + 1)%Z)))
  /\ ((forall r,
        r ∈ StorageService.cooldowns db ->
        StorageService.Cooldown.conversation_id r = StorageService.Conversation.id conv ->
        StorageService.Cooldown.is_active r = true ->
        (StorageService.Cooldown.end_time r * 1000 <= now)%Z) ->
      eval (isInCooldown c) s' = false
      /\ StorageService.cooldowns (storage s') = StorageService.cooldowns db
      /\ (forall h due, pending s' !! h <> Some (RestoredCooldownEnd c, due))).
Proof.
  intros Hconv Hact Hclock. cbv zeta.
  destruct (getConversation_Some _ _ _ Hconv) as [Hc Hin].
  pose proof (getActiveConversations_elem _ _ Hin Hact) as Hl.
  rewrite initializeService_exec, restoreTimersFromDatabase_exec.
  change (storage (new db)) with db.
  set (l := StorageService.getActiveConversations db) in *.
  set (s1 := exec (forEach l (restoreConversation config now)) (new db)).
  rewrite isInCooldown_eval, getRemainingTime_eval.
  change (lookupState c (exec (set_isInitialized true) s1)) with (lookupState c s1).
  change (pending (exec (set_isInitialized true) s1)) with (pending s1).
  change (storage (exec (set_isInitialized true) s1)) with (storage s1).
  assert (Hinv : wf s1 /\ sameLedger db s1).
  { apply (forEach_invariant (fun s => wf s /\ sameLedger db s)).
    - intros x s _ H. by apply restoreConversation_inv.
    - apply new_wf. }
  split.
  - intros r Hr Hcid Hra Hfut Hmax.
    destruct (storage_running db c conv now r Hconv Hr Hcid Hra Hfut Hmax) as [Hic Hrem].
    assert (Hpos : (0 < StorageService.getRemainingCooldownTime db c now)%Z).
    { rewrite Hrem. apply future_seconds in Hfut. lia. }
    assert (HQ : cooldownRestored c
              (now - (cooldownPeriodMs config - StorageService.getRemainingCooldownTime db c now))
              (now + clampDelay (StorageService.getRemainingCooldownTime db c now)) s1).
    { apply (forEach_establishes (fun s => wf s /\ sameLedger db s) _ l _ conv Hl).
      - intros x s _ H. by apply restoreConversation_inv.
      - intros s H. by apply (restoreConversation_establishes db).
      - intros x s _ H HQ.
        destruct (decide (StorageService.Conversation.chat_id x = c)) as [Hx|Hx].
        + by apply (restoreConversation_establishes db).
        + by apply (restoreConversation_keeps_cooldownRestored db).
      - apply new_wf. }
    destruct HQ as (o & h & Ho & Hflag & Hlrt & Hp).
    unfold lookupState. rewrite Ho. simpl. rewrite Hflag, Hlrt. simpl.
    destruct (Z.eqb_spec (now - (cooldownPeriodMs config
                - StorageService.getRemainingCooldownTime db c now)) 0) as [E|_]; [lia|].
    simpl.
    replace (Z.max 0 _) with (StorageService.getRemainingCooldownTime db c now) by lia.
    split; [done|]. split.
    + rewrite Hrem. unfold StorageService.seconds.
      pose proof (Z.div_mod now 1000 ltac:(lia)).
      pose proof (Z.mod_pos_bound now 1000 ltac:(lia)). lia.
    + exists h, (now + clampDelay (StorageService.getRemainingCooldownTime db c now))%Z.
      split_and!; [done|done| |].
      * intros Hle. by rewrite clampDelay_in_range by lia.
      * intros Hgt. by rewrite clampDelay_above.
  - intros Hpast.
    pose proof (storage_lapsed db c conv now Hconv Hpast) as Hic.
    assert (HQ : noCooldown c s1).
    { apply (forEach_invariant (fun s => (wf s /\ sameLedger db s) /\ noCooldown c s)).
      - intros x s _ [H HQ]. split; [by apply restoreConversation_inv|].
        by apply (restoreConversation_noCooldown db).
      - split; [apply new_wf|]. split.
        + intros o Ho. simpl in Ho. by rewrite lookup_empty in Ho.
        + intros h due. simpl. by rewrite lookup_empty. }
    destruct HQ as [Hflag Hp]. split_and!.
    + unfold lookupState. destruct (timers s1 !! c) as [o|] eqn:Ho; [|done].
      simpl. by apply Hflag.
    + apply Hinv.
    + done.
Qed.

(** *** The tracked response timer *)

(** What the scheduling core guarantees about the response timer it
    tracks. *)

Lemma lookupState_Some (c : string) (s : t) (st : TimerState.t) :
  lookupState c s = Some st <->
  exists o, timers s !! c = Some o /\ st = heap s !!! o.
Proof.
  unfold lookupState. destruct (timers s !! c) as [o|]; simpl.
  - split; [intros [= <-]; by exists o | by intros (o' & [= <-] & ->)].
  - split; [done | by intros (o' & ? & _)].
Qed.

Lemma startResponseTimer_state (c : string) (cb : cbid) (now : Z) (s : t) :
  lookupState c (exec (startResponseTimer config c cb now) s)
  = Some (TimerState.mk c (Some (nextHandle s)) None None false)
  /\ pending (exec (startResponseTimer config c cb now) s) !! nextHandle s
     = Some (ResponseExpiry c cb, (now + clampDelay (responseDelayMs config))%Z).
Proof.
  unfold lookupState. destruct s. unfold startResponseTimer, cancelTimer. mprims.
  mcases; rewrite ?lookup_insert_eq; simpl; rewrite ?lookup_total_insert_eq; done.
Qed.

Lemma startResponseTimer_cancels_tracked (c : string) (cb : cbid) (now : Z) (s : t)
    (st : TimerState.t) (h : handle) :
  lookupState c s = Some st ->
  TimerState.responseTimer st = Some h ->
  h < nextHandle s ->
  pending (exec (startResponseTimer config c cb now) s) !! h = None.
Proof.
  intros (o & Ho & ->)%lookupState_Some Hh Hlt.
  destruct s. unfold startResponseTimer, cancelTimer. mprims. simpl in *.
  rewrite Ho. simpl. rewrite Hh. simpl.
  mcases; rewrite lookup_insert_ne by lia; apply lookup_delete_eq.
Qed.

Lemma handleGiladResponse_enters_cooldown (c : string) (now : Z) (s : t) :
  exists st,
    lookupState c (exec (handleGiladResponse config c now) s) = Some st
    /\ TimerState.isInCooldown st = true
    /\ TimerState.responseTimer st = None
    /\ TimerState.lastResponseTime st = Some now.
Proof.
  unfold handleGiladResponse. rewrite !exec_bind.
  set (s1 := exec (cancelTimer c) s).
  destruct (startCooldown_state c (cooldownPeriodMs config) now s1)
    as (o & h & Ho & Hc & Hr & _ & Hl & _).
  exists (heap (exec (startCooldown c (cooldownPeriodMs config) now) s1) !!! o).
  unfold lookupState.
  change (timers (exec (emit _) ?x)) with (timers x).
  change (heap (exec (emit _) ?x)) with (heap x).
  rewrite Ho. done.
Qed.

Lemma handleGiladResponse_cancels_tracked (c : string) (now : Z) (s : t)
    (st : TimerState.t) (h : handle) :
  lookupState c s = Some st ->
  TimerState.responseTimer st = Some h ->
  h < nextHandle s ->
  pending (exec (handleGiladResponse config c now) s) !! h = None.
Proof.
  intros (o & Ho & ->)%lookupState_Some Hh Hlt.
  unfold handleGiladResponse. rewrite !exec_bind.
  change (pending (exec (emit _) ?x)) with (pending x).
  set (s1 := exec (cancelTimer c) s).
  assert (H1 : pending s1 !! h = None /\ nextHandle s1 = nextHandle s).
  { subst s1. rewrite cancelTimer_exec, Ho, Hh. simpl.
    split; [apply lookup_delete_eq|done]. }
  destruct H1 as [H1 H2]. rewrite startCooldown_exec. cbv zeta. simpl.
  rewrite lookup_insert_ne by lia.
  match goal with |- ?p !! h = None => destruct (p !! h) eqn:E; [|done] end.
  apply pending_after_clears in E as [E _]. congruence.
Qed.
(** *** Runs of calls and expiries *)

Lemma cancelTimer_consistent (c : string) (s : t) :
  consistent s -> consistent (exec (cancelTimer c) s).
Proof.
  intros ([Hr Hh] & Hex & Htr). rewrite cancelTimer_exec.
  destruct (timers s !! c) as [o|] eqn:Ho; [|done].
  destruct (TimerState.responseTimer (heap s !!! o)) as [h|] eqn:Hrt; [|done].
  assert (Hobj : forall c' o', timers s !! c' = Some o' -> c' <> c -> o' <> o).
  { intros c' o' Ho' Hne ->. destruct (Hr _ _ Ho) as [_ E1]. destruct (Hr _ _ Ho') as [_ E2].
    congruence. }
  split_and!.
  - split; simpl.
    + intros c' o' Ho'. destruct (Hr _ _ Ho') as [? ?]. split; [done|].
      destruct (decide (o = o')) as [<-|Hne].
      * by rewrite lookup_total_insert_eq.
      * by rewrite lookup_total_insert_ne.
    + intros h' [x Hx]. apply Hh. exists x.
      destruct (decide (h = h')) as [<-|Hne]; [by rewrite lookup_delete_eq in Hx|].
      by rewrite lookup_delete_ne in Hx.
  - intros c' st (o' & Ho' & ->)%lookupState_Some. simpl in *.
    destruct (decide (o = o')) as [<-|Hne].
    + by rewrite lookup_total_insert_eq.
    + rewrite lookup_total_insert_ne by done. apply (Hex c').
      apply lookupState_Some. by exists o'.
  - intros h' task due c' Hp Hresp. simpl in *.
    destruct (decide (h = h')) as [<-|Hne]; [by rewrite lookup_delete_eq in Hp|].
    rewrite lookup_delete_ne in Hp by done.
    destruct (Htr _ _ _ _ Hp Hresp) as (st & (o' & Ho' & ->)%lookupState_Some & Hst).
    destruct (decide (c' = c)) as [->|Hc]; [congruence|].
    exists (heap s !!! o'). split; [|done].
    apply lookupState_Some. exists o'. simpl. split; [done|].
    rewrite lookup_total_insert_ne; [done|]. intros ->. by apply (Hobj c' o').
Qed.

Lemma startCooldown_consistent (c : string) (d now : Z) (s : t) :
  consistent s -> consistent (exec (startCooldown c d now) s).
Proof.
  intros (Hwf & Hex & Htr). rewrite startCooldown_exec. cbv zeta.
  destruct (getOrCreate_facts c s Hwf) as (Hchat & Hlt & Hle & Hother & Hsame & _).
  destruct Hwf as [Hr Hh].
  set (o := default (nextRef s) (timers s !! c)) in *.
  set (heap1 := match timers s !! c with
                | Some _ => heap s
                | None => <[nextRef s := TimerState.fresh c]> (heap s)
                end) in *.
  split_and!.
  - split; simpl.
    + intros c' o'. destruct (decide (c = c')) as [<-|Hd].
      * rewrite lookup_insert_eq. intros [= <-]. rewrite lookup_total_insert_eq.
        simpl. done.
      * rewrite lookup_insert_ne by done. intros Ho'.
        destruct (Hother c' o' ltac:(done) Ho') as [Hne Hheap].
        rewrite lookup_total_insert_ne by done. rewrite Hheap.
        destruct (Hr _ _ Ho') as [? ?]. split; [lia|done].
    + intros h [x Hx]. destruct (decide (nextHandle s = h)) as [<-|Hd]; [lia|].
      rewrite lookup_insert_ne in Hx by done.
      apply pending_after_clears in Hx as [Hx _].
      assert (h < nextHandle s) by (apply Hh; eauto). lia.
  - intros c' st (o' & Ho' & ->)%lookupState_Some. simpl in *.
    destruct (decide (c = c')) as [<-|Hd].
    + rewrite lookup_insert_eq in Ho'. injection Ho' as <-.
      by rewrite lookup_total_insert_eq.
    + rewrite lookup_insert_ne in Ho' by done.
      destruct (Hother c' o' ltac:(done) Ho') as [Hne Hheap].
      rewrite lookup_total_insert_ne by done. rewrite Hheap.
      apply (Hex c'). apply lookupState_Some. by exists o'.
  - intros h task due c' Hp Hresp. simpl in *.
    destruct (decide (nextHandle s = h)) as [<-|Hd].
    { rewrite lookup_insert_eq in Hp. injection Hp as <- <-. done. }
    rewrite lookup_insert_ne in Hp by done.
    apply pending_after_clears in Hp as [Hp Hnot].
    destruct (Htr _ _ _ _ Hp Hresp) as (st & (o' & Ho' & ->)%lookupState_Some & Hst).
    destruct (decide (c' = c)) as [->|Hc].
    + destruct (Hsame o' Ho') as [-> Hheap]. rewrite Hheap in Hnot. done.
    + destruct (Hother c' o' Hc Ho') as [Hne Hheap].
      exists (heap s !!! o'). split; [|done].
      apply lookupState_Some. exists o'. simpl.
      rewrite lookup_insert_ne by done. split; [done|].
      by rewrite lookup_total_insert_ne, Hheap.
Qed.


(** An update in place: the map and the counters stay, tasks are only
    removed, objects keep their [chatId], no object newly combines a
    cooldown with a response timer, and the response timer of a task that
    stays pending stays tracked. *)
Lemma consistent_inplace (s s' : t) :
  consistent s ->
  timers s' = timers s -> nextRef s' = nextRef s -> nextHandle s' = nextHandle s ->
  (forall h x, pending s' !! h = Some x -> pending s !! h = Some x) ->
  (forall o, TimerState.chatId (heap s' !!! o) = TimerState.chatId (heap s !!! o)) ->
  (forall o, TimerState.isInCooldown (heap s' !!! o) = true ->
     TimerState.responseTimer (heap s' !!! o) = None
     \/ (TimerState.isInCooldown (heap s !!! o) = true
         /\ TimerState.responseTimer (heap s' !!! o)
            = TimerState.responseTimer (heap s !!! o))) ->
  (forall h x o, pending s' !! h = Some x ->
     TimerState.responseTimer (heap s !!! o) = Some h ->
     TimerState.responseTimer (heap s' !!! o) = Some h) ->
  consistent s'.
Proof.
  intros ([Hr Hh] & Hex & Htr) Ht Hn Hnh Hp Hchat Hcool Hresp. split_and!.
  - split.
    + intros c o. rewrite Ht, Hn, Hchat. apply Hr.
    + intros h [x Hx]. rewrite Hnh. apply Hh. exists x. by apply Hp.
  - intros c st (o & Ho & ->)%lookupState_Some Hc. rewrite Ht in Ho.
    destruct (Hcool o Hc) as [?|[Hc' ->]]; [done|].
    apply (Hex c). { apply lookupState_Some. by exists o. } done.
  - intros h task due c Hx Htask.
    destruct (Htr _ _ _ _ (Hp _ _ Hx) Htask) as (st & (o & Ho & ->)%lookupState_Some & Hst).
    exists (heap s' !!! o). split.
    + apply lookupState_Some. exists o. by rewrite Ht.
    + by apply (Hresp h (task, due)).
Qed.

Lemma emit_consistent (e : Event) (s : t) :
  consistent s -> consistent (exec (emit e) s).
Proof. intros H. apply (consistent_inplace s); try done. intros o ?. right. done. Qed.

Lemma console_error_consistent (e : ErrorEntry) (s : t) :
  consistent s -> consistent (exec (console_error e) s).
Proof. intros H. apply (consistent_inplace s); try done. intros o ?. right. done. Qed.

Lemma set_storage_consistent (db : StorageService.Database) (s : t) :
  consistent s -> consistent (exec (set_storage db) s).
Proof. intros H. apply (consistent_inplace s); try done. intros o ?. right. done. Qed.

(** With the tracked timer gone no response task of [c] is pending. *)
Lemma tracked_none (c : string) (s : t) (h : handle) (task : Task) (due : Z) :
  tracked s -> hasResponseTimer c s = false ->
  pending s !! h = Some (task, due) -> isResponseTask c task = false.
Proof.
  intros Htr Hnone Hp. destruct (isResponseTask c task) eqn:E; [|done].
  destruct (Htr _ _ _ _ Hp E) as (st & Hst & Hh).
  unfold hasResponseTimer in Hnone. rewrite Hst, Hh in Hnone.
  rewrite bool_decide_eq_true_2 in Hnone; [done|by eexists].
Qed.

Lemma cancelTimer_hasResponseTimer (c : string) (s : t) :
  hasResponseTimer c (exec (cancelTimer c) s) = false.
Proof.
  rewrite cancelTimer_exec. unfold hasResponseTimer, lookupState.
  destruct (timers s !! c) as [o|] eqn:Ho; simpl; [|by rewrite Ho].
  destruct (TimerState.responseTimer (heap s !!! o)) eqn:Hh; simpl; rewrite Ho; simpl.
  - by rewrite lookup_total_insert_eq.
  - by rewrite Hh.
Qed.

Lemma startResponseTimer_exec (c : string) (cb : cbid) (now : Z) (s : t) :
  exec (startResponseTimer config c cb now) s =
  let s1 := exec (cancelTimer c) s in
  let db := StorageService.startTimer (storage s1) c StorageService.response
              (Some (responseDelayMs config)) now in
  mk (<[c := nextRef s1]> (timers s1))
     (<[nextRef s1 := TimerState.mk c (Some (nextHandle s1)) None None false]> (heap s1))
     (S (nextRef s1))
     (<[nextHandle s1 := (ResponseExpiry c cb, (now + clampDelay (responseDelayMs config))%Z)]>
        (pending s1))
     (S (nextHandle s1)) (jobs s1) (emitted s1)
     (match db with
      | Some _ => errors s1
      | None => errors s1 ++ [FailedToPersistResponseTimer c]
      end)
     (default (storage s1) db) (isInitialized s1).
Proof.
  unfold startResponseTimer. rewrite exec_bind. cbv zeta.
  generalize (exec (cancelTimer c) s). intros s1. destruct s1. mprims. by mcases.
Qed.

Lemma startResponseTimer_consistent (c : string) (cb : cbid) (now : Z) (s : t) :
  consistent s -> consistent (exec (startResponseTimer config c cb now) s).
Proof.
  intros H. rewrite startResponseTimer_exec. cbv zeta.
  pose proof (cancelTimer_hasResponseTimer c s) as Hnone.
  apply (cancelTimer_consistent c) in H. revert H Hnone.
  generalize (exec (cancelTimer c) s). intros s1 ([Hr Hh] & Hex & Htr) Hnone.
  split_and!.
  - split; simpl.
    + intros c' o'. destruct (decide (c = c')) as [<-|Hd].
      * rewrite lookup_insert_eq. intros [= <-]. rewrite lookup_total_insert_eq.
        split; [lia|done].
      * rewrite lookup_insert_ne by done. intros Ho'.
        destruct (Hr _ _ Ho') as [Hlt Hc]. rewrite lookup_total_insert_ne by lia.
        split; [lia|done].
    + intros h [x Hx]. destruct (decide (nextHandle s1 = h)) as [<-|Hd]; [lia|].
      rewrite lookup_insert_ne in Hx by done.
      assert (h < nextHandle s1) by (apply Hh; eauto). lia.
  - intros c' st (o' & Ho' & ->)%lookupState_Some. simpl in *.
    destruct (decide (c = c')) as [<-|Hd].
    + rewrite lookup_insert_eq in Ho'. injection Ho' as <-.
      by rewrite lookup_total_insert_eq.
    + rewrite lookup_insert_ne in Ho' by done.
      destruct (Hr _ _ Ho') as [Hlt Hc]. rewrite lookup_total_insert_ne by lia.
      apply (Hex c'). apply lookupState_Some. by exists o'.
  - intros h task due c' Hp Hresp. simpl in *.
    destruct (decide (nextHandle s1 = h)) as [<-|Hd].
    + rewrite lookup_insert_eq in Hp. injection Hp as <- <-.
      simpl in Hresp. apply bool_decide_eq_true in Hresp as <-.
      eexists. split.
      * apply lookupState_Some. exists (nextRef s1). simpl.
        by rewrite lookup_insert_eq, lookup_total_insert_eq.
      * done.
    + rewrite lookup_insert_ne in Hp by done.
      destruct (decide (c' = c)) as [->|Hc].
      { by rewrite (tracked_none c s1 h task due Htr Hnone Hp) in Hresp. }
      destruct (Htr _ _ _ _ Hp Hresp) as (st & (o' & Ho' & ->)%lookupState_Some & Hst).
      destruct (Hr _ _ Ho') as [Hlt _].
      exists (heap s1 !!! o'). split; [|done].
      apply lookupState_Some. exists o'. simpl.
      rewrite lookup_insert_ne by done. split; [done|].
      by rewrite lookup_total_insert_ne by lia.
Qed.

Lemma handleGiladResponse_consistent (c : string) (now : Z) (s : t) :
  consistent s -> consistent (exec (handleGiladResponse config c now) s).
Proof.
  intros H. unfold handleGiladResponse. rewrite !exec_bind.
  by apply emit_consistent, startCooldown_consistent, cancelTimer_consistent.
Qed.


(** Writing [f] into the object of [c], where [f] keeps the [chatId] and
    the response timer and leaves the cooldown. *)
Lemma cooldown_off_consistent (o : ref) (p : gmap handle (Task * Z)) (s : t) :
  consistent s ->
  (forall h x, p !! h = Some x -> pending s !! h = Some x) ->
  consistent
    (mk (timers s)
        (<[o := TimerState.set_cooldownTimer None
                  (TimerState.set_isInCooldown false (heap s !!! o))]> (heap s))
        (nextRef s) p (nextHandle s) (jobs s) (emitted s) (errors s) (storage s)
        (isInitialized s)).
Proof.
  intros H Hp. apply (consistent_inplace s); try done; simpl.
  - intros o'. destruct (decide (o = o')) as [<-|Hne].
    + by rewrite lookup_total_insert_eq.
    + by rewrite lookup_total_insert_ne.
  - intros o'. destruct (decide (o = o')) as [<-|Hne].
    + by rewrite lookup_total_insert_eq.
    + rewrite lookup_total_insert_ne by done. by right.
  - intros h x o' _. destruct (decide (o = o')) as [<-|Hne].
    + by rewrite lookup_total_insert_eq.
    + by rewrite lookup_total_insert_ne.
Qed.

Lemma clearCooldown_consistent (c : string) (now : Z) (s : t) :
  consistent s -> consistent (exec (clearCooldown c now) s).
Proof.
  intros H. unfold clearCooldown. rewrite !exec_bind, eval_gets, exec_gets.
  apply (forEach_invariant consistent).
  { intros timer s' _ Hs'. rewrite exec_bind. by apply set_storage_consistent. }
  unfold timers_get. rewrite eval_gets, exec_gets.
  destruct (timers s !! c) as [o|]; [|done].
  rewrite exec_bind. unfold read. rewrite eval_gets, exec_gets.
  destruct (TimerState.cooldownTimer (heap s !!! o)) as [h|] eqn:Hc; [|done].
  rewrite exec_bind.
  assert (E : TimerState.set_isInCooldown false (TimerState.set_cooldownTimer None (heap s !!! o))
              = TimerState.set_cooldownTimer None (TimerState.set_isInCooldown false (heap s !!! o)))
    by done.
  rewrite E. apply (cooldown_off_consistent o (delete h (pending s)) s H).
  intros h' x Hx. by apply lookup_delete_Some in Hx as [_ ?].
Qed.

Lemma applyCall_consistent (now : Z) (call : Call) (s : t) :
  consistent s -> consistent (exec (applyCall config now call) s).
Proof.
  intros H. destruct call; simpl.
  - by apply startResponseTimer_consistent.
  - by apply startCooldown_consistent.
  - by apply handleGiladResponse_consistent.
  - by apply cancelTimer_consistent.
  - by apply clearCooldown_consistent.
Qed.

(** Firing the response timer of [c]: the handle has left the table and
    the reference is removed. *)
Lemma response_fired_consistent (c : string) (h : handle) (task : Task) (due : Z) (s : t) :
  consistent s ->
  pending s !! h = Some (task, due) ->
  isResponseTask c task = true ->
  consistent (exec (removeTimerReference c) (exec (clearTimeout h) s)).
Proof.
  intros H Hp Htask.
  destruct H as (Hwf & Hex & Htr).
  destruct (Htr _ _ _ _ Hp Htask) as (st & (o & Ho & ->)%lookupState_Some & Hst).
  unfold removeTimerReference. rewrite exec_bind. unfold timers_get.
  rewrite eval_gets, exec_gets.
  change (timers (exec (clearTimeout h) s)) with (timers s). rewrite Ho.
  rewrite exec_bind. unfold read. rewrite eval_gets, exec_gets.
  apply (consistent_inplace s); try done; simpl.
  - intros h' x Hx. by apply lookup_delete_Some in Hx as [_ ?].
  - intros o'. destruct (decide (o = o')) as [<-|Hne].
    + by rewrite lookup_total_insert_eq.
    + by rewrite lookup_total_insert_ne.
  - intros o'. destruct (decide (o = o')) as [<-|Hne].
    + rewrite lookup_total_insert_eq. by left.
    + rewrite lookup_total_insert_ne by done. by right.
  - intros h' x o' Hx Hresp. apply lookup_delete_Some in Hx as [Hne _].
    destruct (decide (o = o')) as [<-|Hno].
    + congruence.
    + by rewrite lookup_total_insert_ne.
Qed.

Lemma fire_consistent (callbacks : cbid -> Callback) (h : handle) (now : Z) (s : t) :
  consistent s -> consistent (exec (fire config callbacks h now) s).
Proof.
  intros H. unfold fire. rewrite exec_bind, eval_gets, exec_gets.
  destruct (pending s !! h) as [[task due]|] eqn:Hp; [|done].
  destruct (due <=? now)%Z; [|done].
  rewrite !exec_bind.
  change (exec (mret true) ?x) with x.
  destruct task as [c cb|o c|c|c]; simpl.
  - rewrite !exec_bind.
    assert (Hs1 : consistent (exec (removeTimerReference c) (exec (clearTimeout h) s))).
    { apply (response_fired_consistent c h _ due s H Hp). simpl. by apply bool_decide_eq_true. }
    unfold invoke at 2. rewrite exec_bind.
    change (exec (mret ?b) ?x) with x.
    assert (Hs2 : consistent
              (exec (forEach (calls (callbacks cb)) (applyCall config now))
                 (exec (removeTimerReference c) (exec (clearTimeout h) s)))).
    { apply (forEach_invariant consistent); [|done].
      intros call s' _. apply applyCall_consistent. }
    destruct (eval (invoke config callbacks cb now) _).
    + by apply emit_consistent.
    + by apply console_error_consistent.
  - rewrite !exec_bind. apply emit_consistent.
    unfold read. rewrite eval_gets, exec_gets.
    apply (cooldown_off_consistent o (delete h (pending s)) s H).
    intros h' x Hx. by apply lookup_delete_Some in Hx as [_ ?].
  - rewrite !exec_bind. apply emit_consistent.
    unfold timers_get. rewrite eval_gets, exec_gets.
    change (timers (exec (clearTimeout h) s)) with (timers s).
    assert (Hdel : consistent (exec (clearTimeout h) s)).
    { apply (consistent_inplace s); try done; simpl.
      - intros h' x Hx. by apply lookup_delete_Some in Hx as [_ ?].
      - intros o' ?. by right. }
    destruct (timers s !! c) as [o|]; [|done].
    rewrite exec_bind. unfold read. rewrite eval_gets, exec_gets.
    apply (cooldown_off_consistent o (delete h (pending s)) s H).
    intros h' x Hx. by apply lookup_delete_Some in Hx as [_ ?].
  - rewrite !exec_bind. apply emit_consistent.
    apply (response_fired_consistent c h _ due s H Hp). simpl. by apply bool_decide_eq_true.
Qed.

Lemma new_consistent (db : StorageService.Database) : consistent (new db).
Proof.
  split_and!.
  - apply new_wf.
  - intros c st (o & Ho & _)%lookupState_Some. simpl in Ho. by rewrite lookup_empty in Ho.
  - intros h task due c Hp. simpl in Hp. by rewrite lookup_empty in Hp.
Qed.


Lemma isInCooldown_consistent (c : string) (s : t) :
  consistent s -> consistent (exec (isInCooldown c) s).
Proof.
  intros H. unfold isInCooldown. mprims.
  destruct (timers s !! c) as [o|]; simpl.
  - destruct (TimerState.isInCooldown (heap s !!! o)); simpl; [done|].
    apply (consistent_inplace s); try done. intros o' ?. by right.
  - apply (consistent_inplace s); try done. intros o' ?. by right.
Qed.

(** Every run of method calls, timer expiries and queries on a fresh
    service keeps the states consistent: a conversation in cooldown holds
    no response timer, and every pending response task is the one its
    conversation tracks.  Recovery and the storage reaction of
    [isInCooldown] are not among these steps. *)
Lemma run_consistent (callbacks : cbid -> Callback) (db : StorageService.Database)
    (steps : list Step) :
  consistent (exec (forEach steps (step config callbacks)) (new db)).
Proof.
  apply (forEach_invariant consistent); [|apply new_consistent].
  intros st s _ H. destruct st as [call now|h now|c]; simpl.
  - by apply applyCall_consistent.
  - rewrite exec_bind. by apply fire_consistent.
  - rewrite exec_bind. by apply isInCooldown_consistent.
Qed.

(** In a consistent state the owner's reply leaves no response task of
    the conversation pending. *)
Lemma handleGiladResponse_preempts (c : string) (now : Z) (s : t)
    (h : handle) (task : Task) (due : Z) :
  consistent s ->
  pending (exec (handleGiladResponse config c now) s) !! h = Some (task, due) ->
  isResponseTask c task = false.
Proof.
  intros H Hp.
  destruct (handleGiladResponse_consistent c now s H) as (_ & _ & Htr).
  apply (tracked_none c _ h task due Htr); [|done].
  destruct (handleGiladResponse_enters_cooldown c now s) as (st & Hst & _ & Hr & _).
  unfold hasResponseTimer. rewrite Hst, Hr. by apply bool_decide_eq_false_2, is_Some_None.
Qed.

(** In a consistent state [startResponseTimer] leaves exactly one
    response task of the conversation pending, the new one. *)
Lemma startResponseTimer_single (c : string) (cb : cbid) (now : Z) (s : t)
    (h : handle) (task : Task) (due : Z) :
  consistent s ->
  pending (exec (startResponseTimer config c cb now) s) !! h = Some (task, due) ->
  isResponseTask c task = true ->
  h = nextHandle s /\ task = ResponseExpiry c cb.
Proof.
  intros H Hp Htask.
  destruct (startResponseTimer_consistent c cb now s H) as (_ & _ & Htr).
  destruct (Htr _ _ _ _ Hp Htask) as (st & Hst & Hh).
  destruct (startResponseTimer_state c cb now s) as [Hst' Hp'].
  rewrite Hst' in Hst. injection Hst as <-. simpl in Hh. injection Hh as <-.
  split; [done|]. congruence.
Qed.

End Properties.

(** ** The scheduling core on concrete runs *)

Local Open Scope Z_scope.

(** C1, on the code.  Two response timers are started for chatA; the
    state is consistent and the ledger keeps both rows active.  After a
    restart the recovery routine schedules a task for each row and keeps
    only the last handle.  The owner then answers: the conversation
    enters cooldown and the tracked timer is cancelled, yet the other
    restored response timer is still pending, fires, and emits
    [RESPONSE_TIMER_EXPIRED] after [GILAD_RESPONDED]. *)
Theorem owner_response_misses_restored_timer :
  let s1 := restart (t0 + 2000) twoResponseTimers in
  let s2 := exec (handleGiladResponse mockConfig "chatA" (t0 + 3000)) s1 in
  consistent twoResponseTimers
  /\ map StorageService.Timer.is_active (StorageService.timers (storage twoResponseTimers))
     = [true; true]
  /\ eval (isInCooldown "chatA") s2 = true
  /\ pending s2 !! 0%nat = Some (RestoredResponseExpiry "chatA", t0 + 121000)
  /\ eval (fire mockConfig quiet 0%nat (t0 + 121000)) s2 = true
  /\ emitted (exec (fire mockConfig quiet 0%nat (t0 + 121000)) s2)
     = [TIMER_CANCELLED "chatA"; COOLDOWN_STARTED "chatA" 18000000;
        GILAD_RESPONDED "chatA"; RESPONSE_TIMER_EXPIRED "chatA"].
Proof.
  cbv zeta. split.
  - unfold twoResponseTimers.
    apply startResponseTimer_consistent, startResponseTimer_consistent, new_consistent.
  - vm_compute. by repeat split.
Qed.

(** C3, on the code.  In the process where the owner answered a pending
    response timer the state is consistent, as in every run of calls and
    expiries: chatA is in cooldown without a response timer.  Its ledger
    still has the response row active next to the cooldown row, so after
    a restart the recovery routine rebuilds a state that is in cooldown
    and holds a pending response timer: the invariant fails. *)
Theorem recovery_restores_response_timer_into_cooldown :
  let s := restart (t0 + 2000) ownerAnswered in
  consistent ownerAnswered
  /\ lookupState "chatA" ownerAnswered
     = Some (TimerState.mk "chatA" None (Some 1%nat) (Some (t0 + 1000)) true)
  /\ lookupState "chatA" s
     = Some (TimerState.mk "chatA" (Some 1%nat) (Some 0%nat) (Some (t0 + 1000)) true)
  /\ pending s !! 1%nat = Some (RestoredResponseExpiry "chatA", t0 + 120000)
  /\ ~ cooldownExcludesResponseTimer s.
Proof.
  cbv zeta.
  assert (H : lookupState "chatA" (restart (t0 + 2000) ownerAnswered)
     = Some (TimerState.mk "chatA" (Some 1%nat) (Some 0%nat) (Some (t0 + 1000)) true))
    by (vm_compute; reflexivity).
  split_and!; [| by vm_compute | exact H | by vm_compute |].
  - unfold ownerAnswered.
    apply handleGiladResponse_consistent, startResponseTimer_consistent, new_consistent.
  - intros Hinv. by specialize (Hinv "chatA"%string _ H eq_refl).
Qed.

(** C4, on the code.  chatA is in cooldown; three hours later a message
    of a new thread starts the response timer.  The call replaces the
    state object: the conversation is no longer in cooldown, its
    [lastResponseTime] and [cooldownTimer] are gone, while the cooldown
    task of the old object is still pending and the ledger still has the
    cooldown running. *)
Theorem startResponseTimer_drops_cooldown :
  let s := exec (startResponseTimer mockConfig "chatA" 0%nat (t0 + 10800000)) inCooldown in
  lookupState "chatA" inCooldown
    = Some (TimerState.mk "chatA" None (Some 0%nat) (Some t0) true)
  /\ lookupState "chatA" s
     = Some (TimerState.mk "chatA" (Some 1%nat) None None false)
  /\ eval (isInCooldown "chatA") s = false
  /\ pending s !! 0%nat = Some (CooldownEnd 0%nat "chatA", t0 + 18000000)
  /\ StorageService.isInCooldown (storage s) "chatA" (t0 + 10800000) = true.
Proof. vm_compute. by repeat split. Qed.

(** After the call of C4 the ledger still has the cooldown running; the
    reaction of a later [isInCooldown] query writes the flag back into
    the new object, next to its response timer. *)
Example isInCooldown_reaction_restores_flag :
  let s := exec (startResponseTimer mockConfig "chatA" 0%nat (t0 + 10800000)) inCooldown in
  let s' := exec (isInCooldown "chatA") s in
  jobs s' = [CheckCooldown "chatA" (Some 1%nat)]
  /\ lookupState "chatA" (exec (runJob (CheckCooldown "chatA" (Some 1%nat)) (t0 + 10800001)) s')
     = Some (TimerState.mk "chatA" (Some 1%nat) None None true).
Proof. vm_compute. by split. Qed.

(** A cooldown restored with more than [TIMEOUT_MAX] milliseconds left:
    the restored timeout is due one millisecond after recovery, and when
    it fires the conversation leaves the cooldown although the row of
    the ledger has thirty days to run. *)
Example recovery_clamps_long_cooldown :
  let s := exec (initializeService mockConfig t0) (new farCooldown) in
  eval (getRemainingTime mockConfig "chatA" t0) s = 2592000000
  /\ pending s !! 0%nat = Some (RestoredCooldownEnd "chatA", t0 + 1)
  /\ eval (isInCooldown "chatA") (exec (fire mockConfig quiet 0%nat (t0 + 1)) s) = false
  /\ StorageService.isInCooldown (storage s) "chatA" (t0 + 1) = true.
Proof. vm_compute. by repeat split. Qed.

(** *** Counterexamples to the claims as stated *)

(** C2: recovery leaves a lapsed cooldown row active, and it does not
    restore the running cooldown of a conversation that is archived. *)
Lemma recovery_leaves_lapsed_row_active :
  let s := exec (initializeService mockConfig t0) (new lapsedCooldown) in
  let s' := exec (initializeService mockConfig t0) (new archivedCooldown) in
  (eval (isInCooldown "chatA") s = false
   /\ StorageService.cooldowns (storage s)
      = [StorageService.Cooldown.mk 1 1 1699981000 1699999000 true]
   /\ 1699999000 * 1000 < t0)
  /\ (StorageService.cooldowns (storage s')
      = [StorageService.Cooldown.mk 1 1 1699982001 1700000001 true]
     /\ t0 < 1700000001 * 1000
     /\ eval (isInCooldown "chatA") s' = false).
Proof. vm_compute. by repeat split. Qed.

(** C5: the owner-responded event is not emitted before the
    cooldown-start event. *)
Lemma owner_responded_is_emitted_last :
  emitted inCooldown = [COOLDOWN_STARTED "chatA" 18000000; GILAD_RESPONDED "chatA"]
  /\ ~ precedes (GILAD_RESPONDED "chatA") (COOLDOWN_STARTED "chatA" 18000000)
        (emitted inCooldown).
Proof.
  assert (H : emitted inCooldown
              = [COOLDOWN_STARTED "chatA" 18000000; GILAD_RESPONDED "chatA"])
    by (vm_compute; reflexivity).
  split; [exact H|]. rewrite H. intros (l1 & l2 & l3 & E).
  destruct l1 as [|x [|y l1]]; simplify_eq/=.
  - by destruct l2.
  - by destruct l1.
Qed.

(** C6: on the service as constructed, before recovery has run, both
    calls take effect. *)
Lemma calls_take_effect_before_recovery :
  eval isReady (new chatA_only) = false
  /\ lookupState "chatA" (exec (startResponseTimer mockConfig "chatA" 0%nat t0) (new chatA_only))
     = Some (TimerState.mk "chatA" (Some 0%nat) None None false)
  /\ pending (exec (startResponseTimer mockConfig "chatA" 0%nat t0) (new chatA_only)) !! 0%nat
     = Some (ResponseExpiry "chatA" 0%nat, t0 + 120000)
  /\ eval (isInCooldown "chatA") (exec (startCooldown "chatA" 1000 t0) (new chatA_only))
     = true.
Proof. vm_compute. by repeat split. Qed.

(** C7: after a one-second cooldown the remaining time is the
    configured five hours, not [max 0 (d - (now - lastResponseTime))]. *)
Lemma remaining_time_ignores_duration :
  let s := exec (startCooldown "chatA" 1000 t0) (new chatA_only) in
  eval (getRemainingTime mockConfig "chatA" t0) s = 18000000
  /\ eval (getRemainingTime mockConfig "chatA" t0) s <> Z.max 0 (1000 - (t0 - t0)).
Proof. vm_compute. by split. Qed.

(** C8: a call that cancels a timer and a call that finds none return
    the same thing. *)
Lemma cancelTimer_result_is_not_a_flag :
  let pendingTimer := exec (startResponseTimer mockConfig "chatA" 0%nat t0) (new chatA_only) in
  hasResponseTimer "chatA" pendingTimer = true
  /\ hasResponseTimer "chatA" (exec (cancelTimer "chatA") pendingTimer) = false
  /\ hasResponseTimer "chatA" (new chatA_only) = false
  /\ eval (cancelTimer "chatA") pendingTimer = eval (cancelTimer "chatA") (new chatA_only).
Proof. vm_compute. by repeat split. Qed.

(** *** Instances *)

Lemma query_surface_total_witness :
  eval (isInCooldown "chatA") (new chatA_only) = false
  /\ eval (getRemainingTime mockConfig "chatA" t0) (new chatA_only) = 0.
Proof.
  apply (query_surface_total mockConfig "chatA" t0 (new chatA_only)).
  reflexivity.
Defined.

Lemma cancelTimer_signals_by_event_witness :
  let s := exec (startResponseTimer mockConfig "chatA" 0%nat t0) (new chatA_only) in
  let s' := exec (cancelTimer "chatA") s in
  (pending s !! 0%nat = Some (ResponseExpiry "chatA" 0%nat, t0 + 120000)
   /\ pending s' = delete 0%nat (pending s)
   /\ lookupState "chatA" s' = Some (TimerState.mk "chatA" None None None false)
   /\ emitted s' = emitted s ++ [TIMER_CANCELLED "chatA"]
   /\ eval (cancelTimer "chatA") s = tt)
  /\ exec (cancelTimer "chatA") (new chatA_only) = new chatA_only.
Proof.
  cbv zeta. split.
  - destruct (cancelTimer_signals_by_event "chatA"
                (exec (startResponseTimer mockConfig "chatA" 0%nat t0) (new chatA_only)))
      as (Hres & Hev & _ & _ & Hcancel & _).
    destruct (Hcancel (TimerState.mk "chatA" (Some 0%nat) None None false) 0%nat)
      as [Hp Hst].
    + vm_compute. reflexivity.
    + reflexivity.
    + split; [vm_compute; reflexivity|]. split; [exact Hp|]. split; [exact Hst|].
      split; [exact Hev | exact Hres].
  - destruct (cancelTimer_signals_by_event "chatA" (new chatA_only))
      as (_ & _ & _ & _ & _ & H & _).
    apply H. reflexivity.
Defined.

Lemma getRemainingTime_uses_configured_period_witness :
  eval (getRemainingTime mockConfig "chatA" (t0 + 60000))
       (exec (startCooldown "chatA" 18000000 t0) (new chatA_only))
  = Z.max 0 (18000000 - (t0 + 60000 - t0)).
Proof.
  apply (getRemainingTime_uses_configured_period mockConfig "chatA" 18000000 t0
           (t0 + 60000) (new chatA_only)).
  - discriminate.
  - reflexivity.
Defined.

Lemma callback_failure_is_absorbed_witness :
  let s := exec (startResponseTimer mockConfig "chatA" 0%nat t0) (new chatA_only) in
  eval (fire mockConfig throwing 0%nat (t0 + 120000)) s = true
  /\ errors (exec (fire mockConfig throwing 0%nat (t0 + 120000)) s)
     = errors (exec (fire mockConfig (succeeding throwing) 0%nat (t0 + 120000)) s)
       ++ [ErrorInResponseTimerCallback "chatA"].
Proof.
  cbv zeta.
  pose proof (callback_failure_is_absorbed mockConfig throwing 0%nat "chatA" 0%nat
                (t0 + 120000) (t0 + 120000)
                (exec (startResponseTimer mockConfig "chatA" 0%nat t0) (new chatA_only))
                eq_refl ltac:(reflexivity) eq_refl) as H.
  split; apply H.
Defined.

Lemma recovery_roundtrip_witness :
  let s := exec (initializeService mockConfig t0) (new runningCooldown) in
  let s' := exec (initializeService mockConfig t0) (new lapsedCooldown) in
  (eval (isInCooldown "chatA") s = true
   /\ 0 <= eval (getRemainingTime mockConfig "chatA" t0) s - (1700000001 * 1000 - t0) < 1000)
  /\ (eval (isInCooldown "chatA") s' = false
      /\ StorageService.cooldowns (storage s') = StorageService.cooldowns lapsedCooldown).
Proof.
  cbv zeta. split.
  - destruct (recovery_roundtrip mockConfig runningCooldown "chatA"
                (StorageService.Conversation.mk 1 "chatA" 1700000000 StorageService.active)
                t0 eq_refl eq_refl eq_refl) as [H _].
    destruct (H (StorageService.Cooldown.mk 1 1 1699982001 1700000001 true))
      as (H1 & H2 & _).
    + apply list_elem_of_here.
    + reflexivity.
    + reflexivity.
    + reflexivity.
    + intros r' Hr' _ _. apply list_elem_of_singleton in Hr'. subst r'. simpl. lia.
    + split; [exact H1 | exact H2].
  - destruct (recovery_roundtrip mockConfig lapsedCooldown "chatA"
                (StorageService.Conversation.mk 1 "chatA" 1700000000 StorageService.active)
                t0 eq_refl eq_refl eq_refl) as [_ H].
    destruct H as (H1 & H2 & _).
    + intros r Hr _ _. apply list_elem_of_singleton in Hr. subst r.
      simpl. unfold t0. lia.
    + split; [exact H1 | exact H2].
Defined.

(** * Further properties of the code

    The remaining methods of the two services: the ledger's cooldown and
    timer tables, recovery, the sweep of [cleanup], [clearCooldown],
    [destroy] and the statistics. *)

(** ** The ledger (services/StorageService.ts) *)

Section Ledger.
Import StorageService.

Lemma latest_end_Some_elem rows e :
  latest_end rows = Some e ->
  exists r, r ∈ rows /\ Cooldown.end_time r = e.
Proof.
  destruct rows as [|r0 rest]; [done|]. simpl. intros [= <-].
  destruct (foldr_max_ge (Cooldown.end_time r0) (map Cooldown.end_time rest))
    as (_ & _ & [->|H]).
  - exists r0. split; [by left|done].
  - apply list_elem_of_fmap in H as (r & -> & Hr). exists r. split; [by right|done].
Qed.

(** X1 ([StorageService.isInCooldown], [StorageService.getRemainingCooldownTime]).
    The two cooldown queries of the ledger agree: a conversation is
    reported in cooldown exactly when its remaining time is positive; the
    remaining time is never negative and is a whole number of seconds,
    given in milliseconds. *)
Theorem storage_queries_agree (db : Database) (c : string) (now : Z) :
  (isInCooldown db c now = true <-> 0 < getRemainingCooldownTime db c now)
  /\ 0 <= getRemainingCooldownTime db c now
  /\ (1000 | getRemainingCooldownTime db c now).
Proof.
  unfold isInCooldown, getRemainingCooldownTime.
  destruct (getConversation db c) as [conv|]; [|split_and!; [done|done|by exists 0]].
  cbv zeta.
  destruct (latest_end _) as [e|] eqn:He.
  - destruct (latest_end_Some_elem _ _ He) as (r & Hr & <-).
    pose proof Hr as Hr'. apply running_elem in Hr' as (_ & _ & _ & Hfut).
    destruct (List.filter _ _) as [|x xs]; [by apply elem_of_nil in Hr|].
    split_and!; [split; [lia|done] | lia |].
    rewrite Z.max_r by lia. by apply Z.divide_factor_r.
  - destruct (List.filter _ _) as [|x xs]; [|done].
    split_and!; [done|done|by exists 0].
Qed.

Lemma lastID_fresh (ids : list Z) (i : Z) : i ∈ ids -> i < lastID ids.
Proof.
  intros H. unfold lastID. destruct (foldr_max_ge 0 ids) as (_ & H2 & _).
  specialize (H2 i H). lia.
Qed.

Lemma deactivateActiveCooldowns_cooldowns db c conv :
  getConversation db c = Some conv ->
  deactivateActiveCooldowns db c
  = mkDatabase (conversations db)
      (map (fun r => if (Cooldown.conversation_id r =? Conversation.id conv)
                        && Cooldown.is_active r
                     then Cooldown.deactivate r else r) (cooldowns db))
      (timers db).
Proof. unfold deactivateActiveCooldowns. by intros ->. Qed.

Lemma startCooldown_Some db c conv d now :
  getConversation db c = Some conv ->
  exists db',
    startCooldown db c d now = Some db'
    /\ conversations db' = conversations db
    /\ timers db' = timers db
    /\ cooldowns db'
       = map (fun r => if (Cooldown.conversation_id r =? Conversation.id conv)
                          && Cooldown.is_active r
                       then Cooldown.deactivate r else r) (cooldowns db)
         ++ [newCooldownRow db conv d now].
Proof.
  intros Hc. unfold startCooldown. rewrite Hc. cbv zeta.
  destruct (getConversation_Some _ _ _ Hc) as [Hchat _].
  unfold newCooldownRow. rewrite Hchat.
  rewrite (deactivateActiveCooldowns_cooldowns db c conv Hc). simpl.
  eexists. split; [reflexivity|]. done.
Qed.

Lemma deactivated_not_running cid now_s rows :
  List.filter (running cid now_s)
    (map (fun r => if (Cooldown.conversation_id r =? cid) && Cooldown.is_active r
                   then Cooldown.deactivate r else r) rows) = [].
Proof.
  induction rows as [|r rows IH]; [done|]. simpl.
  destruct (Cooldown.conversation_id r =? cid) eqn:E1;
    destruct (Cooldown.is_active r) eqn:E2; simpl;
    unfold running; simpl; rewrite ?E1, ?E2; simpl; done.
Qed.

(** X2 ([StorageService.startCooldown], [deactivateActiveCooldowns]).
    After [startCooldown] on a conversation the ledger knows, the inserted
    row is the only active cooldown row of that conversation; the rows of
    other conversations are kept as they were, and no earlier row has the
    id of the new one. *)
Theorem startCooldown_single_active_row db c conv d now db' :
  getConversation db c = Some conv ->
  startCooldown db c d now = Some db' ->
  newCooldownRow db conv d now ∈ cooldowns db'
  /\ (forall r, r ∈ cooldowns db' ->
        Cooldown.conversation_id r = Conversation.id conv ->
        Cooldown.is_active r = true ->
        r = newCooldownRow db conv d now)
  /\ (forall r, r ∈ cooldowns db ->
        Cooldown.conversation_id r <> Conversation.id conv ->
        r ∈ cooldowns db')
  /\ (forall r, r ∈ cooldowns db -> Cooldown.id r <> Cooldown.id (newCooldownRow db conv d now)).
Proof.
  intros Hc Hs. destruct (startCooldown_Some db c conv d now Hc) as (db'' & E & _ & _ & Hcd).
  rewrite E in Hs. injection Hs as <-. rewrite Hcd. split_and!.
  - apply elem_of_app. right. by left.
  - intros r Hr Hcid Hact. apply elem_of_app in Hr as [Hr|Hr].
    + apply list_elem_of_fmap in Hr as (r0 & -> & _).
      destruct (Cooldown.conversation_id r0 =? Conversation.id conv) eqn:E1;
        destruct (Cooldown.is_active r0) eqn:E2; simpl in *; try done.
      * congruence.
      * apply Z.eqb_neq in E1. done.
      * apply Z.eqb_neq in E1. done.
    + by apply list_elem_of_singleton in Hr.
  - intros r Hr Hne. apply elem_of_app. left. apply list_elem_of_fmap. exists r.
    split; [|done]. apply Z.eqb_neq in Hne. by rewrite Hne.
  - intros r Hr. simpl.
    rewrite (deactivateActiveCooldowns_cooldowns db _ conv).
    2:{ destruct (getConversation_Some _ _ _ Hc) as [-> _]. done. }
    simpl. rewrite <- list_fmap_compose.
    match goal with
    | |- _ <> lastID ?ids => assert (Hlt : Cooldown.id r < lastID ids)
    end.
    { apply lastID_fresh. apply list_elem_of_fmap. exists r. split; [|done].
      simpl. by case_match. }
    lia.
Qed.

(** X3 ([StorageService.startCooldown] followed by the two queries).
    The ledger keeps whole seconds: right after a cooldown of [d]
    milliseconds is started, the remaining time is [d] rounded down to
    the second, so the conversation is in cooldown exactly when [d] is a
    second or more, and then less than a second of [d] is lost. *)
Theorem startCooldown_then_queries db c conv d now db' :
  getConversation db c = Some conv ->
  startCooldown db c d now = Some db' ->
  isInCooldown db' c now = bool_decide (1000 <= d)
  /\ getRemainingCooldownTime db' c now = Z.max 0 (d / 1000 * 1000)
  /\ (1000 <= d -> d - 1000 < getRemainingCooldownTime db' c now <= d).
Proof.
  intros Hc Hs. destruct (startCooldown_Some db c conv d now Hc) as (db'' & E & Hconv & _ & Hcd).
  rewrite E in Hs. injection Hs as <-.
  assert (Hc' : getConversation db'' c = Some conv).
  { unfold getConversation in *. by rewrite Hconv. }
  unfold isInCooldown, getRemainingCooldownTime. rewrite Hc'. cbv zeta.
  rewrite Hcd, List.filter_app, deactivated_not_running. simpl.
  assert (Hrun : running (Conversation.id conv) (seconds now)
                    (newCooldownRow db conv d now)
                  = (seconds now <? seconds now + d / 1000)).
  { unfold running. simpl. by rewrite Z.eqb_refl. }
  rewrite !Hrun.
  pose proof (Z.div_mod d 1000 ltac:(lia)).
  pose proof (Z.mod_pos_bound d 1000 ltac:(lia)).
  destruct (Z.ltb_spec (seconds now) (seconds now + d / 1000)); simpl.
  - split_and!.
    + symmetry. apply bool_decide_eq_true. lia.
    + lia.
    + intros _. lia.
  - split_and!.
    + symmetry. apply bool_decide_eq_false. lia.
    + lia.
    + lia.
Qed.

Lemma getActiveTimers_elem db c conv ty r :
  getConversation db c = Some conv ->
  r ∈ getActiveTimers db c ty <->
  r ∈ timers db /\ Timer.conversation_id r = Conversation.id conv
  /\ Timer.is_active r = true /\ typeMatches ty r.
Proof.
  intros Hc. unfold getActiveTimers. rewrite Hc.
  rewrite orderByDesc_Permutation, list_elem_of_In, List.filter_In, <- list_elem_of_In.
  rewrite !andb_true_iff, Z.eqb_eq. unfold typeMatches.
  destruct ty as [k|]; [rewrite bool_decide_eq_true|]; tauto.
Qed.

Lemma endTimer_other_ids (l : list Timer.row) (i now : Z) :
  (forall r, r ∈ l -> Timer.id r <> i) ->
  map (fun r => if Timer.id r =? i
                then Timer.mk (Timer.id r) (Timer.conversation_id r)
                       (Timer.start_time r) (Some (seconds now))
                       (Timer.timer_type r) false
                else r) l = l.
Proof.
  induction l as [|r0 l IH]; intros H; [done|]. simpl.
  destruct (Z.eqb_spec (Timer.id r0) i) as [E|_].
  { by specialize (H r0 ltac:(by left)). }
  f_equal. apply IH. intros r1 Hr1. apply H. by right.
Qed.

(** X4 ([StorageService.startTimer], [endTimer], [getActiveTimers]).
    A timer started on a known conversation is among its active timers,
    under an id larger than every id in the table; ending it under that
    id gives back the active timers the ledger had before, for every
    conversation and filter, and leaves the cooldown rows alone. *)
Theorem startTimer_endTimer_roundtrip db c conv ty d now now' db' :
  getConversation db c = Some conv ->
  startTimer db c ty d now = Some db' ->
  let r := newTimerRow db conv ty d now in
  r ∈ getActiveTimers db' c (Some ty)
  /\ (forall r0, r0 ∈ timers db -> Timer.id r0 < Timer.id r)
  /\ (forall c0 k, getActiveTimers (endTimer db' (Timer.id r) now') c0 k
                   = getActiveTimers db c0 k)
  /\ cooldowns (endTimer db' (Timer.id r) now') = cooldowns db.
Proof.
  intros Hc Hs. cbv zeta. unfold startTimer in Hs. rewrite Hc in Hs.
  cbv zeta in Hs. injection Hs as <-.
  fold (newTimerRow db conv ty d now).
  assert (Hfresh : forall r0, r0 ∈ timers db ->
            Timer.id r0 < Timer.id (newTimerRow db conv ty d now)).
  { intros r0 Hr0. simpl. apply lastID_fresh. apply list_elem_of_fmap. by exists r0. }
  split_and!; try done.
  - apply (getActiveTimers_elem _ c conv); [done|]. simpl. split_and!; try done.
    apply elem_of_app. right. by left.
  - intros c0 k. unfold getActiveTimers, getConversation. simpl.
    destruct (List.find _ _) as [conv0|]; [|done]. f_equal.
    rewrite map_app, List.filter_app. simpl.
    rewrite Z.eqb_refl. simpl. rewrite andb_false_r. simpl. rewrite app_nil_r.
    f_equal. apply endTimer_other_ids.
    intros r0 Hr0. specialize (Hfresh r0 Hr0). simpl in Hfresh. lia.
Qed.

Lemma getActiveTimers_endTimer db c ty i now r :
  r ∈ getActiveTimers (endTimer db i now) c ty
  <-> r ∈ getActiveTimers db c ty /\ Timer.id r <> i.
Proof.
  destruct (getConversation db c) as [conv|] eqn:Hc.
  - assert (Hc' : getConversation (endTimer db i now) c = Some conv) by done.
    rewrite (getActiveTimers_elem _ c conv ty r Hc'), (getActiveTimers_elem _ c conv ty r Hc).
    simpl. rewrite list_elem_of_fmap. split.
    + intros ((r0 & -> & Hr0) & Hcid & Hact & Hty).
      destruct (Z.eqb_spec (Timer.id r0) i); [done|]. tauto.
    + intros ((Hr & Hcid & Hact & Hty) & Hne). split_and!; try done.
      exists r. split; [|done]. destruct (Z.eqb_spec (Timer.id r) i); done.
  - assert (Hc' : getConversation (endTimer db i now) c = None) by done.
    unfold getActiveTimers. rewrite Hc, Hc'. split; [by intros ?%elem_of_nil|].
    by intros [?%elem_of_nil _].
Qed.

Lemma getActiveTimers_endTimer_clock db c ty i now now' :
  getActiveTimers (endTimer db i now) c ty = getActiveTimers (endTimer db i now') c ty.
Proof.
  unfold getActiveTimers.
  change (getConversation (endTimer db i now) c) with (getConversation db c).
  change (getConversation (endTimer db i now') c) with (getConversation db c).
  destruct (getConversation db c) as [conv|]; [|done]. f_equal. simpl.
  induction (timers db) as [|r0 l IH]; [done|]. simpl. rewrite IH.
  destruct (Timer.id r0 =? i); [|done]. simpl. by rewrite !andb_false_r.
Qed.

(** X5 ([StorageService.endTimer], [getActiveTimers]).  [endTimer] takes
    the timer with the id given, and nothing else, out of the active
    timers, and stamps its [end_time] with the second of the call.  A
    second call for the same id stamps the row again: two calls leave
    the ledger one call at the later reading of the clock leaves, so the
    active timers are the same after the second call while the
    [end_time] of the row moves.  Conversations and cooldown rows are not
    touched. *)
Theorem endTimer_active_set db c ty i now now' r :
  (r ∈ getActiveTimers (endTimer db i now) c ty
   <-> r ∈ getActiveTimers db c ty /\ Timer.id r <> i)
  /\ endTimer (endTimer db i now) i now' = endTimer db i now'
  /\ getActiveTimers (endTimer (endTimer db i now) i now') c ty
     = getActiveTimers (endTimer db i now) c ty
  /\ (r ∈ timers (endTimer db i now) -> Timer.id r = i ->
      Timer.is_active r = false /\ Timer.end_time r = Some (seconds now))
  /\ cooldowns (endTimer db i now) = cooldowns db
  /\ conversations (endTimer db i now) = conversations db.
Proof.
  assert (Htwice : endTimer (endTimer db i now) i now' = endTimer db i now').
  { unfold endTimer. simpl. f_equal. rewrite <- list_fmap_compose.
    apply list_fmap_ext. intros _ r0 _. simpl.
    destruct (Timer.id r0 =? i) eqn:E; simpl; by rewrite E. }
  split_and!; try done.
  - apply getActiveTimers_endTimer.
  - rewrite Htwice. apply getActiveTimers_endTimer_clock.
  - simpl. intros (r0 & -> & _)%list_elem_of_fmap.
    destruct (Z.eqb_spec (Timer.id r0) i); simpl; [done|]. by intros ?.
Qed.

Lemma seconds_mono (a b : Z) : a <= b -> seconds a <= seconds b.
Proof. intros H. unfold seconds. by apply Z.div_le_mono. Qed.

Lemma cleanup_running cid (ns ns' : Z) rows :
  ns <= ns' ->
  List.filter (running cid ns')
    (map (fun r => if Cooldown.is_active r && (Cooldown.end_time r <=? ns)
                   then Cooldown.deactivate r else r) rows)
  = List.filter (running cid ns') rows.
Proof.
  intros Hle. induction rows as [|r rows IH]; [done|]. simpl. rewrite IH.
  destruct (Cooldown.is_active r) eqn:E1; simpl; [|done].
  destruct (Z.leb_spec (Cooldown.end_time r) ns) as [E2|E2]; [|done].
  unfold running. simpl. rewrite E1.
  destruct (Z.ltb_spec ns' (Cooldown.end_time r)); [lia|].
  by rewrite !andb_false_r.
Qed.

(** X6 ([StorageService.cleanup], first statement).  Deactivating the
    cooldown rows that have ended is not seen by the cooldown queries at
    the time of the sweep or later; afterwards every active row ends in
    the future, and a row that ends in the future is kept as it is. *)
Theorem cleanupExpiredCooldowns_unobservable db now :
  (forall c now', now <= now' ->
     isInCooldown (cleanupExpiredCooldowns db now) c now' = isInCooldown db c now'
     /\ getRemainingCooldownTime (cleanupExpiredCooldowns db now) c now'
        = getRemainingCooldownTime db c now')
  /\ (forall r, r ∈ cooldowns (cleanupExpiredCooldowns db now) ->
        Cooldown.is_active r = true -> seconds now < Cooldown.end_time r)
  /\ (forall r, r ∈ cooldowns db -> seconds now < Cooldown.end_time r ->
        r ∈ cooldowns (cleanupExpiredCooldowns db now)).
Proof.
  split_and!; try done.
  - intros c now' Hle. apply seconds_mono in Hle.
    unfold isInCooldown, getRemainingCooldownTime, getConversation. simpl.
    destruct (List.find _ _) as [conv|]; [|done].
    by rewrite (cleanup_running _ _ _ _ Hle).
  - intros r Hr Hact. simpl in Hr. apply list_elem_of_fmap in Hr as (r0 & -> & _).
    destruct (Cooldown.is_active r0) eqn:E1; simpl in *; [|congruence].
    destruct (Z.leb_spec (Cooldown.end_time r0) (seconds now)); simpl in *; [done|lia].
  - intros r Hr Hfut. simpl. apply list_elem_of_fmap. exists r. split; [|done].
    destruct (Z.leb_spec (Cooldown.end_time r) (seconds now)); [lia|].
    by rewrite andb_false_r.
Qed.

End Ledger.

(** ** The timer service (services/TimerService.ts) *)

Section Service.
Context (config : AppSettings).
Local Close Scope Z_scope.

Lemma getActiveConversations_elem_inv db conv :
  conv ∈ StorageService.getActiveConversations db ->
  conv ∈ StorageService.conversations db
  /\ StorageService.Conversation.status conv = StorageService.active.
Proof.
  unfold StorageService.getActiveConversations. rewrite orderByDesc_Permutation.
  rewrite list_elem_of_In, List.filter_In, <- list_elem_of_In.
  intros [? ?%bool_decide_eq_true]. done.
Qed.

Lemma restoreResponseTimer_restoredFrom db conv now timer s :
  conv ∈ StorageService.conversations db ->
  StorageService.Conversation.status conv = StorageService.active ->
  wf s -> restoredFrom db s ->
  restoredFrom db
    (exec (restoreResponseTimer (StorageService.Conversation.chat_id conv) now timer) s).
Proof.
  intros Hin Hact Hwf HR. rewrite restoreResponseTimer_exec. cbv zeta.
  destruct (truthy _); [|done]. destruct (_ <? _)%Z; [|done].
  destruct (getOrCreate_facts (StorageService.Conversation.chat_id conv) s Hwf)
    as (_ & _ & _ & Hother & _).
  intros c o. simpl. destruct (decide (StorageService.Conversation.chat_id conv = c)) as [<-|Hd].
  - rewrite lookup_insert_eq. intros [= <-]. rewrite lookup_total_insert_eq. simpl.
    split; [by exists conv|]. left. by eexists.
  - rewrite lookup_insert_ne by done. intros Ho.
    destruct (Hother c o ltac:(done) Ho) as [Hne Hheap].
    rewrite lookup_total_insert_ne by done. rewrite Hheap. by apply HR.
Qed.

Lemma restoreCooldown_restoredFrom db conv now s :
  conv ∈ StorageService.conversations db ->
  StorageService.Conversation.status conv = StorageService.active ->
  wf s -> restoredFrom db s ->
  restoredFrom db (exec (restoreCooldown config (StorageService.Conversation.chat_id conv) now) s).
Proof.
  intros Hin Hact [Hr Hh] HR. rewrite restoreCooldown_exec. cbv zeta.
  case_match; [|done].
  intros c o. simpl. destruct (decide (StorageService.Conversation.chat_id conv = c)) as [<-|Hd].
  - rewrite lookup_insert_eq. intros [= <-]. rewrite lookup_total_insert_eq. simpl.
    split; [by exists conv|]. right. by eexists.
  - rewrite lookup_insert_ne by done. intros Ho.
    destruct (Hr _ _ Ho) as [Hlt _]. rewrite lookup_total_insert_ne by lia. by apply HR.
Qed.

Lemma initializeService_restoredFrom (db : StorageService.Database) (now : Z) :
  restoredFrom db (exec (initializeService config now) (new db)).
Proof.
  rewrite initializeService_exec, restoreTimersFromDatabase_exec.
  change (storage (new db)) with db.
  change (restoredFrom db (exec (forEach (StorageService.getActiveConversations db)
                                   (restoreConversation config now)) (new db))).
  apply (forEach_invariant (fun s => wf s /\ restoredFrom db s)).
  - intros conv s Hconv [Hwf HR].
    apply getActiveConversations_elem_inv in Hconv as [Hin Hact].
    rewrite restoreConversation_exec. cbv zeta.
    apply (forEach_invariant (fun s => wf s /\ restoredFrom db s)).
    + intros timer s' _ [? ?]. split.
      * by apply restoreResponseTimer_wf.
      * by apply restoreResponseTimer_restoredFrom.
    + split; [by apply restoreCooldown_wf | by apply restoreCooldown_restoredFrom].
  - split; [apply new_wf|]. intros c o Ho. simpl in Ho. by rewrite lookup_empty in Ho.
Qed.

(** X7 ([restoreTimersFromDatabase], [StorageService.getActiveConversations]).
    Recovery restores active conversations only: a conversation that has
    a state after the service was initialised on the ledger [db] is an
    active conversation of [db], and its state holds a response or a
    cooldown handle. *)
Theorem recovery_only_active_conversations (db : StorageService.Database) (now : Z)
    (c : string) (st : TimerState.t) :
  lookupState c (exec (initializeService config now) (new db)) = Some st ->
  (exists conv, conv ∈ StorageService.conversations db
                /\ StorageService.Conversation.chat_id conv = c
                /\ StorageService.Conversation.status conv = StorageService.active)
  /\ (is_Some (TimerState.responseTimer st) \/ is_Some (TimerState.cooldownTimer st)).
Proof.
  intros (o & Ho & ->)%lookupState_Some.
  by apply (initializeService_restoredFrom db now c o).
Qed.

(** X8 ([TimerService.startCooldown], [StorageService.startCooldown],
    [restoreTimersFromDatabase]).  A cooldown started for a chat the
    ledger has no conversation for is kept in memory only: the write is
    rejected and the rejection printed, the ledger is unchanged, the chat
    is in cooldown in this process, and a process started later on the
    ledger does not know of it. *)
Theorem startCooldown_unknown_conversation (c : string) (d now now' : Z) (s : t) :
  StorageService.getConversation (storage s) c = None ->
  let s' := exec (startCooldown c d now) s in
  storage s' = storage s
  /\ errors s' = errors s ++ [FailedToPersistCooldown c]
  /\ eval (isInCooldown c) s' = true
  /\ lookupState c (exec (initializeService config now') (new (storage s'))) = None.
Proof.
  intros Hnone. cbv zeta.
  assert (Hst : storage (exec (startCooldown c d now) s) = storage s
          /\ errors (exec (startCooldown c d now) s) = errors s ++ [FailedToPersistCooldown c]).
  { rewrite startCooldown_exec. cbv zeta. simpl.
    unfold StorageService.startCooldown. by rewrite Hnone. }
  destruct Hst as [Hst Her]. split_and!; try done.
  - destruct (startCooldown_state c d now s) as (o & h & Ho & Hc & _).
    rewrite isInCooldown_eval. unfold lookupState. rewrite Ho. simpl. done.
  - rewrite Hst.
    destruct (lookupState c _) as [st|] eqn:E; [|done].
    apply lookupState_Some in E as (o & Ho & _).
    destruct (initializeService_restoredFrom (storage s) now' c o Ho)
      as [(conv & Hin & Hchat & _) _].
    unfold StorageService.getConversation in Hnone.
    apply list_elem_of_In in Hin.
    pose proof (List.find_none _ _ Hnone conv Hin) as Hf. simpl in Hf.
    apply bool_decide_eq_false in Hf. done.
Qed.

(** The handle and the object of the cooldown [startCooldown] schedules. *)
Lemma startCooldown_handle (c : string) (d now : Z) (s : t) :
  let s' := exec (startCooldown c d now) s in
  exists o st,
    timers s' !! c = Some o
    /\ heap s' !!! o = TimerState.mk (TimerState.chatId st) None (Some (nextHandle s))
                                     (Some now) true
    /\ pending s' !! nextHandle s = Some (CooldownEnd o c, (now + clampDelay d)%Z)
    /\ nextHandle s' = S (nextHandle s)
    /\ emitted s' = emitted s ++ [COOLDOWN_STARTED c d]
    /\ (forall h x, pending s' !! h = Some x -> h <> nextHandle s -> pending s !! h = Some x).
Proof.
  cbv zeta. rewrite startCooldown_exec. cbv zeta. simpl.
  eexists _, _. rewrite !lookup_insert_eq, lookup_total_insert_eq.
  split_and!; try reflexivity.
  intros h x Hx Hne. rewrite lookup_insert_ne in Hx by done.
  by apply pending_after_clears in Hx as [? _].
Qed.

(** X9 ([TimerService.startCooldown]).  A second [startCooldown] on the
    same conversation restarts the window: the object of the
    conversation is reused, the timeout of the first call is cleared, the
    one of the second call is pending, the state carries the time and the
    handle of the second call, and both calls emit their event.  Each
    timeout is due [clampDelay] of its duration after the call: after the
    duration when that is between one millisecond and [TIMEOUT_MAX], and
    after one millisecond otherwise. *)
Theorem startCooldown_restarts_window (c : string) (d1 d2 t1 t2 : Z) (s : t) :
  let s1 := exec (startCooldown c d1 t1) s in
  let s2 := exec (startCooldown c d2 t2) s1 in
  exists o,
    timers s1 !! c = Some o /\ timers s2 !! c = Some o
    /\ pending s1 !! nextHandle s = Some (CooldownEnd o c, (t1 + clampDelay d1)%Z)
    /\ pending s2 !! nextHandle s = None
    /\ pending s2 !! S (nextHandle s) = Some (CooldownEnd o c, (t2 + clampDelay d2)%Z)
    /\ TimerState.isInCooldown (heap s2 !!! o) = true
    /\ TimerState.lastResponseTime (heap s2 !!! o) = Some t2
    /\ TimerState.cooldownTimer (heap s2 !!! o) = Some (S (nextHandle s))
    /\ emitted s2 = emitted s ++ [COOLDOWN_STARTED c d1; COOLDOWN_STARTED c d2].
Proof.
  cbv zeta.
  destruct (startCooldown_handle c d1 t1 s) as (o & st & Ho & Hst & Hp & Hn & He & _).
  revert Ho Hst Hp Hn He. generalize (exec (startCooldown c d1 t1) s). intros s1 Ho Hst Hp Hn He.
  exists o. split; [done|].
  rewrite startCooldown_exec. cbv zeta. simpl. rewrite Ho. simpl. rewrite Hst. simpl.
  rewrite Hn, He, <- app_assoc. simpl.
  rewrite !lookup_insert_eq, lookup_total_insert_eq.
  split_and!; try done.
  rewrite lookup_insert_ne by lia. apply lookup_delete_eq.
Qed.

Lemma fire_not_due (callbacks : cbid -> Callback) (h : handle) (task : Task) (due now : Z) (s : t) :
  pending s !! h = Some (task, due) -> (now < due)%Z ->
  fire config callbacks h now s = (false, s).
Proof.
  intros Hp Hlt. unfold fire. mprims. simpl. rewrite Hp.
  by destruct (Z.leb_spec due now); [lia|].
Qed.

Lemma fire_not_pending (callbacks : cbid -> Callback) (h : handle) (now : Z) (s : t) :
  pending s !! h = None -> fire config callbacks h now s = (false, s).
Proof. intros Hp. unfold fire. mprims. simpl. by rewrite Hp. Qed.

(** X10 ([TimerService.startCooldown] and its timeout, [isInCooldown]).
    The life of a cooldown: once started the conversation is in cooldown;
    the timeout does not fire before [clampDelay] of the duration has
    passed (the duration itself when that is between one millisecond and
    [TIMEOUT_MAX], one millisecond otherwise); when it has passed the
    timeout fires, the conversation leaves the cooldown, the
    cooldown-ended event is emitted, and the timeout never fires
    again. *)
Theorem cooldown_lifecycle (callbacks : cbid -> Callback) (c : string) (d start now : Z) (s : t) :
  let s1 := exec (startCooldown c d start) s in
  let h := nextHandle s in
  eval (isInCooldown c) s1 = true
  /\ ((now < start + clampDelay d)%Z -> fire config callbacks h now s1 = (false, s1))
  /\ ((start + clampDelay d <= now)%Z ->
      let s2 := exec (fire config callbacks h now) s1 in
      eval (fire config callbacks h now) s1 = true
      /\ eval (isInCooldown c) s2 = false
      /\ emitted s2 = emitted s1 ++ [COOLDOWN_ENDED c]
      /\ (forall now', fire config callbacks h now' s2 = (false, s2))).
Proof.
  cbv zeta.
  destruct (startCooldown_handle c d start s) as (o & st & Ho & Hst & Hp & Hn & He & _).
  revert Ho Hst Hp Hn He. generalize (exec (startCooldown c d start) s).
  intros s1 Ho Hst Hp Hn He. split_and!.
  - rewrite isInCooldown_eval. unfold lookupState. by rewrite Ho; simpl; rewrite Hst.
  - intros Hlt. by apply (fire_not_due callbacks _ _ _ _ _ Hp).
  - intros Hdue. destruct (fire_due config callbacks _ _ _ _ _ Hp Hdue) as [Hev Hex].
    rewrite Hex. simpl. rewrite !exec_bind. unfold read. rewrite eval_gets.
    change (heap (exec (clearTimeout ?h) ?x)) with (heap x).
    split_and!; try done.
    + rewrite isInCooldown_eval. unfold lookupState. simpl. rewrite Ho. simpl.
      by rewrite lookup_total_insert_eq.
    + intros now'. apply fire_not_pending. simpl. apply lookup_delete_eq.
Qed.

Lemma lookupState_other_object (c c' : string) (o : ref) (x : TimerState.t)
    (s : t) (ts : gmap string ref) (hp : gmap ref TimerState.t) :
  wf s -> c' <> c -> timers s !! c = Some o ->
  ts !! c' = timers s !! c' ->
  (forall o', o' <> o -> hp !!! o' = heap s !!! o') ->
  (o' ← ts !! c'; Some (hp !!! o')) = lookupState c' s.
Proof.
  intros [Hr _] Hne Ho Hts Hhp. unfold lookupState. rewrite Hts.
  destruct (timers s !! c') as [o'|] eqn:Ho'; [|done]. simpl.
  rewrite Hhp; [done|]. intros ->.
  destruct (Hr _ _ Ho) as [_ E1]. destruct (Hr _ _ Ho') as [_ E2]. congruence.
Qed.

Lemma cancelTimer_wf (c : string) (s : t) : wf s -> wf (exec (cancelTimer c) s).
Proof.
  intros [Hr Hh]. rewrite cancelTimer_exec. repeat case_match; try done.
  split; simpl.
  - intros c' o' Ho'. destruct (Hr _ _ Ho') as [? ?]. split; [done|].
    destruct (decide (n = o')) as [<-|Hne].
    + by rewrite lookup_total_insert_eq.
    + by rewrite lookup_total_insert_ne.
  - intros h' [x Hx]. apply Hh. exists x. by apply lookup_delete_Some in Hx as [_ ?].
Qed.

Lemma cancelTimer_frame (c c' : string) (s : t) :
  wf s -> c' <> c -> lookupState c' (exec (cancelTimer c) s) = lookupState c' s.
Proof.
  intros Hwf Hne. rewrite cancelTimer_exec.
  destruct (timers s !! c) as [o|] eqn:Ho; [|done].
  destruct (TimerState.responseTimer (heap s !!! o)); [|done].
  unfold lookupState at 1. simpl.
  apply (lookupState_other_object c c' o (heap s !!! o)); try done.
  intros o' Ho'. by rewrite lookup_total_insert_ne.
Qed.

Lemma startCooldown_frame (c c' : string) (d now : Z) (s : t) :
  wf s -> c' <> c -> lookupState c' (exec (startCooldown c d now) s) = lookupState c' s.
Proof.
  intros Hwf Hne. rewrite startCooldown_exec. cbv zeta.
  destruct (getOrCreate_facts c s Hwf) as (_ & _ & _ & Hother & _).
  unfold lookupState. simpl. rewrite lookup_insert_ne by done.
  destruct (timers s !! c') as [o'|] eqn:Ho'; [|done]. simpl.
  destruct (Hother c' o' Hne Ho') as [Hno Hheap].
  by rewrite lookup_total_insert_ne, Hheap.
Qed.

Lemma startResponseTimer_frame (c c' : string) (cb : cbid) (now : Z) (s : t) :
  wf s -> c' <> c ->
  lookupState c' (exec (startResponseTimer config c cb now) s) = lookupState c' s.
Proof.
  intros Hwf Hne. rewrite startResponseTimer_exec. cbv zeta.
  rewrite <- (cancelTimer_frame c c' s Hwf Hne).
  apply (cancelTimer_wf c) in Hwf. revert Hwf. generalize (exec (cancelTimer c) s).
  intros s1 [Hr _]. unfold lookupState. simpl. rewrite lookup_insert_ne by done.
  destruct (timers s1 !! c') as [o'|] eqn:Ho'; [|done]. simpl.
  destruct (Hr _ _ Ho') as [Hlt _]. by rewrite lookup_total_insert_ne by lia.
Qed.

Lemma clearCooldown_memory (c : string) (now : Z) (s : t) :
  let s' := exec (clearCooldown c now) s in
  timers s' = timers s
  /\ heap s' = match timers s !! c with
               | Some o =>
                   match TimerState.cooldownTimer (heap s !!! o) with
                   | Some _ => <[o := TimerState.set_isInCooldown false
                                        (TimerState.set_cooldownTimer None (heap s !!! o))]>
                                 (heap s)
                   | None => heap s
                   end
               | None => heap s
               end
  /\ pending s' = match timers s !! c with
                  | Some o =>
                      match TimerState.cooldownTimer (heap s !!! o) with
                      | Some h => delete h (pending s)
                      | None => pending s
                      end
                  | None => pending s
                  end
  /\ emitted s' = emitted s /\ errors s' = errors s
  /\ StorageService.cooldowns (storage s') = StorageService.cooldowns (storage s)
  /\ StorageService.conversations (storage s') = StorageService.conversations (storage s).
Proof.
  cbv zeta. unfold clearCooldown. rewrite !exec_bind, eval_gets, exec_gets.
  match goal with |- context [exec (forEach _ _) ?x] => set (s1 := x) end.
  assert (H1 : timers s1 = timers s
    /\ heap s1 = match timers s !! c with
               | Some o =>
                   match TimerState.cooldownTimer (heap s !!! o) with
                   | Some _ => <[o := TimerState.set_isInCooldown false
                                        (TimerState.set_cooldownTimer None (heap s !!! o))]>
                                 (heap s)
                   | None => heap s
                   end
               | None => heap s
               end
    /\ pending s1 = match timers s !! c with
                  | Some o =>
                      match TimerState.cooldownTimer (heap s !!! o) with
                      | Some h => delete h (pending s)
                      | None => pending s
                      end
                  | None => pending s
                  end
    /\ emitted s1 = emitted s /\ errors s1 = errors s
    /\ StorageService.cooldowns (storage s1) = StorageService.cooldowns (storage s)
    /\ StorageService.conversations (storage s1) = StorageService.conversations (storage s)).
  { subst s1. mprims. simpl. destruct (timers s !! c) as [o|]; simpl; [|done].
    by destruct (TimerState.cooldownTimer (heap s !!! o)). }
  destruct H1 as (Ht & Hhp & Hp & He & Hr & Hc & Hv).
  assert (H2 :
    let s' := exec (forEach (StorageService.getActiveTimers (storage s1) c
                               (Some StorageService.cooldown))
                      (fun timer =>
                         db ← gets storage;
                         set_storage (StorageService.endTimer db
                                        (StorageService.Timer.id timer) now))) s1 in
    timers s' = timers s1 /\ heap s' = heap s1 /\ pending s' = pending s1
    /\ emitted s' = emitted s1 /\ errors s' = errors s1
    /\ StorageService.cooldowns (storage s') = StorageService.cooldowns (storage s1)
    /\ StorageService.conversations (storage s') = StorageService.conversations (storage s1)).
  { cbv zeta. apply (forEach_invariant (fun s' =>
      timers s' = timers s1 /\ heap s' = heap s1 /\ pending s' = pending s1
      /\ emitted s' = emitted s1 /\ errors s' = errors s1
      /\ StorageService.cooldowns (storage s') = StorageService.cooldowns (storage s1)
      /\ StorageService.conversations (storage s')
         = StorageService.conversations (storage s1))); [|done].
    intros timer s' _ H. by rewrite exec_bind. }
  cbv zeta in H2. destruct H2 as (Ht' & Hhp' & Hp' & He' & Hr' & Hc' & Hv').
  split_and!; etrans; eassumption.
Qed.

Lemma clearCooldown_frame (c c' : string) (now : Z) (s : t) :
  wf s -> c' <> c -> lookupState c' (exec (clearCooldown c now) s) = lookupState c' s.
Proof.
  intros Hwf Hne. destruct (clearCooldown_memory c now s) as (Ht & Hhp & _).
  unfold lookupState at 1. rewrite Ht, Hhp.
  destruct (timers s !! c) as [o|] eqn:Ho; [|done].
  destruct (TimerState.cooldownTimer (heap s !!! o)); [|done].
  apply (lookupState_other_object c c' o (heap s !!! o)); try done.
  intros o' Ho'. by rewrite lookup_total_insert_ne.
Qed.

(** X11 ([startResponseTimer], [startCooldown], [handleGiladResponse],
    [cancelTimer], [clearCooldown]).  A call about one conversation
    leaves every other conversation as it was: its state, whether it is
    in cooldown and its remaining time. *)
Theorem other_conversations_untouched (now now' : Z) (call : Call) (c' : string) (s : t) :
  wf s -> c' <> chatOf call ->
  let s' := exec (applyCall config now call) s in
  lookupState c' s' = lookupState c' s
  /\ eval (isInCooldown c') s' = eval (isInCooldown c') s
  /\ eval (getRemainingTime config c' now') s' = eval (getRemainingTime config c' now') s.
Proof.
  intros Hwf Hne. cbv zeta.
  assert (H : lookupState c' (exec (applyCall config now call) s) = lookupState c' s).
  { destruct call as [c cb|c d|c|c|c]; simpl in *.
    - by apply startResponseTimer_frame.
    - by apply startCooldown_frame.
    - unfold handleGiladResponse. rewrite !exec_bind.
      change (lookupState c' (exec (emit _) ?x)) with (lookupState c' x).
      rewrite startCooldown_frame; [by apply cancelTimer_frame | by apply cancelTimer_wf | done].
    - by apply cancelTimer_frame.
    - by apply clearCooldown_frame. }
  by rewrite !isInCooldown_eval, !getRemainingTime_eval, H.
Qed.

(** X12 ([clearCooldown]).  [clearCooldown] ends the cooldown in memory:
    with a cooldown handle in the state, the timeout is cleared and the
    flag and the handle are reset; without one (or without a state)
    nothing in memory changes.  No event is emitted, and the cooldown
    rows of the ledger are not touched, so the ledger goes on answering
    its cooldown query as before. *)
Theorem clearCooldown_keeps_ledger_cooldown (c : string) (now : Z) (s : t) :
  let s' := exec (clearCooldown c now) s in
  (forall c0 now0, StorageService.isInCooldown (storage s') c0 now0
                   = StorageService.isInCooldown (storage s) c0 now0)
  /\ emitted s' = emitted s
  /\ (forall st h, lookupState c s = Some st -> TimerState.cooldownTimer st = Some h ->
        lookupState c s'
        = Some (TimerState.set_isInCooldown false (TimerState.set_cooldownTimer None st))
        /\ pending s' = delete h (pending s))
  /\ (forall st, lookupState c s = Some st -> TimerState.cooldownTimer st = None ->
        lookupState c s' = Some st /\ pending s' = pending s)
  /\ (lookupState c s = None -> lookupState c s' = None /\ pending s' = pending s).
Proof.
  cbv zeta. destruct (clearCooldown_memory c now s) as (Ht & Hhp & Hp & He & _ & Hc & Hv).
  split_and!; try done.
  - intros c0 now0. unfold StorageService.isInCooldown, StorageService.getConversation.
    by rewrite Hc, Hv.
  - intros st h (o & Ho & ->)%lookupState_Some Hh. unfold lookupState.
    rewrite Ht, Hhp, Hp, Ho, Hh. simpl. by rewrite lookup_total_insert_eq.
  - intros st (o & Ho & ->)%lookupState_Some Hh. unfold lookupState.
    rewrite Ht, Hhp, Hp, Ho, Hh. simpl. done.
  - unfold lookupState. rewrite Ht, Hhp, Hp.
    destruct (timers s !! c) as [o|]; [done|]. done.
Qed.

Lemma filter_length_le {A} (P Q : A -> bool) (l : list A) :
  (forall x, P x = true -> Q x = true) ->
  length (List.filter P l) <= length (List.filter Q l).
Proof.
  intros H. induction l as [|x l IH]; [done|]. simpl.
  destruct (P x) eqn:E.
  - rewrite (H x E). simpl. lia.
  - destruct (Q x); simpl; lia.
Qed.

Lemma filter_length_le_all {A} (P : A -> bool) (l : list A) :
  length (List.filter P l) <= length l.
Proof. induction l as [|x l IH]; [done|]. simpl. destruct (P x); simpl; lia. Qed.

(** X13 ([getTimerStats], [getActiveTimers]).  The statistics fit
    together: the total is the size of the map, the number of active
    timers is the length of the list [getActiveTimers] returns, the
    response timers and the conversations in cooldown are each at most
    the active timers, which are at most the total; and the list holds
    the states of the map that have a handle or the cooldown flag. *)
Theorem getTimerStats_consistent (s : t) :
  let stats := eval getTimerStats s in
  totalTimers stats = size (timers s)
  /\ activeTimers stats = length (eval getActiveTimers s)
  /\ activeResponseTimers stats <= activeTimers stats
  /\ chatsInCooldown stats <= activeTimers stats
  /\ activeTimers stats <= totalTimers stats
  /\ (forall st, st ∈ eval getActiveTimers s <->
        exists c, lookupState c s = Some st /\ isActive st = true).
Proof.
  cbv zeta. unfold getTimerStats, getActiveTimers. rewrite !eval_gets. simpl.
  split_and!.
  - unfold values, entries. by rewrite length_fmap, length_map_to_list.
  - done.
  - apply filter_length_le. intros st H. unfold isActive. by rewrite H.
  - apply filter_length_le. intros st H. unfold isActive. rewrite H.
    by rewrite !orb_true_r.
  - apply filter_length_le_all.
  - intros st. rewrite list_elem_of_In, List.filter_In, <- list_elem_of_In.
    unfold values, entries. rewrite list_elem_of_fmap. split.
    + intros [([c o] & -> & Hin) Hact]. apply elem_of_map_to_list in Hin.
      exists c. split; [|done]. apply lookupState_Some. by exists o.
    + intros (c & (o & Ho & ->)%lookupState_Some & Hact). split; [|done].
      exists (c, o). split; [done|]. by apply elem_of_map_to_list.
Qed.

Lemma destroyEntry_exec (e : string * ref) (s : t) :
  let s' := exec (destroyEntry e) s in
  timers s' = timers s /\ heap s' = heap s
  /\ emitted s' = emitted s /\ storage s' = storage s
  /\ (forall h, pending s' !! h =
        if bool_decide (TimerState.responseTimer (heap s !!! e.2) = Some h
                        \/ TimerState.cooldownTimer (heap s !!! e.2) = Some h)
        then None else pending s !! h).
Proof.
  cbv zeta. unfold destroyEntry. mprims. simpl.
  destruct (TimerState.responseTimer (heap s !!! e.2)) as [hr|];
    destruct (TimerState.cooldownTimer (heap s !!! e.2)) as [hc|]; simpl;
    split_and!; try done; intros h; case_bool_decide as Hd; try done.
  all: try (destruct Hd as [Hd|Hd]; simplify_eq;
            try apply lookup_delete_eq;
            destruct (decide (hc = h)) as [->|?]; [apply lookup_delete_eq|];
            rewrite lookup_delete_ne by done; apply lookup_delete_eq).
  all: try (rewrite !lookup_delete_ne; [done|..]; intros ->; apply Hd; auto).
  all: try (destruct Hd as [Hd|Hd]; simplify_eq).
  all: apply lookup_delete_eq.
Qed.

(** X14 ([destroy]).  After [destroy] the map is empty, the service is
    not ready and every conversation is reported out of cooldown with no
    time remaining; the timeouts still pending are those that were
    pending before and whose handle no map entry held. *)
Theorem destroy_clears_held_handles (s : t) :
  let s' := exec destroy s in
  timers s' = ∅
  /\ eval isReady s' = false
  /\ (forall c now, eval (isInCooldown c) s' = false
                    /\ eval (getRemainingTime config c now) s' = 0%Z)
  /\ (forall h x, pending s' !! h = Some x <-> pending s !! h = Some x /\ ~ held s h).
Proof.
  cbv zeta. unfold destroy. rewrite !exec_bind, eval_gets, exec_gets.
  change (exec (set_isInitialized false) (exec timers_clear ?x))
    with (mk ∅ (heap x) (nextRef x) (pending x) (nextHandle x) (jobs x) (emitted x)
             (errors x) (storage x) false).
  set (s1 := exec (forEach (entries s) destroyEntry) s).
  split_and!; try done.
  intros h x. simpl.
  assert (Hinv : timers s1 = timers s /\ heap s1 = heap s
            /\ (forall h x, pending s1 !! h = Some x -> pending s !! h = Some x)
            /\ (forall h, ~ held s h -> pending s1 !! h = pending s !! h)).
  { subst s1. apply (forEach_invariant (fun s1 => timers s1 = timers s /\ heap s1 = heap s
            /\ (forall h x, pending s1 !! h = Some x -> pending s !! h = Some x)
            /\ (forall h, ~ held s h -> pending s1 !! h = pending s !! h))); [|done].
    intros [c o] s' Hin (Ht & Hhp & Hsub & Hkeep).
    apply elem_of_map_to_list in Hin.
    destruct (destroyEntry_exec (c, o) s') as (Ht' & Hhp' & _ & _ & Hp').
    split_and!; try congruence.
    - intros h0 x0. rewrite Hp'. case_bool_decide; [done|]. apply Hsub.
    - intros h0 Hnh. rewrite Hp'. rewrite Hhp. simpl. case_bool_decide as Hd.
      + exfalso. apply Hnh. by exists c, o.
      + by apply Hkeep. }
  destruct Hinv as (_ & _ & Hsub & Hkeep). split.
  - intros Hx. split; [by apply Hsub|]. intros (c & o & Ho & Hheld).
    assert (Hnone : pending s1 !! h = None); [|congruence].
    subst s1.
    apply (forEach_establishes (fun s1 => heap s1 = heap s)
             (fun s1 => pending s1 !! h = None) (entries s) destroyEntry (c, o)).
    + by apply elem_of_map_to_list.
    + intros e s' _ Hhp. destruct (destroyEntry_exec e s') as (_ & Hhp' & _). congruence.
    + intros s' Hhp. destruct (destroyEntry_exec (c, o) s') as (_ & _ & _ & _ & Hp').
      rewrite Hp', Hhp. simpl. by rewrite bool_decide_eq_true_2.
    + intros e s' _ Hhp Hn. destruct (destroyEntry_exec e s') as (_ & _ & _ & _ & Hp').
      rewrite Hp'. by case_bool_decide.
    + done.
  - intros [Hx Hnh]. by rewrite Hkeep.
Qed.

End Service.

(** ** The sweep of [cleanup] *)

Section Sweep.
Context (config : AppSettings).

Lemma falsy_default (v : option Z) :
  (if truthy v then default 0 v else 0) = default 0 v.
Proof. destruct v as [z|]; simpl; [|done]. by destruct (Z.eqb_spec z 0). Qed.

Lemma cleanupEntry_spec (now : Z) (e : string * ref) (s : t) :
  let s' := exec (cleanupEntry config now e) s in
  eval (cleanupEntry config now e) s = idle config now (heap s !!! e.2)
  /\ timers s' = timers s /\ pending s' = pending s /\ emitted s' = emitted s
  /\ heap s' !!! e.2 = swept config now (heap s !!! e.2)
  /\ (forall o, o <> e.2 -> heap s' !!! o = heap s !!! o).
Proof.
  cbv zeta. unfold cleanupEntry, idle, swept, lapsed. mprims. simpl.
  rewrite falsy_default.
  destruct (heap s !!! e.2) as [c rt ct lrt ic] eqn:E. simpl.
  destruct ic; simpl; [destruct (truthy lrt); simpl;
    [destruct (now - default 0 lrt <? cooldownPeriodMs config); simpl|]|].
  all: split_and!; try done.
  all: try (by rewrite lookup_total_insert_eq).
  all: try (by intros o Ho; rewrite lookup_total_insert_ne).
  all: by destruct rt, ct.
Qed.

Lemma cleanupEntries_spec (now : Z) (es : list (string * ref)) (s : t) :
  NoDup es.*2 ->
  let s' := exec (cleanupEntries config now es) s in
  timers s' = timers s /\ pending s' = pending s /\ emitted s' = emitted s
  /\ (forall e, e ∈ es -> heap s' !!! e.2 = swept config now (heap s !!! e.2))
  /\ (forall o, o ∉ es.*2 -> heap s' !!! o = heap s !!! o)
  /\ (forall c, c ∈ eval (cleanupEntries config now es) s <->
        exists o, (c, o) ∈ es /\ idle config now (heap s !!! o) = true).
Proof.
  revert s. induction es as [|e es IH]; intros s Hnd; cbv zeta.
  - split_and!; try done.
    + by intros e ?%elem_of_nil.
    + intros c. split; [by intros ?%elem_of_nil|].
      by intros (o & ?%elem_of_nil & _).
  - apply NoDup_cons in Hnd as [Hne Hnd]. simpl in Hne.
    simpl cleanupEntries. rewrite !exec_bind, !eval_bind, exec_ret.
    destruct (cleanupEntry_spec now e s) as (Hb & Ht & Hp & Hem & Hself & Hoth).
    set (s1 := exec (cleanupEntry config now e) s) in *.
    destruct (IH s1 Hnd) as (Ht' & Hp' & Hem' & Hin & Hout & Hl).
    set (s2 := exec (cleanupEntries config now es) s1) in *.
    split_and!; try congruence.
    + intros e' [->|He']%elem_of_cons.
      * by rewrite Hout, Hself.
      * rewrite Hin by done. f_equal. apply Hoth. intros Heq. apply Hne.
        rewrite <- Heq. apply list_elem_of_fmap. by exists e'.
    + intros o Ho. simpl in Ho. apply not_elem_of_cons in Ho as [Ho1 Ho2].
      rewrite Hout by done. by apply Hoth.
    + intros c. rewrite Hb.
      assert (Hres : forall o, (c, o) ∈ es -> heap s1 !!! o = heap s !!! o).
      { intros o Ho. apply Hoth. intros ->. apply Hne.
        apply list_elem_of_fmap. by exists (c, e.2). }
      assert (Hrest : c ∈ eval (cleanupEntries config now es) s1 <->
                exists o, (c, o) ∈ es /\ idle config now (heap s !!! o) = true).
      { rewrite Hl. split; intros (o & Ho & Hi); exists o; split; try done.
        - by rewrite <- Hres.
        - by rewrite Hres. }
      unfold mret, M_ret, eval at 1. simpl.
      destruct (idle config now (heap s !!! e.2)) eqn:Ei.
      * rewrite elem_of_cons, Hrest. split.
        -- intros [->|(o & Ho & Hi)].
           ++ exists e.2. split; [|done]. destruct e. by left.
           ++ exists o. split; [by right|done].
        -- intros (o & [Ho|Ho]%elem_of_cons & Hi).
           ++ left. by subst e.
           ++ right. by exists o.
      * rewrite Hrest. split.
        -- intros (o & Ho & Hi). exists o. split; [by right|done].
        -- intros (o & [Ho|Ho]%elem_of_cons & Hi).
           ++ subst e. simpl in Ei. congruence.
           ++ by exists o.
Qed.

Lemma forEach_timers_delete (l : list string) (s : t) :
  let s' := exec (forEach l timers_delete) s in
  heap s' = heap s /\ pending s' = pending s /\ emitted s' = emitted s
  /\ (forall c, timers s' !! c = if decide (c ∈ l) then None else timers s !! c).
Proof.
  revert s. induction l as [|c0 l IH]; intros s; cbv zeta.
  - by split_and!.
  - rewrite exec_forEach_cons.
    destruct (IH (exec (timers_delete c0) s)) as (Hh & Hp & He & Ht).
    split_and!; try done. intros c. rewrite Ht.
    unfold timers_delete, exec. simpl.
    destruct (decide (c = c0)) as [->|Hne].
    + rewrite lookup_delete_eq. rewrite (decide_True (P := c0 ∈ c0 :: l)) by left.
      by case_decide.
    + rewrite lookup_delete_ne by done.
      case_decide as H1; case_decide as H2; try done.
      * exfalso. apply H2. by right.
      * by apply elem_of_cons in H2 as [?|?].
Qed.

Lemma wf_entries_NoDup (s : t) : wf s -> NoDup (entries s).*2.
Proof.
  intros [Hwf _]. unfold entries. apply NoDup_fmap_2_strong; [|apply NoDup_map_to_list].
  intros [c1 o1] [c2 o2] H1%elem_of_map_to_list H2%elem_of_map_to_list Heq.
  simpl in Heq. subst o2. f_equal.
  destruct (Hwf _ _ H1) as [_ <-]. by destruct (Hwf _ _ H2) as [_ <-].
Qed.

Lemma cleanupTimers_spec (now : Z) (s : t) :
  wf s ->
  let s' := exec (cleanupTimers config now) s in
  pending s' = pending s /\ emitted s' = emitted s
  /\ (forall c, lookupState c s' =
        match lookupState c s with
        | Some st => if idle config now st then None else Some (swept config now st)
        | None => None
        end).
Proof.
  intros Hwf. cbv zeta. unfold cleanupTimers.
  rewrite !exec_bind, eval_gets, exec_gets.
  destruct (cleanupEntries_spec now (entries s) s (wf_entries_NoDup s Hwf))
    as (Ht & Hp & He & Hin & _ & Hl).
  set (s1 := exec (cleanupEntries config now (entries s)) s) in *.
  set (l := eval (cleanupEntries config now (entries s)) s) in *.
  destruct (forEach_timers_delete l s1) as (Hh' & Hp' & He' & Ht').
  set (s2 := exec (forEach l timers_delete) s1) in *.
  split_and!; try congruence.
  intros c. unfold lookupState. rewrite Ht', Hh', Ht.
  destruct (timers s !! c) as [o|] eqn:Ho; simpl.
  - assert (Hmem : (c, o) ∈ entries s) by by apply elem_of_map_to_list.
    destruct (idle config now (heap s !!! o)) eqn:Hi.
    + rewrite decide_True; [done|]. apply Hl. by exists o.
    + rewrite decide_False.
      * simpl. f_equal. apply (Hin (c, o) Hmem).
      * intros (o' & Ho'%elem_of_map_to_list & Hi')%Hl. congruence.
  - by case_decide.
Qed.

(** X15 ([cleanup], the sweep of the map).  The sweep changes no pending
    timeout and emits nothing.  A conversation in a cooldown that is
    still running, or out of cooldown with a handle in its state, is kept
    with its state as it is.  A conversation is removed exactly when it
    holds no handle, is in no running cooldown and its last response is
    more than a day old. *)
Theorem cleanup_removes_only_idle (now : Z) (s : t) (c : string) (st : TimerState.t) :
  wf s -> lookupState c s = Some st ->
  let s' := exec (cleanupTimers config now) s in
  pending s' = pending s /\ emitted s' = emitted s
  /\ (TimerState.isInCooldown st = true -> truthy (TimerState.lastResponseTime st) = true ->
      now - default 0 (TimerState.lastResponseTime st) < cooldownPeriodMs config ->
      lookupState c s' = Some st)
  /\ (TimerState.isInCooldown st = false ->
      is_Some (TimerState.responseTimer st) \/ is_Some (TimerState.cooldownTimer st) ->
      lookupState c s' = Some st)
  /\ (lookupState c s' = None <->
      TimerState.responseTimer st = None /\ TimerState.cooldownTimer st = None
      /\ 24 * 60 * 60 * 1000 < now - default 0 (TimerState.lastResponseTime st)
      /\ ~ (TimerState.isInCooldown st = true
            /\ truthy (TimerState.lastResponseTime st) = true
            /\ now - default 0 (TimerState.lastResponseTime st) < cooldownPeriodMs config)).
Proof.
  intros Hwf Hst. cbv zeta.
  destruct (cleanupTimers_spec now s Hwf) as (Hp & He & Hl).
  specialize (Hl c). rewrite Hst in Hl. rewrite Hl.
  split_and!; try done.
  - intros Hic Htr Hlt. unfold idle, swept, lapsed. rewrite Hic, Htr.
    apply Z.ltb_lt in Hlt. rewrite Hlt. simpl. by rewrite !andb_false_r.
  - intros Hic Hh. unfold idle, swept, lapsed. rewrite Hic. simpl.
    destruct Hh as [[h Hh]|[h Hh]]; rewrite Hh; simpl; by rewrite ?andb_false_r.
  - unfold idle.
    destruct (TimerState.responseTimer st), (TimerState.cooldownTimer st),
      (TimerState.isInCooldown st), (truthy (TimerState.lastResponseTime st));
      destruct (Z.ltb_spec (now - default 0 (TimerState.lastResponseTime st))
                  (cooldownPeriodMs config));
      destruct (Z.ltb_spec (24 * 60 * 60 * 1000)
                  (now - default 0 (TimerState.lastResponseTime st)));
      simpl; intuition (try congruence; try lia).
Qed.

(** X16 ([cleanup], the sweep of the map).  After the sweep a conversation
    that is flagged in cooldown with a response time on record has time
    remaining.  A cooldown that has run its period is switched off: the
    flag and the handle are reset in the state, while the timeout of the
    handle is left pending as it was. *)
Theorem cleanup_expires_cooldowns (now : Z) (s : t) :
  wf s ->
  let s' := exec (cleanupTimers config now) s in
  (forall c st, lookupState c s' = Some st ->
     TimerState.isInCooldown st = true -> truthy (TimerState.lastResponseTime st) = true ->
     0 < eval (getRemainingTime config c now) s')
  /\ (forall c st h, lookupState c s = Some st ->
        TimerState.isInCooldown st = true -> truthy (TimerState.lastResponseTime st) = true ->
        cooldownPeriodMs config <= now - default 0 (TimerState.lastResponseTime st) ->
        TimerState.cooldownTimer st = Some h ->
        lookupState c s'
        = Some (TimerState.set_cooldownTimer None (TimerState.set_isInCooldown false st))
        /\ pending s' !! h = pending s !! h).
Proof.
  intros Hwf. cbv zeta.
  destruct (cleanupTimers_spec now s Hwf) as (Hp & He & Hl).
  split.
  - intros c st Hst Hic Htr. rewrite getRemainingTime_eval, Hst, Hic, Htr. simpl.
    specialize (Hl c). rewrite Hst in Hl.
    destruct (lookupState c s) as [st0|]; [|done].
    destruct (idle config now st0); [done|]. injection Hl as ->.
    unfold swept, lapsed in *.
    destruct (TimerState.isInCooldown st0) eqn:Hic0; simpl in *;
      destruct (truthy (TimerState.lastResponseTime st0)) eqn:Htr0; simpl in *;
      try congruence.
    destruct (Z.ltb_spec (now - default 0 (TimerState.lastResponseTime st0))
                (cooldownPeriodMs config)); simpl in *; [lia|].
    by destruct st0.
  - intros c st h Hst Hic Htr Hge Hh. rewrite Hp. split; [|done].
    rewrite Hl, Hst. unfold idle, swept, lapsed. rewrite Hic, Htr, Hh.
    apply Z.ltb_ge in Hge. rewrite Hge.
    rewrite (bool_decide_eq_false_2 (Some h = None)) by done.
    by rewrite andb_false_r.
Qed.

End Sweep.

(** ** What recovery writes to the ledger *)

Section RecoveryLedger.
Context (config : AppSettings).










End RecoveryLedger.

(** ** Instances of the further properties *)

Lemma startCooldown_single_active_row_witness :
  newCooldownRow lapsedCooldown
    (StorageService.Conversation.mk 1 "chatA" 1700000000 StorageService.active)
    18000000 t0
  ∈ StorageService.cooldowns
      (StorageService.mkDatabase
         [StorageService.Conversation.mk 1 "chatA" 1700000000 StorageService.active]
         [StorageService.Cooldown.mk 1 1 1699981000 1699999000 false;
          StorageService.Cooldown.mk 2 1 1700000000 1700018000 true] []).
Proof.
  destruct (startCooldown_single_active_row lapsedCooldown "chatA"
              (StorageService.Conversation.mk 1 "chatA" 1700000000 StorageService.active)
              18000000 t0
              (StorageService.mkDatabase
                 [StorageService.Conversation.mk 1 "chatA" 1700000000 StorageService.active]
                 [StorageService.Cooldown.mk 1 1 1699981000 1699999000 false;
                  StorageService.Cooldown.mk 2 1 1700000000 1700018000 true] []))
    as [H _].
  - vm_compute. reflexivity.
  - vm_compute. reflexivity.
  - exact H.
Defined.

Lemma startCooldown_then_queries_witness :
  let db' := StorageService.mkDatabase
               [StorageService.Conversation.mk 1 "chatA" 1700000000 StorageService.active]
               [StorageService.Cooldown.mk 1 1 1700000000 1700018000 true] [] in
  StorageService.isInCooldown db' "chatA" t0 = bool_decide (1000 <= 18000000)
  /\ StorageService.getRemainingCooldownTime db' "chatA" t0 = Z.max 0 (18000000 / 1000 * 1000)
  /\ (1000 <= 18000000 ->
      18000000 - 1000 < StorageService.getRemainingCooldownTime db' "chatA" t0 <= 18000000).
Proof.
  cbv zeta.
  apply (startCooldown_then_queries chatA_only "chatA"
           (StorageService.Conversation.mk 1 "chatA" 1700000000 StorageService.active)
           18000000 t0
           (StorageService.mkDatabase
              [StorageService.Conversation.mk 1 "chatA" 1700000000 StorageService.active]
              [StorageService.Cooldown.mk 1 1 1700000000 1700018000 true] [])).
  - vm_compute. reflexivity.
  - vm_compute. reflexivity.
Defined.

Lemma startTimer_endTimer_roundtrip_witness :
  newTimerRow chatA_only
    (StorageService.Conversation.mk 1 "chatA" 1700000000 StorageService.active)
    StorageService.response (Some 120000) t0
  ∈ StorageService.getActiveTimers runningResponseTimer "chatA" (Some StorageService.response).
Proof.
  destruct (startTimer_endTimer_roundtrip chatA_only "chatA"
              (StorageService.Conversation.mk 1 "chatA" 1700000000 StorageService.active)
              StorageService.response (Some 120000) t0 (t0 + 120000) runningResponseTimer)
    as [H _].
  - vm_compute. reflexivity.
  - vm_compute. reflexivity.
  - exact H.
Defined.

Lemma endTimer_active_set_witness :
  let r := StorageService.Timer.mk 1 1 1700000000 (Some 1700000120)
             StorageService.response true in
  let once := StorageService.endTimer runningResponseTimer 1 t0 in
  let twice := StorageService.endTimer once 1 (t0 + 1000) in
  (r ∈ StorageService.getActiveTimers once "chatA" (Some StorageService.response)
   <-> r ∈ StorageService.getActiveTimers runningResponseTimer "chatA"
             (Some StorageService.response)
       /\ StorageService.Timer.id r <> 1)
  /\ twice = StorageService.endTimer runningResponseTimer 1 (t0 + 1000)
  /\ StorageService.getActiveTimers twice "chatA" (Some StorageService.response)
     = StorageService.getActiveTimers once "chatA" (Some StorageService.response)
  /\ StorageService.timers once
     = [StorageService.Timer.mk 1 1 1700000000 (Some 1700000000)
          StorageService.response false]
  /\ StorageService.timers twice
     = [StorageService.Timer.mk 1 1 1700000000 (Some 1700000001)
          StorageService.response false].
Proof.
  cbv zeta.
  destruct (endTimer_active_set runningResponseTimer "chatA"
              (Some StorageService.response) 1 t0 (t0 + 1000)
              (StorageService.Timer.mk 1 1 1700000000 (Some 1700000120)
                 StorageService.response true)) as (H1 & H2 & H3 & _).
  split; [exact H1|]. split; [exact H2|]. split; [exact H3|].
  split; vm_compute; reflexivity.
Defined.

Lemma cleanupExpiredCooldowns_unobservable_witness :
  StorageService.isInCooldown (StorageService.cleanupExpiredCooldowns lapsedCooldown t0)
    "chatA" (t0 + 1000)
  = StorageService.isInCooldown lapsedCooldown "chatA" (t0 + 1000)
  /\ StorageService.getRemainingCooldownTime
       (StorageService.cleanupExpiredCooldowns lapsedCooldown t0) "chatA" (t0 + 1000)
     = StorageService.getRemainingCooldownTime lapsedCooldown "chatA" (t0 + 1000).
Proof.
  destruct (cleanupExpiredCooldowns_unobservable lapsedCooldown t0) as [H _].
  apply H. lia.
Defined.

Lemma recovery_only_active_conversations_witness :
  let st := TimerState.mk "chatA" None (Some 0%nat) (Some 1699982001000) true in
  (exists conv, conv ∈ StorageService.conversations runningCooldown
                /\ StorageService.Conversation.chat_id conv = "chatA"
                /\ StorageService.Conversation.status conv = StorageService.active)
  /\ (is_Some (TimerState.responseTimer st) \/ is_Some (TimerState.cooldownTimer st)).
Proof.
  cbv zeta.
  apply (recovery_only_active_conversations mockConfig runningCooldown t0 "chatA").
  vm_compute. reflexivity.
Defined.

Lemma startCooldown_unknown_conversation_witness :
  let s' := exec (startCooldown "chatB" 18000000 t0) (new chatA_only) in
  storage s' = storage (new chatA_only)
  /\ errors s' = errors (new chatA_only) ++ [FailedToPersistCooldown "chatB"]
  /\ eval (isInCooldown "chatB") s' = true
  /\ lookupState "chatB" (exec (initializeService mockConfig (t0 + 1000)) (new (storage s')))
     = None.
Proof.
  apply (startCooldown_unknown_conversation mockConfig "chatB" 18000000 t0 (t0 + 1000)
           (new chatA_only)).
  vm_compute. reflexivity.
Defined.

Lemma cooldown_lifecycle_witness :
  let s1 := exec (startCooldown "chatA" 1000 t0) (new chatA_only) in
  let s2 := exec (fire mockConfig quiet 0%nat (t0 + 1000)) s1 in
  let long := exec (startCooldown "chatA" 2147483648 t0) (new chatA_only) in
  (fire mockConfig quiet 0%nat (t0 + 999) s1 = (false, s1)
   /\ eval (fire mockConfig quiet 0%nat (t0 + 1000)) s1 = true
   /\ eval (isInCooldown "chatA") s2 = false
   /\ emitted s2 = emitted s1 ++ [COOLDOWN_ENDED "chatA"])
  /\ eval (fire mockConfig quiet 0%nat (t0 + 1)) long = true.
Proof.
  cbv zeta. split.
  - destruct (cooldown_lifecycle mockConfig quiet "chatA" 1000 t0 (t0 + 999) (new chatA_only))
      as (_ & H0 & _).
    destruct (cooldown_lifecycle mockConfig quiet "chatA" 1000 t0 (t0 + 1000) (new chatA_only))
      as (_ & _ & H).
    destruct H as (H1 & H2 & H3 & _).
    + vm_compute. discriminate.
    + split; [apply H0; vm_compute; reflexivity|].
      split; [exact H1|]. split; [exact H2 | exact H3].
  - destruct (cooldown_lifecycle mockConfig quiet "chatA" 2147483648 t0 (t0 + 1)
                (new chatA_only)) as (_ & _ & H).
    destruct H as (H1 & _).
    + vm_compute. discriminate.
    + exact H1.
Defined.

Lemma other_conversations_untouched_witness :
  let s' := exec (applyCall mockConfig (t0 + 1000) (CallStartResponseTimer "chatB" 0%nat))
              inCooldown in
  lookupState "chatA" s' = lookupState "chatA" inCooldown
  /\ eval (isInCooldown "chatA") s' = eval (isInCooldown "chatA") inCooldown
  /\ eval (getRemainingTime mockConfig "chatA" (t0 + 2000)) s'
     = eval (getRemainingTime mockConfig "chatA" (t0 + 2000)) inCooldown.
Proof.
  apply (other_conversations_untouched mockConfig (t0 + 1000) (t0 + 2000)
           (CallStartResponseTimer "chatB" 0%nat) "chatA" inCooldown).
  - apply (handleGiladResponse_consistent mockConfig "chatA" t0 (new chatA_only)).
    apply new_consistent.
  - discriminate.
Defined.

Lemma clearCooldown_keeps_ledger_cooldown_witness :
  let st := TimerState.mk "chatA" None (Some 0%nat) (Some 1700000000000) true in
  let s' := exec (clearCooldown "chatA" (t0 + 1000)) inCooldown in
  lookupState "chatA" s'
  = Some (TimerState.set_isInCooldown false (TimerState.set_cooldownTimer None st))
  /\ pending s' = delete 0%nat (pending inCooldown).
Proof.
  cbv zeta.
  destruct (clearCooldown_keeps_ledger_cooldown "chatA" (t0 + 1000) inCooldown)
    as (_ & _ & H & _).
  apply H.
  - vm_compute. reflexivity.
  - reflexivity.
Defined.

Lemma cleanup_removes_only_idle_witness :
  let st := TimerState.mk "chatA" None (Some 0%nat) (Some 1700000000000) true in
  lookupState "chatA" (exec (cleanupTimers mockConfig (t0 + 1000)) inCooldown) = Some st.
Proof.
  cbv zeta.
  destruct (cleanup_removes_only_idle mockConfig (t0 + 1000) inCooldown "chatA"
              (TimerState.mk "chatA" None (Some 0%nat) (Some 1700000000000) true))
    as (_ & _ & H & _).
  - apply (handleGiladResponse_consistent mockConfig "chatA" t0 (new chatA_only)).
    apply new_consistent.
  - vm_compute. reflexivity.
  - apply H.
    + reflexivity.
    + reflexivity.
    + vm_compute. reflexivity.
Defined.

Lemma cleanup_expires_cooldowns_witness :
  let st := TimerState.mk "chatA" None (Some 0%nat) (Some 1700000000000) true in
  let s' := exec (cleanupTimers mockConfig (t0 + 18000000)) inCooldown in
  lookupState "chatA" s'
  = Some (TimerState.set_cooldownTimer None (TimerState.set_isInCooldown false st))
  /\ pending s' !! 0%nat = pending inCooldown !! 0%nat.
Proof.
  cbv zeta.
  destruct (cleanup_expires_cooldowns mockConfig (t0 + 18000000) inCooldown) as [_ H].
  - apply (handleGiladResponse_consistent mockConfig "chatA" t0 (new chatA_only)).
    apply new_consistent.
  - apply H.
    + vm_compute. reflexivity.
    + reflexivity.
    + reflexivity.
    + vm_compute. discriminate.
    + reflexivity.
Defined.

